(** * Techno-Notes: the PDF-to-LLM service of [app.py]

    A shallow embedding of the validators, the rate limiter, the
    configuration store, the Ollama set-up sequence and the upload /
    download pipeline of [src/app.py], with the properties the
    specification states about them.

    Conventions.
    - A Python [str] is a [string]; each character is a code point below
      256.  [lower] and [isspace] follow [str.lower] and [str.isspace] on
      that range.
    - A text file is modelled by the text written to it.  Reading in text
      mode translates line ends ([universal_newlines]).  Whether a text can
      be encoded as UTF-8 (it holds no lone surrogate) is an argument of
      the functions that write one.
    - What [request.get_json()] gives, a parsed body or an exception, is an
      argument of the routes that call it.
    - Calls that leave the process (subprocesses, HTTP requests, the PDF
      reader, [secrets]) take their outcome from an explicit environment
      argument, so every function below is total and executable. *)

From Stdlib Require Import ZArith QArith Lia Lqa Ascii String List Bool.
From stdpp Require Import gmap strings list fin_maps pretty.

Local Open Scope string_scope.

(** stdpp keeps [simpl] from unfolding string concatenation; the proofs
    below compute with it. *)
#[local] Arguments String.append !_ _ / : simpl nomatch.

(** ** Python values *)

(** The values that cross the JSON boundary ([json.load], [request.get_json],
    [jsonify]). *)
#[local] Set Warnings "-register-all".
Inductive pyval : Type :=
| PNone
| PBool (b : bool)
| PInt (z : Z)
| PFloat (q : Q)
| PStr (s : string)
| PList (l : list pyval)
| PDict (d : gmap string pyval).

(** [bool(v)] *)
Definition truthy (v : pyval) : bool :=
  match v with
  | PNone => false
  | PBool b => b
  | PInt z => negb (z =? 0)%Z
  | PFloat q => negb (Qeq_bool q 0)
  | PStr s => negb (String.eqb s "")
  | PList l => match l with [] => false | _ => true end
  | PDict d => negb (bool_decide (d = ∅))
  end.

(** [isinstance(v, str)] *)
Definition is_str (v : pyval) : bool :=
  match v with PStr _ => true | _ => false end.

(** [isinstance(v, dict)] *)
Definition is_dict (v : pyval) : bool :=
  match v with PDict _ => true | _ => false end.

(** ** String primitives of the Python runtime *)

Module Py.

(** [c.lower()] for one character *)
Definition lower_char (c : ascii) : ascii :=
  let n := N_of_ascii c in
  if ((65 <=? n) && (n <=? 90) || (192 <=? n) && (n <=? 222) && negb (n =? 215))%N
  then ascii_of_N (n + 32) else c.

Fixpoint smap (f : ascii -> ascii) (s : string) : string :=
  match s with
  | EmptyString => EmptyString
  | String c r => String (f c) (smap f r)
  end.

(** [s.lower()] *)
Definition lower (s : string) : string := smap lower_char s.

(** [c.isspace()] *)
Definition isspace (c : ascii) : bool :=
  let n := N_of_ascii c in
  ((9 <=? n) && (n <=? 13) || (28 <=? n) && (n <=? 32) || (n =? 133) || (n =? 160))%N.

Fixpoint lstrip_by (p : ascii -> bool) (s : string) : string :=
  match s with
  | EmptyString => EmptyString
  | String c r => if p c then lstrip_by p r else s
  end.

Fixpoint rstrip_by (p : ascii -> bool) (s : string) : string :=
  match s with
  | EmptyString => EmptyString
  | String c r =>
      match rstrip_by p r with
      | EmptyString => if p c then EmptyString else String c EmptyString
      | r' => String c r'
      end
  end.

(** [s.strip()] *)
Definition strip (s : string) : string := rstrip_by isspace (lstrip_by isspace s).

(** [c in chars] for one character *)
Fixpoint has_char (c : ascii) (chars : string) : bool :=
  match chars with
  | EmptyString => false
  | String x r => Ascii.eqb c x || has_char c r
  end.

(** [s.strip(chars)] *)
Definition strip_chars (chars : string) (s : string) : string :=
  rstrip_by (fun c => has_char c chars) (lstrip_by (fun c => has_char c chars) s).

(** [s.endswith(p)] *)
Fixpoint endswith (s p : string) : bool :=
  String.eqb s p ||
  match s with
  | EmptyString => false
  | String _ r => endswith r p
  end.

(** [s.split(sep)] for a one-character separator *)
Fixpoint split (sep : ascii) (s : string) : list string :=
  match s with
  | EmptyString => [EmptyString]
  | String c r =>
      if Ascii.eqb c sep then EmptyString :: split sep r
      else match split sep r with
           | h :: t => String c h :: t
           | [] => [String c EmptyString]
           end
  end.

(** [s.split()]: the maximal runs of characters that are not whitespace *)
Fixpoint split_ws (s : string) : list string :=
  match s with
  | EmptyString => []
  | String c r =>
      if isspace c then split_ws r
      else match r with
           | EmptyString => [String c EmptyString]
           | String c' _ =>
               if isspace c' then String c EmptyString :: split_ws r
               else match split_ws r with
                    | h :: t => String c h :: t
                    | [] => [String c EmptyString]
                    end
           end
  end.

(** [sep.join(l)] *)
Fixpoint join (sep : string) (l : list string) : string :=
  match l with
  | [] => EmptyString
  | [x] => x
  | x :: r => x ++ sep ++ join sep r
  end.

(** The characters of [s] that satisfy [p]. *)
Fixpoint sfilter (p : ascii -> bool) (s : string) : string :=
  match s with
  | EmptyString => EmptyString
  | String c r => if p c then String c (sfilter p r) else sfilter p r
  end.

(** Every character of [s] satisfies [p]. *)
Fixpoint sall (p : ascii -> bool) (s : string) : bool :=
  match s with
  | EmptyString => true
  | String c r => p c && sall p r
  end.

(** The line feed. *)
Definition nl : string := String "010" EmptyString.

(** [p] is a prefix of [s]. *)
Fixpoint prefix (p s : string) : bool :=
  match p with
  | EmptyString => true
  | String x p' =>
      match s with
      | EmptyString => false
      | String y s' => Ascii.eqb x y && prefix p' s'
      end
  end.

(** [s.startswith(p)] *)
Definition startswith (s p : string) : bool := prefix p s.

(** [sub in s] *)
Fixpoint contains (sub s : string) : bool :=
  prefix sub s ||
  match s with
  | EmptyString => false
  | String _ r => contains sub r
  end.

(** Split at the last occurrence of the character [sep]:
    [Some (before, after)], or [None] when [sep] does not occur. *)
Fixpoint rpartition (sep : ascii) (s : string) : option (string * string) :=
  match s with
  | EmptyString => None
  | String c r =>
      match rpartition sep r with
      | Some (b, a) => Some (String c b, a)
      | None => if Ascii.eqb c sep then Some (EmptyString, r) else None
      end
  end.

(** [s.rsplit(sep, 1)] for a one-character separator *)
Definition rsplit1 (sep : ascii) (s : string) : list string :=
  match rpartition sep s with
  | Some (b, a) => [b; a]
  | None => [s]
  end.

(** [len(s)] *)
Definition len (s : string) : Z := Z.of_nat (String.length s).

(** The first [n] characters (none when [n <= 0]). *)
Fixpoint take (n : Z) (s : string) : string :=
  match s with
  | EmptyString => EmptyString
  | String c r => if (n <=? 0)%Z then EmptyString else String c (take (n - 1) r)
  end.

(** [s[:n]], with Python's reading of a negative bound *)
Definition slice_to (n : Z) (s : string) : string :=
  if (0 <=? n)%Z then take n s else take (len s + n) s.

(** [s.replace(c, by)] for a one-character pattern *)
Fixpoint replace (c : ascii) (by_ : string) (s : string) : string :=
  match s with
  | EmptyString => EmptyString
  | String x r =>
      if Ascii.eqb x c then by_ ++ replace c by_ r else String x (replace c by_ r)
  end.

(** [x in xs] for a collection of strings *)
Definition mem (x : string) (xs : list string) : bool :=
  existsb (String.eqb x) xs.

End Py.

(** [posixpath.basename]: the text after the last slash. *)
Definition os_path_basename (p : string) : string :=
  match Py.rpartition "/" p with
  | Some (_, a) => a
  | None => p
  end.

(** ** Sanitizer / Validator *)

(** The sets are only tested for membership and scanned with an early
    [return True], so their iteration order is immaterial; they are kept as
    duplicate-free lists. *)
Definition ALLOWED_EXTENSIONS : list string := ["pdf"].

Definition ALLOWED_MODELS : list string :=
  [ "llama2"; "llama2:7b"; "llama2:13b"; "llama2:70b";
    "llama3"; "llama3:8b"; "llama3.2"; "llama3.2:1b"; "llama3.2:3b";
    "mistral"; "mistral:7b";
    "phi"; "phi:2.7b"; "phi3";
    "codellama"; "codellama:7b";
    "gemma"; "gemma:2b"; "gemma:7b" ].

Definition validate_filename (filename : pyval) : bool :=
  if negb (truthy filename) || negb (is_str filename) then false
  else match filename with
  | PStr filename =>
      let filename := os_path_basename filename in
      if Py.contains ".." filename || Py.contains "/" filename
         || Py.contains "\" filename
      then false
      else if (255 <? String.length filename)%nat then false
      else Py.contains "." filename &&
           match Py.rsplit1 "." filename !! 1%nat with
           | Some ext => Py.mem (Py.lower ext) ALLOWED_EXTENSIONS
           | None => false
           end
  | _ => false
  end.

Definition validate_model_name (model_name : pyval) : bool :=
  if negb (truthy model_name) || negb (is_str model_name) then false
  else match model_name with
  | PStr model_name =>
      let model_name := Py.strip (Py.lower model_name) in
      if (50 <? String.length model_name)%nat then false
      else existsb (fun allowed =>
                      String.eqb model_name allowed
                      || Py.startswith model_name (allowed ++ ":"))
                   ALLOWED_MODELS
  | _ => false
  end.

Definition sanitize_input (text : pyval) (max_length : Z) : string :=
  match text with
  | PStr text =>
      let text := Py.slice_to max_length text in
      let text := Py.replace Ascii.zero "" text in
      Py.replace ">" "&gt;" (Py.replace "<" "&lt;" text)
  | _ => ""
  end.


(** ** Exceptions *)

Inductive exn_class : Type :=
| Exception
| OSError | FileNotFoundError | IsADirectoryError
| ValueError | JSONDecodeError | UnicodeDecodeError | UnicodeEncodeError
| KeyError | AttributeError | TypeError | RecursionError
| TimeoutExpired | CalledProcessError
| RequestException | RequestsTimeout | HTTPError
| BadRequest.

(** [issubclass(c, d)].  The [requests] exceptions derive from [IOError],
    which is [OSError]; [BadRequest] stands for the [HTTPException]s that
    [request.get_json()] raises. *)
Definition issubclass (c d : exn_class) : bool :=
  match d, c with
  | Exception, _ => true
  | OSError, (OSError | FileNotFoundError | IsADirectoryError
             | RequestException | RequestsTimeout | HTTPError) => true
  | ValueError, (ValueError | JSONDecodeError | UnicodeDecodeError
                | UnicodeEncodeError) => true
  | RequestException, (RequestException | RequestsTimeout | HTTPError) => true
  | FileNotFoundError, FileNotFoundError => true
  | IsADirectoryError, IsADirectoryError => true
  | JSONDecodeError, JSONDecodeError => true
  | UnicodeDecodeError, UnicodeDecodeError => true
  | UnicodeEncodeError, UnicodeEncodeError => true
  | RecursionError, RecursionError => true
  | BadRequest, BadRequest => true
  | KeyError, KeyError => true
  | AttributeError, AttributeError => true
  | TypeError, TypeError => true
  | TimeoutExpired, TimeoutExpired => true
  | CalledProcessError, CalledProcessError => true
  | RequestsTimeout, RequestsTimeout => true
  | HTTPError, HTTPError => true
  | _, _ => false
  end.

(** An exception object: its class, [str(e)], and the [stderr] attribute
    of a [CalledProcessError] (empty otherwise). *)
Record exn : Type := Exn {
  exn_cls : exn_class;
  exn_str : string;
  exn_stderr : string
}.

Definition mk_exn (c : exn_class) (msg : string) : exn := Exn c msg "".

Definition isinstance (e : exn) (c : exn_class) : bool := issubclass (exn_cls e) c.

(** ** The state of the process and of its storage *)

(** An entry of the file system. *)
Inductive node : Type :=
| File (content : string)
| Dir.

(** What [CONFIG_FILE] holds, as [open] and [json.load] see it. *)
Inductive config_file : Type :=
| CfgAbsent           (* no such file *)
| CfgUnopenable       (* [open] raises [OSError] *)
| CfgUndecodable      (* reading raises [UnicodeDecodeError] *)
| CfgGarbage          (* [json.load] raises [JSONDecodeError] *)
| CfgTooDeep          (* [json.load] raises [RecursionError]: the text is
                         nested beyond the limit of the interpreter *)
| CfgJson (v : pyval) (* [json.load] returns [v] *).

(** [LLMManager.setup_progress] *)
Record progress_info : Type := Progress {
  stage : string;
  message : string;
  percent : Z;
  error : option string
}.

Record world : Type := World {
  fs : gmap string node;                  (* files and directories by path *)
  cfg_file : config_file;                 (* [CONFIG_FILE] on disk *)
  request_times : gmap string (list Q);   (* the module-level rate store *)
  config : gmap string pyval;             (* [llm_manager.config] *)
  setup_progress : progress_info;              (* [llm_manager.setup_progress] *)
  ollama_process : option Z               (* pid of [llm_manager.ollama_process] *)
}.

Definition set_fs (f : gmap string node) (w : world) : world :=
  World f (cfg_file w) (request_times w) (config w) (setup_progress w) (ollama_process w).
Definition set_cfg_file (c : config_file) (w : world) : world :=
  World (fs w) c (request_times w) (config w) (setup_progress w) (ollama_process w).
Definition set_request_times (r : gmap string (list Q)) (w : world) : world :=
  World (fs w) (cfg_file w) r (config w) (setup_progress w) (ollama_process w).
Definition set_config (c : gmap string pyval) (w : world) : world :=
  World (fs w) (cfg_file w) (request_times w) c (setup_progress w) (ollama_process w).
Definition set_setup_progress (p : progress_info) (w : world) : world :=
  World (fs w) (cfg_file w) (request_times w) (config w) p (ollama_process w).
Definition set_ollama_process (o : option Z) (w : world) : world :=
  World (fs w) (cfg_file w) (request_times w) (config w) (setup_progress w) o.

(** ** A state-and-exception monad for the Python code *)

Inductive res (A : Type) : Type :=
| Ok (a : A)
| Raise (e : exn).
Arguments Ok {A} a.
Arguments Raise {A} e.

Definition M (A : Type) : Type := world -> res A * world.

Definition ret {A} (a : A) : M A := fun w => (Ok a, w).
Definition raise {A} (e : exn) : M A := fun w => (Raise e, w).
Definition bind {A B} (m : M A) (k : A -> M B) : M B :=
  fun w => match m w with
           | (Ok a, w') => k a w'
           | (Raise e, w') => (Raise e, w')
           end.
(** The outcome of a call that leaves the process. *)
Definition lift_res {A} (r : res A) : M A := fun w => (r, w).
Definition gets {A} (f : world -> A) : M A := fun w => (Ok (f w), w).
Definition modify (f : world -> world) : M unit := fun w => (Ok tt, f w).

(** [try: m  except ...: h e]; a handler re-raises what its [except]
    clauses do not name. *)
Definition try_except {A} (m : M A) (h : exn -> M A) : M A :=
  fun w => match m w with
           | (Ok a, w') => (Ok a, w')
           | (Raise e, w') => h e w'
           end.

(** [try: m  finally: f] *)
Definition try_finally {A} (m : M A) (f : M unit) : M A :=
  fun w => match m w with
           | (r, w') => match f w' with
                        | (Ok _, w'') => (r, w'')
                        | (Raise e, w'') => (Raise e, w'')
                        end
           end.

Declare Scope py_scope.
Delimit Scope py_scope with py.
Notation "x <- m ;; k" := (bind m (fun x => k))
  (at level 100, m at next level, right associativity) : py_scope.
Notation "m ;; k" := (bind m (fun _ => k))
  (at level 100, right associativity) : py_scope.
Local Open Scope py_scope.

(** [except C: ...] for one class: run [h] when the exception is an
    instance of [c], re-raise otherwise. *)
Definition on (c : exn_class) {A} (h : exn -> M A) (e : exn) : M A :=
  if isinstance e c then h e else raise e.

(** ** File-system calls *)

Definition os_path_exists (p : string) : M bool :=
  gets (fun w => bool_decide (is_Some (fs w !! p))).

Definition os_path_isfile (p : string) : M bool :=
  gets (fun w => match fs w !! p with Some (File _) => true | _ => false end).

Definition os_remove (p : string) : M unit :=
  fun w => match fs w !! p with
           | Some (File _) => (Ok tt, set_fs (delete p (fs w)) w)
           | Some Dir => (Raise (mk_exn IsADirectoryError "Is a directory"), w)
           | None => (Raise (mk_exn FileNotFoundError "No such file or directory"), w)
           end.

(** [os.path.getsize]; a directory reports the size of its own entry. *)
Definition os_path_getsize (p : string) : M Z :=
  fun w => match fs w !! p with
           | Some (File c) => (Ok (Py.len c), w)
           | Some Dir => (Ok 4096%Z, w)
           | None => (Raise (mk_exn FileNotFoundError "No such file or directory"), w)
           end.

(** A file written as bytes: [FileStorage.save], and the output file of
    [curl]. *)
Definition write_file (p content : string) : M unit :=
  fun w => match fs w !! p with
           | Some Dir => (Raise (mk_exn IsADirectoryError "Is a directory"), w)
           | _ => (Ok tt, set_fs (<[p := File content]> (fs w)) w)
           end.

(** [with open(p, 'w', encoding='utf-8') as f: f.write(text)].  [open]
    creates the file or empties it; [write] then encodes the text, and when
    the text cannot be encoded (it holds a lone surrogate) it raises
    [UnicodeEncodeError] and the file stays empty.  The strings of this
    model hold no surrogate, so [encodable] tells whether [text] stands for
    a text that can be encoded. *)
Definition write_text (p text : string) (encodable : bool) : M unit :=
  fun w => match fs w !! p with
           | Some Dir => (Raise (mk_exn IsADirectoryError "Is a directory"), w)
           | _ =>
               if encodable then (Ok tt, set_fs (<[p := File text]> (fs w)) w)
               else (Raise (mk_exn UnicodeEncodeError "surrogates not allowed"),
                     set_fs (<[p := File ""]> (fs w)) w)
           end.

(** What reading in text mode makes of the line ends: a carriage return,
    with the line feed that follows it if there is one, becomes a line
    feed. *)
Fixpoint universal_newlines (s : string) : string :=
  match s with
  | EmptyString => EmptyString
  | String c r =>
      if Ascii.eqb c "013" then
        String "010" match r with
                     | String c' r' =>
                         if Ascii.eqb c' "010" then universal_newlines r'
                         else universal_newlines r
                     | EmptyString => EmptyString
                     end
      else String c (universal_newlines r)
  end.

(** [with open(p, 'r', encoding='utf-8') as f: f.read(n)] *)
Definition read_file (p : string) (n : Z) : M string :=
  fun w => match fs w !! p with
           | Some (File c) => (Ok (Py.take n (universal_newlines c)), w)
           | Some Dir => (Raise (mk_exn IsADirectoryError "Is a directory"), w)
           | None => (Raise (mk_exn FileNotFoundError "No such file or directory"), w)
           end.

(** [os.chmod] changes no content; its [OSError] is swallowed at each call
    site, so it is a no-op here. *)
Definition os_chmod (p : string) (mode : Z) : M unit := ret tt.

Definition safe_remove_file (filepath : string) : M bool :=
  try_except
    (ex <- os_path_exists filepath ;;
     if ex : bool then (os_remove filepath ;; ret true) else ret false)
    (on OSError (fun e => ret false)).

(** ** Rate limiting *)

Definition RATE_LIMIT : nat := 10.
Definition RATE_WINDOW : Q := 60.

Definition Qltb (x y : Q) : bool := negb (Qle_bool y x).

(** A JSON response, or a file sent as an attachment; [on_close] lists the
    files the response removes when it is closed. *)
Inductive payload : Type :=
| Json (fields : list (string * pyval))
| Attachment (content : string).

Record response : Type := Response {
  status : Z;
  body : payload;
  on_close : list string
}.

Definition jsonify (fields : list (string * pyval)) (code : Z) : response :=
  Response code (Json fields) [].

(** The decorator: [client_ip] is [request.remote_addr] and [current_time]
    is [time.time()]. *)
Definition rate_limit (f : M response) (client_ip : string) (current_time : Q)
  : M response :=
  (* Clean old entries *)
  modify (fun w =>
    match request_times w !! client_ip with
    | Some l =>
        set_request_times
          (<[client_ip := List.filter (fun t => Qltb (current_time - t) RATE_WINDOW) l]>
             (request_times w)) w
    | None => w
    end) ;;
  (* Check rate limit *)
  limited <- gets (fun w =>
    match request_times w !! client_ip with
    | Some l => (RATE_LIMIT <=? length l)%nat
    | None => false
    end) ;;
  if limited : bool then
    ret (jsonify [("error", PStr "Rate limit exceeded. Try again later.")] 429)
  else
    (* Add current request *)
    modify (fun w =>
      match request_times w !! client_ip with
      | None => set_request_times (<[client_ip := []]> (request_times w)) w
      | Some _ => w
      end) ;;
    modify (fun w =>
      set_request_times
        (<[client_ip := ((request_times w !!! client_ip) ++ [current_time])%list]>
           (request_times w)) w) ;;
    f.

(** ** Outcomes of the calls that leave the process *)

(** How a [subprocess.run] ends. *)
Inductive run_outcome : Type :=
| Exited (returncode : Z) (out err : string)
| TimedOut      (* the timeout expires *)
| NotFound      (* no such executable *)
| OsFailure.    (* any other [OSError] *)

Record completed : Type := Completed {
  returncode : Z;
  stdout : string;
  stderr : string
}.

Definition subprocess_run (o : run_outcome) (check : bool) : M completed :=
  match o with
  | Exited rc out err =>
      if check && negb (rc =? 0)%Z
      then raise (Exn CalledProcessError
                      ("Command returned non-zero exit status " ++ pretty rc ++ ".") err)
      else ret (Completed rc out err)
  | TimedOut => raise (mk_exn TimeoutExpired "Command timed out")
  | NotFound => raise (mk_exn FileNotFoundError "No such file or directory")
  | OsFailure => raise (mk_exn OSError "OS error")
  end.

(** The two probes of [check_ollama_installed]: [ollama --version] and
    [which ollama]. *)
Record probe_env : Type := ProbeEnv {
  version_run : run_outcome;
  which_run : run_outcome
}.

(** The installer: what [curl] leaves at its output path (if anything), how
    [curl] ends, how [sh install_script] ends, and the probes that follow. *)
Record install_env : Type := InstallEnv {
  curl_file : option string;
  curl_run : run_outcome;
  installer_run : run_outcome;
  post_probe : probe_env
}.

Inductive health_outcome : Type :=
| HealthStatus (code : Z)
| HealthError.   (* [requests.RequestException] *)

(** Starting the service: whether an earlier handle is still alive, how
    [pkill] ends, the pid [Popen] returns (or its exception), the answer to
    the i-th health poll, and the error output of the process if it has
    exited by the end of the polling. *)
Record start_env : Type := StartEnv {
  handle_alive : bool;
  pkill_run : run_outcome;
  popen_serve : res Z;
  health : nat -> health_outcome;
  exited_stderr : option string
}.

(** The answer of [GET /api/tags]. *)
Inductive tags_outcome : Type :=
| TagsError                    (* [requests.RequestException] *)
| TagsNot200                   (* a status other than 200 *)
| TagsBadJson                  (* [response.json()] raises *)
| TagsMalformed                (* JSON of another shape: [AttributeError] *)
| TagsModels (names : list string).  (* the names in [data['models']] *)

(** [ollama pull]: whether [Popen] raises, the two clock readings before
    the loop, every output line with the clock reading taken for it, and the
    return code [process.wait] yields ([None]: it times out). *)
Record pull_env : Type := PullEnv {
  pull_popen : res unit;
  pull_start : Q;
  pull_first_update : Q;
  pull_lines : list (Q * string);
  pull_wait : option Z
}.

Record setup_env : Type := SetupEnv {
  probe : probe_env;
  start : start_env;
  tags : tags_outcome;
  pull : pull_env
}.

(** ** LLMManager *)

Definition default_config : gmap string pyval :=
  {[ "ollama_installed" := PBool false;
     "ollama_path" := PNone;
     "model_name" := PStr "llama2";
     "model_downloaded" := PBool false;
     "setup_complete" := PBool false ]}.

Definition idle_progress : progress_info := Progress "idle" "" 0 None.

(** [self.config[k] = v] *)
Definition config_set (k : string) (v : pyval) : M unit :=
  modify (fun w => set_config (<[k := v]> (config w)) w).

(** [self.config[k]] *)
Definition config_get (k : string) : M pyval :=
  fun w => match config w !! k with
           | Some v => (Ok v, w)
           | None => (Raise (mk_exn KeyError ("'" ++ k ++ "'")), w)
           end.

(** [self.setup_progress['error'] = msg] *)
Definition set_error (msg : string) : M unit :=
  modify (fun w =>
    let p := setup_progress w in
    set_setup_progress (Progress (stage p) (message p) (percent p) (Some msg)) w).

(** [self.setup_progress['message'] = msg] *)
Definition set_message (msg : string) : M unit :=
  modify (fun w =>
    let p := setup_progress w in
    set_setup_progress (Progress (stage p) msg (percent p) (error p)) w).

(** The text of a value known to be a string. *)
Definition str_of (v : pyval) : string :=
  match v with PStr s => s | _ => "" end.

Definition load_config : M (gmap string pyval) :=
  loaded <- try_except
    (cf <- gets cfg_file ;;
     match cf with
     | CfgAbsent => ret None
     | CfgUnopenable => raise (mk_exn OSError "cannot open")
     | CfgUndecodable => raise (mk_exn UnicodeDecodeError "invalid start byte")
     | CfgGarbage => raise (mk_exn JSONDecodeError "Expecting value")
     | CfgTooDeep => raise (mk_exn RecursionError "maximum recursion depth exceeded")
     | CfgJson (PDict config) =>
         match config !! "model_name" with
         | Some name =>
             if negb (validate_model_name name)
             then ret (Some (<["model_name" := PStr "llama2"]> config))
             else ret (Some config)
         | None => ret (Some config)
         end
     | CfgJson _ => raise (mk_exn ValueError "Invalid config format")
     end)
    (fun e =>
       if isinstance e JSONDecodeError || isinstance e ValueError || isinstance e OSError
       then ret None else raise e) ;;
  match loaded with
  | Some config => ret config
  | None => ret default_config
  end.

Definition save_config : M unit :=
  try_except
    (cf <- gets cfg_file ;;
     match cf with
     | CfgUnopenable => raise (mk_exn OSError "cannot open")
     | _ => modify (fun w => set_cfg_file (CfgJson (PDict (config w))) w)
     end)
    (on OSError (fun e => ret tt)).

(** [LLMManager()]: a new object, on which no attribute is set yet (the
    empty [config] stands for the missing one), then [__init__].  When
    [load_config] raises, [__init__] raises with it and no attribute is set. *)
Definition init_manager : M unit :=
  modify (set_config ∅) ;;
  c <- load_config ;;
  modify (fun w => set_ollama_process None (set_setup_progress idle_progress (set_config c w))).

Definition update_progress (stage message : string) (percent : Z) : M unit :=
  modify (set_setup_progress
            (Progress (sanitize_input (PStr stage) 50)
                      (sanitize_input (PStr message) 200)
                      (Z.max 0 (Z.min 100 percent))
                      None)).

(** [s.split('\n')[0]] *)
Fixpoint first_line (s : string) : string :=
  match s with
  | EmptyString => EmptyString
  | String c r => if Ascii.eqb c "010" then EmptyString else String c (first_line r)
  end.

Definition get_ollama_path (env : probe_env) : M pyval :=
  try_except
    (result <- subprocess_run (which_run env) false ;;
     if (returncode result =? 0)%Z then
       let path := first_line (Py.strip (stdout result)) in
       isf <- os_path_isfile path ;;
       if isf : bool then ret (PStr path) else ret PNone
     else ret PNone)
    (fun e =>
       if isinstance e TimeoutExpired || isinstance e OSError then ret PNone else raise e).

Definition check_ollama_installed (env : probe_env) : M bool :=
  try_except
    (result <- subprocess_run (version_run env) false ;;
     if (returncode result =? 0)%Z then
       config_set "ollama_installed" (PBool true) ;;
       path <- get_ollama_path env ;;
       config_set "ollama_path" path ;;
       save_config ;;
       ret true
     else ret false)
    (fun e =>
       if isinstance e FileNotFoundError || isinstance e TimeoutExpired
          || isinstance e OSError
       then ret false else raise e).

Definition install_script : string := "/tmp/ollama_install.sh".

(** [curl ... -o out]: the file it leaves behind, then its exit. *)
Definition curl (env : install_env) (out : string) : M completed :=
  match curl_file env with
  | Some c => try_except (write_file out c) (fun _ => ret tt)
  | None => ret tt
  end ;;
  subprocess_run (curl_run env) true.

Definition install_ollama (env : install_env) : M bool :=
  update_progress "installing" "Installing Ollama..." 20 ;;
  try_except
    ((* Download install script *)
     update_progress "installing" "Downloading Ollama installer..." 25 ;;
     _ <- curl env install_script ;;
     ex <- os_path_exists install_script ;;
     if negb ex then raise (mk_exn Exception "Install script download failed") else
     file_size <- os_path_getsize install_script ;;
     if (file_size >? 1000000)%Z || (file_size <? 100)%Z then
       safe_remove_file install_script ;;
       raise (mk_exn Exception
                ("Install script size suspicious: " ++ pretty file_size ++ " bytes"))
     else
     os_chmod install_script 448 ;;
     (* Run install script *)
     update_progress "installing" "Running Ollama installer..." 40 ;;
     _ <- subprocess_run (installer_run env) true ;;
     safe_remove_file install_script ;;
     ok <- check_ollama_installed (post_probe env) ;;
     if ok : bool then
       update_progress "installed" "Ollama installed successfully" 50 ;;
       ret true
     else
       raise (mk_exn Exception
                "Installation completed but ollama command not found in PATH"))
    (fun e =>
       if isinstance e TimeoutExpired then
         set_error "Installation timeout - check network connection" ;;
         ret false
       else if isinstance e CalledProcessError then
         let error_msg :=
           if negb (String.eqb (exn_stderr e) "") then exn_stderr e else exn_str e in
         set_error ("Installation failed: " ++ Py.take 100 error_msg) ;;
         ret false
       else if isinstance e Exception then
         set_error (Py.take 200 (exn_str e)) ;;
         ret false
       else raise e).

(** The polling loop of [start_ollama_service]: [true] as soon as one of
    the polls numbered in [rounds] answers 200. *)
Fixpoint wait_for_service (health : nat -> health_outcome) (rounds : list nat) : bool :=
  match rounds with
  | [] => false
  | i :: rest =>
      match health i with
      | HealthStatus code => if (code =? 200)%Z then true else wait_for_service health rest
      | HealthError => wait_for_service health rest
      end
  end.

Definition start_ollama_service (env : start_env) : M bool :=
  proc <- gets ollama_process ;;
  if bool_decide (is_Some proc) && handle_alive env then ret true else
  try_except
    (update_progress "starting" "Starting Ollama service..." 60 ;;
     (* Kill existing processes *)
     try_except
       (_ <- subprocess_run (pkill_run env) false ;; ret tt)
       (fun e =>
          if isinstance e TimeoutExpired || isinstance e OSError then ret tt else raise e) ;;
     (* Start service *)
     pid <- lift_res (popen_serve env) ;;
     modify (set_ollama_process (Some pid)) ;;
     (* Wait for service *)
     if wait_for_service (health env) (seq 0 30) then
       update_progress "started" "Ollama service running" 70 ;;
       ret true
     else
     (* Check if process died *)
     match exited_stderr env with
     | Some err =>
         let stderr := Py.take 500 err in
         raise (mk_exn Exception ("Ollama service failed to start: " ++ Py.take 200 stderr))
     | None => ret false
     end)
    (on Exception (fun e => set_error (Py.take 200 (exn_str e)) ;; ret false)).

Definition check_model_downloaded (env : tags_outcome) (model_name : option pyval)
  : M bool :=
  model_name <- match model_name with
                | None => config_get "model_name"
                | Some v => ret v
                end ;;
  if negb (validate_model_name model_name) then ret false else
  try_except
    (match env with
     | TagsError => raise (mk_exn RequestException "connection refused")
     | TagsNot200 => ret false
     | TagsBadJson => raise (mk_exn JSONDecodeError "Expecting value")
     | TagsMalformed => raise (mk_exn AttributeError "object has no attribute 'get'")
     | TagsModels names =>
         if existsb (fun name => Py.contains (str_of model_name) name) names then
           config_set "model_downloaded" (PBool true) ;;
           save_config ;;
           ret true
         else ret false
     end)
    (fun e =>
       if isinstance e RequestException || isinstance e JSONDecodeError
       then ret false else raise e).

(** The loop over [process.stdout] of [download_model]. *)
Fixpoint pull_loop (start_time last_update : Q) (lines : list (Q * string)) : M unit :=
  match lines with
  | [] => ret tt
  | (current_time, line) :: rest =>
      (* Timeout check (30 minutes) *)
      if Qltb 1800 (current_time - start_time) then
        raise (mk_exn Exception "Download timeout (30 minutes exceeded)")
      (* Update progress message every 2 seconds *)
      else if Qltb 2 (current_time - last_update) then
        if Py.contains "pulling" (Py.lower line)
           || Py.contains "downloading" (Py.lower line) then
          let clean_line := Py.take 200 (Py.strip line) in
          set_message (sanitize_input (PStr clean_line) 200) ;;
          pull_loop start_time current_time rest
        else pull_loop start_time last_update rest
      else pull_loop start_time last_update rest
  end.

Definition download_model (env : pull_env) (model_name : option pyval) : M bool :=
  (* if model_name is None: model_name = self.config['model_name'] *)
  model_name <- match model_name with
                | None | Some PNone => config_get "model_name"
                | Some v => ret v
                end ;;
  if negb (validate_model_name model_name) then
    set_error "Invalid model name" ;;
    ret false
  else
  update_progress "downloading" ("Downloading model " ++ str_of model_name ++ "...") 80 ;;
  try_except
    (_ <- lift_res (pull_popen env) ;;
     pull_loop (pull_start env) (pull_first_update env) (pull_lines env) ;;
     match pull_wait env with
     | None => raise (mk_exn TimeoutExpired "Command timed out")
     | Some rc =>
         if (rc =? 0)%Z then
           config_set "model_name" model_name ;;
           config_set "model_downloaded" (PBool true) ;;
           save_config ;;
           update_progress "complete" ("Model " ++ str_of model_name ++ " ready") 95 ;;
           ret true
         else
           raise (mk_exn Exception ("Download failed with exit code " ++ pretty rc))
     end)
    (fun e =>
       if isinstance e TimeoutExpired then set_error "Download timeout" ;; ret false
       else if isinstance e Exception then
         set_error (Py.take 200 (exn_str e)) ;; ret false
       else raise e).

(** The block that [auto_setup] runs while it holds [setup_lock]. *)
Definition auto_setup_locked (env : setup_env) (model_name : pyval) : M bool :=
  try_except
    ((* Step 1: Check Ollama is installed *)
     installed <- check_ollama_installed (probe env) ;;
     if negb installed then
       update_progress "error" "Ollama not installed. Please run ./setup.sh first" 0 ;;
       ret false
     else
     update_progress "checking" "Ollama detected" 20 ;;
     (* Step 2: Start service *)
     started <- start_ollama_service (start env) ;;
     if negb started then ret false else
     (* Step 3: Download model *)
     present <- check_model_downloaded (tags env) (Some model_name) ;;
     have_model <-
       (if negb present then download_model (pull env) (Some model_name)
        else
          update_progress "checking"
            ("Model " ++ str_of model_name ++ " already downloaded") 90 ;;
          ret true) ;;
     if negb have_model then ret false else
     (* Mark complete *)
     config_set "setup_complete" (PBool true) ;;
     save_config ;;
     update_progress "complete" "Setup complete - System ready" 100 ;;
     ret true)
    (on Exception (fun e => set_error (Py.take 200 (exn_str e)) ;; ret false)).

(** [auto_setup] as one thread runs it when no other thread holds the lock:
    [with self.setup_lock] acquires at once and releases on every exit. *)
Definition auto_setup (env : setup_env) (model_name : pyval) : M bool :=
  if negb (validate_model_name model_name) then
    set_error "Invalid model name" ;;
    ret false
  else auto_setup_locked env model_name.

(** The [/set_model] route.  [get_json] is what [request.get_json()] does:
    it returns the parsed body, or it raises (a body that is not JSON). *)
Definition set_model (get_json : res pyval) : M response :=
  try_except
    (data <- lift_res get_json ;;
     if negb (truthy data) || negb (is_dict data) then
       ret (jsonify [("error", PStr "Invalid request")] 400)
     else
     let model_name := match data with
                       | PDict d => default PNone (d !! "model_name")
                       | _ => PNone
                       end in
     if negb (is_str model_name) then
       ret (jsonify [("error", PStr "Invalid model name type")] 400)
     else if negb (validate_model_name model_name) then
       ret (jsonify [("error", PStr "Invalid model name")] 400)
     else
       config_set "model_name" model_name ;;
       save_config ;;
       ret (jsonify [("success", PBool true)] 200))
    (on Exception (fun e =>
       ret (jsonify [("error", PStr (Py.take 200 (exn_str e)))] 500))).

(** ** Paths ([posixpath]) *)

Definition os_path_join (a b : string) : string :=
  if Py.startswith b "/" then b
  else if String.eqb a "" || Py.endswith a "/" then a ++ b
  else a ++ "/" ++ b.

Definition os_path_isabs (p : string) : bool := Py.startswith p "/".

(** One round of the loop of [normpath] over the components. *)
Definition normpath_step (initial_slashes : nat) (new_comps : list string)
  (comp : string) : list string :=
  if Py.mem comp [""; "."] then new_comps
  else if negb (String.eqb comp "..")
          || (Nat.eqb initial_slashes 0 && bool_decide (new_comps = []))
          || (negb (bool_decide (new_comps = []))
              && String.eqb (List.last new_comps "") "..")
  then (new_comps ++ [comp])%list
  else if negb (bool_decide (new_comps = [])) then removelast new_comps
  else new_comps.

Fixpoint slashes (n : nat) : string :=
  match n with
  | O => ""
  | S n' => String "/" (slashes n')
  end.

Definition os_path_normpath (path : string) : string :=
  if String.eqb path "" then "." else
  let initial_slashes :=
    if Py.startswith path "/" then
      if Py.startswith path "//" && negb (Py.startswith path "///") then 2%nat else 1%nat
    else 0%nat in
  let comps := Py.split "/" path in
  let new_comps := fold_left (normpath_step initial_slashes) comps [] in
  let path := Py.join "/" new_comps in
  let path := slashes initial_slashes ++ path in
  if String.eqb path "" then "." else path.

(** [PurePath(name).stem] for a name without a slash *)
Definition path_stem (name : string) : string :=
  match Py.rpartition "." name with
  | Some (b, a) =>
      if negb (String.eqb b "") && negb (String.eqb a "") then b else name
  | None => name
  end.

(** ** Random tokens ([secrets.token_hex]) *)

Definition hex_digit (n : N) : ascii :=
  match n with
  | 0%N => "0" | 1%N => "1" | 2%N => "2" | 3%N => "3"
  | 4%N => "4" | 5%N => "5" | 6%N => "6" | 7%N => "7"
  | 8%N => "8" | 9%N => "9" | 10%N => "a" | 11%N => "b"
  | 12%N => "c" | 13%N => "d" | 14%N => "e" | _ => "f"
  end%char.

Fixpoint hex_digits (k : nat) (r : N) (acc : string) : string :=
  match k with
  | O => acc
  | S k' => hex_digits k' (r / 16)%N (String (hex_digit (r mod 16)%N) acc)
  end.

(** [secrets.token_hex(nbytes)]: the hexadecimal text of [nbytes] random
    bytes, here the low bytes of [entropy]. *)
Definition token_hex (nbytes : nat) (entropy : N) : string :=
  hex_digits (2 * nbytes) entropy "".

(** ** The document pipeline *)

Inductive page_outcome : Type :=
| PageText (t : string)   (* [extract_text()] returns [t]; empty for [None] *)
| PageFails.              (* [extract_text()] raises *)

Inductive pdf_reader : Type :=
| ReaderFails (e : exn)                  (* opening or parsing raises *)
| ReaderPages (pages : list page_outcome).

(** The answer of [POST /api/generate]. *)
Inductive generate_outcome : Type :=
| GenTimeout                        (* [requests.Timeout] *)
| GenRequestError (msg : string)    (* another [RequestException], also from
                                       [raise_for_status] *)
| GenBadJson                        (* [response.json()] raises *)
| GenJson (result : pyval).

Record pdf_env : Type := PdfEnv {
  upload_entropy : N;
  pypdf2_installed : bool;
  reader : pdf_reader;
  generate : generate_outcome;
  output_entropy : N;
  answer_encodable : bool   (* whether the text of the answer can be encoded
                               as UTF-8: one with a lone surrogate cannot *)
}.

(** [request.files['file']] *)
Record upload : Type := Upload {
  up_filename : string;
  up_content : string
}.

Definition MAX_CONTENT_LENGTH : Z := 50 * 1024 * 1024.

(** [[A-Za-z0-9_.-]], the complement of [_filename_ascii_strip_re] *)
Definition filename_char (c : ascii) : bool :=
  let n := N_of_ascii c in
  ((65 <=? n) && (n <=? 90) || (97 <=? n) && (n <=? 122) || (48 <=? n) && (n <=? 57)
   || (n =? 95) || (n =? 46) || (n =? 45))%N.

Definition is_ascii (c : ascii) : bool := (N_of_ascii c <? 128)%N.

(** Letters and digits. *)
Definition alnum (c : ascii) : bool :=
  let n := N_of_ascii c in
  ((65 <=? n) && (n <=? 90) || (97 <=? n) && (n <=? 122) || (48 <=? n) && (n <=? 57))%N.

(** What [os.path.join(a, b)] puts before a relative [b]. *)
Definition join_prefix (a : string) : string :=
  if String.eqb a "" || Py.endswith a "/" then a else a ++ "/".

(** A fold that keeps the ASCII characters and drops the others. *)
Definition drop_non_ascii (s : string) : string := Py.sfilter is_ascii s.

(** The loop of [extract_pdf_text] over the pages. *)
Fixpoint extract_pages (pages : list page_outcome) (text : string) : string :=
  match pages with
  | [] => text
  | PageFails :: rest => extract_pages rest text
  | PageText page_text :: rest =>
      let text :=
        if negb (String.eqb page_text "") then text ++ page_text ++ Py.nl else text in
      if (Py.len text >? 500000)%Z then Py.take 500000 text
      else extract_pages rest text
  end.

(** [len(v)] *)
Definition py_len (v : pyval) : M Z :=
  match v with
  | PStr s => ret (Py.len s)
  | PList l => ret (Z.of_nat (length l))
  | PDict d => ret (Z.of_nat (size d))
  | _ => raise (mk_exn TypeError "object has no len()")
  end.

Section App.

(** The directory of [app.py], the working directory, and
    [unicodedata.normalize("NFKD", s).encode("ascii", "ignore")]. *)
Variable app_dir : string.
Variable cwd : string.
Variable nfkd_ascii : string -> string.

Definition UPLOAD_FOLDER : string := os_path_join app_dir "uploads".
Definition OUTPUT_FOLDER : string := os_path_join app_dir "outputs".
Definition PROMPT_FILE : string := os_path_join app_dir "prompt.txt".

Definition os_path_abspath (path : string) : string :=
  os_path_normpath (if negb (os_path_isabs path) then os_path_join cwd path else path).

(** [werkzeug.utils.secure_filename] on a POSIX system *)
Definition secure_filename (filename : string) : string :=
  let filename := nfkd_ascii filename in
  let filename := Py.replace "/" " " filename in
  let filename := Py.sfilter filename_char (Py.join "_" (Py.split_ws filename)) in
  Py.strip_chars "._" filename.

Definition read_prompt : M string :=
  try_except
    (ex <- os_path_exists PROMPT_FILE ;;
     if ex : bool then
       content <- read_file PROMPT_FILE 50000 ;;
       ret (sanitize_input (PStr content) 10000)
     else ret "Analyze this PDF document and provide a summary.")
    (on OSError (fun e => ret "Analyze this PDF document and provide a summary.")).

Definition extract_pdf_text (env : pdf_env) (pdf_path : string) : M string :=
  if negb (pypdf2_installed env) then raise (mk_exn Exception "PyPDF2 not installed") else
  isf <- os_path_isfile pdf_path ;;
  if negb isf then raise (mk_exn Exception "PDF file not found") else
  file_size <- os_path_getsize pdf_path ;;
  if (file_size >? 50 * 1024 * 1024)%Z then
    raise (mk_exn Exception "PDF file too large (max 50MB)")
  else
  text <- try_except
    (match reader env with
     | ReaderFails e => raise e
     | ReaderPages pages => ret (extract_pages (firstn 100 pages) "")
     end)
    (on Exception (fun e =>
       raise (mk_exn Exception ("PDF extraction failed: " ++ Py.take 100 (exn_str e))))) ;;
  if String.eqb (Py.strip text) "" then
    raise (mk_exn Exception "No text could be extracted from PDF")
  else ret (sanitize_input (PStr text) 500000).

Definition query_ollama (env : generate_outcome) (prompt context : string) : M string :=
  let prompt := sanitize_input (PStr prompt) 10000 in
  let context := sanitize_input (PStr context) 100000 in
  _ <- config_get "model_name" ;;
  try_except
    (match env with
     | GenTimeout => raise (mk_exn RequestsTimeout "Read timed out")
     | GenRequestError msg => raise (mk_exn RequestException msg)
     | GenBadJson => raise (mk_exn JSONDecodeError "Expecting value")
     | GenJson result =>
         llm_response <-
           match result with
           | PDict d => ret (default (PStr "") (d !! "response"))
           | _ => raise (mk_exn AttributeError "object has no attribute 'get'")
           end ;;
         _ <- py_len llm_response ;;
         ret (sanitize_input llm_response 1000000)
     end)
    (fun e =>
       if isinstance e RequestsTimeout then
         raise (mk_exn Exception "LLM request timeout (5 minutes)")
       else if isinstance e RequestException then
         raise (mk_exn Exception ("LLM request failed: " ++ Py.take 100 (exn_str e)))
       else if isinstance e JSONDecodeError then
         raise (mk_exn Exception "Invalid LLM response format")
       else raise e).

Definition error_500 (e : exn) : response :=
  jsonify [("error", PStr (Py.take 200 (exn_str e)))] 500.

(** The path [process_pdf] saves the upload under: [None] when a check
    before [file.save] turns the request down. *)
Definition upload_path (env : pdf_env) (file : option upload) : option string :=
  match file with
  | None => None
  | Some file =>
      if String.eqb (up_filename file) "" then None
      else if negb (validate_filename (PStr (up_filename file))) then None
      else
        let filename := secure_filename (up_filename file) in
        if negb (Py.endswith (Py.lower filename) ".pdf") then None
        else Some (os_path_join UPLOAD_FOLDER
                     (token_hex 8 (upload_entropy env) ++ "_" ++ filename))
  end.

(** The name and the path of the output artifact of an upload. *)
Definition artifact_name (env : pdf_env) (f : upload) : string :=
  token_hex 8 (output_entropy env) ++ "_"
  ++ path_stem (secure_filename (up_filename f)) ++ "_output.txt".

Definition artifact_path (env : pdf_env) (f : upload) : string :=
  os_path_join OUTPUT_FOLDER (artifact_name env f).

(** The text [process_pdf] writes to the output artifact. *)
Definition produce_output (env : pdf_env) (filepath : string) : M string :=
  pdf_text <- extract_pdf_text env filepath ;;
  prompt <- read_prompt ;;
  query_ollama (generate env) prompt pdf_text.

(** The [/process_pdf] route.  The one [try ... except Exception] of the
    source is written as two nested ones that meet where [filepath] is
    assigned, so that each handler sees the value [filepath] has when the
    exception reaches it: [None] outside, the upload path inside. *)
Definition process_pdf (env : pdf_env) (file : option upload) : M response :=
  try_except
    (match file with
     | None => ret (jsonify [("error", PStr "No file provided")] 400)
     | Some file =>
       if String.eqb (up_filename file) "" then
         ret (jsonify [("error", PStr "No file selected")] 400)
       else if negb (validate_filename (PStr (up_filename file))) then
         ret (jsonify [("error", PStr "Invalid filename")] 400)
       else
       let filename := secure_filename (up_filename file) in
       if negb (Py.endswith (Py.lower filename) ".pdf") then
         ret (jsonify [("error", PStr "Only PDF files allowed")] 400)
       else
       let unique_filename := token_hex 8 (upload_entropy env) ++ "_" ++ filename in
       let filepath := os_path_join UPLOAD_FOLDER unique_filename in
       try_except
         (write_file filepath (up_content file) ;;
          size <- os_path_getsize filepath ;;
          if (size >? MAX_CONTENT_LENGTH)%Z then
            safe_remove_file filepath ;;
            ret (jsonify [("error", PStr "File too large (max 50MB)")] 400)
          else
          try_finally
            (llm_response <- produce_output env filepath ;;
             let output_filename := path_stem filename ++ "_output.txt" in
             let output_path :=
               os_path_join OUTPUT_FOLDER
                 (token_hex 8 (output_entropy env) ++ "_" ++ output_filename) in
             write_text output_path llm_response (answer_encodable env) ;;
             os_chmod output_path 384 ;;
             let output_id := os_path_basename output_path in
             ret (jsonify [("status", PStr "success");
                           ("output_file", PStr output_id);
                           ("original_name", PStr output_filename)] 200))
            (if negb (String.eqb filepath "") then
               safe_remove_file filepath ;; ret tt
             else ret tt))
         (on Exception (fun e =>
            (if negb (String.eqb filepath "") then
               safe_remove_file filepath ;; ret tt
             else ret tt) ;;
            ret (error_500 e)))
     end)
    (on Exception (fun e => ret (error_500 e))).

(** [send_file(filepath, as_attachment=True)] *)
Definition send_file (filepath : string) : M response :=
  fun w => match fs w !! filepath with
           | Some (File c) => (Ok (Response 200 (Attachment c) []), w)
           | Some Dir => (Raise (mk_exn IsADirectoryError "Is a directory"), w)
           | None => (Raise (mk_exn FileNotFoundError "No such file or directory"), w)
           end.

(** [response.call_on_close(cleanup)], where [cleanup] removes [filepath] *)
Definition call_on_close (r : response) (filepath : string) : response :=
  Response (status r) (body r) (on_close r ++ [filepath])%list.

(** The [/download/<filename>] route *)
Definition download (filename : string) : M response :=
  try_except
    (let safe_filename := secure_filename filename in
     if String.eqb safe_filename "" || negb (String.eqb safe_filename filename) then
       ret (jsonify [("error", PStr "Invalid filename")] 400)
     else
     let filepath := os_path_join OUTPUT_FOLDER safe_filename in
     isf <- os_path_isfile filepath ;;
     if negb isf then ret (jsonify [("error", PStr "File not found")] 404) else
     let real_path := os_path_abspath filepath in
     let output_dir := os_path_abspath OUTPUT_FOLDER in
     if negb (Py.startswith real_path output_dir) then
       ret (jsonify [("error", PStr "Access denied")] 403)
     else
     response <- send_file filepath ;;
     ret (call_on_close response filepath))
    (on Exception (fun e => ret (error_500 e))).

(** [Response.close()]: it runs the callbacks registered on the response. *)
Fixpoint close_response (paths : list string) : M unit :=
  match paths with
  | [] => ret tt
  | p :: rest => safe_remove_file p ;; close_response rest
  end.

(** [send_file] builds its response with [direct_passthrough=True]. *)
Definition direct_passthrough (r : response) : bool :=
  match body r with
  | Attachment _ => true
  | Json _ => false
  end.

(** What the server does once the body is sent: it closes the iterable
    that [Response.get_app_iter] gave it.  For a response with
    [direct_passthrough] that is the file wrapper itself, so
    [Response.close] is not called and the callbacks never run; otherwise
    it is a [ClosingIterator] that calls [Response.close]. *)
Definition finish_request (r : response) : M unit :=
  if direct_passthrough r then ret tt else close_response (on_close r).

(** One whole retrieval: the route answers, the body is transferred, the
    request is finished. *)
Definition retrieve (artifact_id : string) : M response :=
  response <- download artifact_id ;;
  finish_request response ;;
  ret response.

End App.

(** ** Threads that run [auto_setup] at the same time

    Every [/auto_setup] request starts a thread on [llm_manager.auto_setup].
    A thread first validates its argument, then waits for [setup_lock], then
    runs the locked block stage by stage, and leaving the block releases the
    lock.  The stages cut [auto_setup_locked] at its early returns. *)

Inductive setup_stage : Type :=
| CheckInstalled
| StartService
| AcquireModel
| MarkComplete.

Inductive pc : Type :=
| AtEntry                    (* before [validate_model_name] *)
| AtLock                     (* at [with self.setup_lock], not yet inside *)
| InSetup (s : setup_stage)  (* inside the block, about to run stage [s] *)
| Returned (result : bool).

(** One stage of the locked block: the value returned ([inl]) or the stage
    to go on with ([inr]). *)
Definition run_stage (env : setup_env) (model_name : pyval) (s : setup_stage)
  : M (bool + setup_stage) :=
  try_except
    (match s with
     | CheckInstalled =>
         installed <- check_ollama_installed (probe env) ;;
         if negb installed then
           update_progress "error" "Ollama not installed. Please run ./setup.sh first" 0 ;;
           ret (inl false)
         else
           update_progress "checking" "Ollama detected" 20 ;;
           ret (inr StartService)
     | StartService =>
         started <- start_ollama_service (start env) ;;
         if negb started then ret (inl false) else ret (inr AcquireModel)
     | AcquireModel =>
         present <- check_model_downloaded (tags env) (Some model_name) ;;
         have_model <-
           (if negb present then download_model (pull env) (Some model_name)
            else
              update_progress "checking"
                ("Model " ++ str_of model_name ++ " already downloaded") 90 ;;
              ret true) ;;
         if negb have_model then ret (inl false) else ret (inr MarkComplete)
     | MarkComplete =>
         config_set "setup_complete" (PBool true) ;;
         save_config ;;
         update_progress "complete" "Setup complete - System ready" 100 ;;
         ret (inl true)
     end)
    (on Exception (fun e => set_error (Py.take 200 (exn_str e)) ;; ret (inl false))).

Record thread : Type := Thread {
  th_env : setup_env;
  th_model : pyval;
  th_pc : pc
}.

(** The manager shared by the threads, the holder of [setup_lock], the
    threads, and the log of the stages run so far (oldest first). *)
Record system : Type := System {
  sys_world : world;
  setup_lock : option nat;
  threads : list thread;
  executed : list (nat * setup_stage)
}.

Definition at_pc (t : thread) (p : pc) : thread := Thread (th_env t) (th_model t) p.

(** One step of thread [i]; [None] when it cannot move: it has returned,
    or it waits for a lock that another thread holds. *)
Definition thread_step (i : nat) (s : system) : option system :=
  match threads s !! i with
  | None => None
  | Some t =>
      match th_pc t with
      | AtEntry =>
          if negb (validate_model_name (th_model t)) then
            Some (System (snd (set_error "Invalid model name" (sys_world s)))
                         (setup_lock s)
                         (<[i := at_pc t (Returned false)]> (threads s))
                         (executed s))
          else
            Some (System (sys_world s) (setup_lock s)
                         (<[i := at_pc t AtLock]> (threads s)) (executed s))
      | AtLock =>
          match setup_lock s with
          | None =>
              Some (System (sys_world s) (Some i)
                           (<[i := at_pc t (InSetup CheckInstalled)]> (threads s))
                           (executed s))
          | Some _ => None
          end
      | InSetup st =>
          let log := (executed s ++ [(i, st)])%list in
          match run_stage (th_env t) (th_model t) st (sys_world s) with
          | (Ok (inr next), w) =>
              Some (System w (setup_lock s)
                           (<[i := at_pc t (InSetup next)]> (threads s)) log)
          | (Ok (inl result), w) =>
              Some (System w None (<[i := at_pc t (Returned result)]> (threads s)) log)
          | (Raise _, w) =>
              Some (System w None (<[i := at_pc t (Returned false)]> (threads s)) log)
          end
      | Returned _ => None
      end
  end.

(** The scheduler picks the threads in the order [schedule]; a thread that
    cannot move when picked is skipped. *)
Fixpoint run_schedule (schedule : list nat) (s : system) : system :=
  match schedule with
  | [] => s
  | i :: rest => run_schedule rest (default s (thread_step i s))
  end.

(** The requests [calls] arrive: one thread each, none has run yet. *)
Definition spawn (w : world) (calls : list (setup_env * pyval)) : system :=
  System w None (map (fun c => Thread (fst c) (snd c) AtEntry) calls) [].

Definition in_setup (t : thread) : Prop :=
  match th_pc t with InSetup _ => True | _ => False end.

(** The entries of [l] by one thread are next to one another. *)
Definition contiguous (l : list nat) : Prop :=
  forall i j k x y z,
    l !! i = Some x -> l !! j = Some y -> l !! k = Some z ->
    (i < j)%nat -> (j < k)%nat -> x = z -> y = x.

(** ** The vocabulary of the specification *)

Definition is_returned (t : thread) : Prop :=
  match th_pc t with Returned _ => True | _ => False end.

(** The threads of the log, in the order of their stages. *)
Definition log_tids (s : system) : list nat := map fst (executed s).

(** What every reachable state of the threads satisfies: a thread inside
    the locked block holds the lock; the lock is held by a thread inside the
    block; a thread with a stage in the log has returned, or is inside the
    block and ran the last stage logged; the log keeps the stages of each
    thread together; and a thread with an invalid model name is at the
    entry or has returned [False]. *)
Definition setup_inv (s : system) : Prop :=
  (forall i t, threads s !! i = Some t -> in_setup t -> setup_lock s = Some i) /\
  (forall i, setup_lock s = Some i -> exists t, threads s !! i = Some t /\ in_setup t) /\
  (forall i, In i (log_tids s) ->
     exists t, threads s !! i = Some t /\
               (is_returned t \/ (in_setup t /\ last (log_tids s) = Some i))) /\
  contiguous (log_tids s) /\
  (forall i t, threads s !! i = Some t -> validate_model_name (th_model t) = false ->
     th_pc t = AtEntry \/ th_pc t = Returned false).

(** The stage that follows [st]. *)
Definition next_stage (st : setup_stage) : setup_stage :=
  match st with
  | CheckInstalled => StartService
  | StartService => AcquireModel
  | _ => MarkComplete
  end.

(** The stages, run one after the other. *)
Definition run_stages (env : setup_env) (model_name : pyval) : M bool :=
  fun w =>
    match run_stage env model_name CheckInstalled w with
    | (Ok (inr _), w1) =>
        match run_stage env model_name StartService w1 with
        | (Ok (inr _), w2) =>
            match run_stage env model_name AcquireModel w2 with
            | (Ok (inr _), w3) =>
                match run_stage env model_name MarkComplete w3 with
                | (Ok (inr _), w4) => (Ok false, w4)
                | (Ok (inl r), w4) => (Ok r, w4)
                | (Raise e, w4) => (Raise e, w4)
                end
            | (Ok (inl r), w3) => (Ok r, w3)
            | (Raise e, w3) => (Raise e, w3)
            end
        | (Ok (inl r), w2) => (Ok r, w2)
        | (Raise e, w2) => (Raise e, w2)
        end
    | (Ok (inl r), w1) => (Ok r, w1)
    | (Raise e, w1) => (Raise e, w1)
    end.


(** [name] is an entry of the allow-list, or an entry followed by a colon
    and any suffix. *)
Definition allow_listed (name : string) : Prop :=
  exists allowed, In allowed ALLOWED_MODELS /\
    (name = allowed \/ exists suffix, name = allowed ++ ":" ++ suffix).

Definition allow_listedb (name : string) : bool :=
  existsb (fun allowed =>
             String.eqb name allowed || Py.startswith name (allowed ++ ":"))
          ALLOWED_MODELS.

(** The stored model name, when there is one, passes the validator. *)
Definition config_ok (c : gmap string pyval) : Prop :=
  forall v, c !! "model_name" = Some v -> validate_model_name v = true.

(** [name] ends in a dot and an extension of the allowed set, whatever the
    case of the extension. *)
Definition has_allowed_extension (name : string) : Prop :=
  exists stem ext, name = stem ++ "." ++ ext /\ In (Py.lower ext) ALLOWED_EXTENSIONS.

Definition valid_config (w : world) : Prop := config_ok (config w).

(** What [load_config] makes of a JSON object. *)
Definition repaired (d : gmap string pyval) : gmap string pyval :=
  match d !! "model_name" with
  | Some name =>
      if validate_model_name name then d else <["model_name" := PStr "llama2"]> d
  | None => d
  end.

(** What [load_config] returns for each state of the file. *)
Definition recovered (c : config_file) : gmap string pyval :=
  match c with
  | CfgJson (PDict d) => repaired d
  | _ => default_config
  end.

(** Running [m] keeps the property [P] of the state. *)
Definition preserves {A} (P : world -> Prop) (m : M A) : Prop :=
  forall w, P w -> P (snd (m w)).

(** Running [m] leaves the state as it is. *)
Definition read_only {A} (m : M A) : Prop := forall w, snd (m w) = w.

(** [m] returns a value: no exception leaves it. *)
Definition returns {A} (m : M A) : Prop := forall w, exists a, fst (m w) = Ok a.

(** The operations that load or change [llm_manager.config]. *)
Inductive config_op : Type :=
| OpInit
| OpSetModel (get_json : res pyval)
| OpCheckInstalled (env : probe_env)
| OpInstall (env : install_env)
| OpCheckModel (env : tags_outcome) (model_name : option pyval)
| OpDownloadModel (env : pull_env) (model_name : option pyval)
| OpAutoSetup (env : setup_env) (model_name : pyval).

Definition run_op (op : config_op) (w : world) : world :=
  match op with
  | OpInit => snd (init_manager w)
  | OpSetModel get_json => snd (set_model get_json w)
  | OpCheckInstalled env => snd (check_ollama_installed env w)
  | OpInstall env => snd (install_ollama env w)
  | OpCheckModel env m => snd (check_model_downloaded env m w)
  | OpDownloadModel env m => snd (download_model env m w)
  | OpAutoSetup env m => snd (auto_setup env m w)
  end.

Definition ok_response : response := jsonify [("status", PStr "ok")] 200.

(** A rate-limited route whose handler does nothing: the bare gate. *)
Definition rate_gate (client_ip : string) (current_time : Q) : M response :=
  rate_limit (ret ok_response) client_ip current_time.

(** The status codes of calls by one identity at the given times. *)
Fixpoint call_sequence (client_ip : string) (times : list Q) : M (list Z) :=
  match times with
  | [] => ret []
  | t :: rest =>
      r <- rate_gate client_ip t ;;
      codes <- call_sequence client_ip rest ;;
      ret (status r :: codes)
  end.

(** The timestamps on record for an identity. *)
Definition entries (client_ip : string) (w : world) : list Q :=
  default [] (request_times w !! client_ip).

(** The answer of the gate to a call over the ceiling. *)
Definition too_many : response :=
  jsonify [("error", PStr "Rate limit exceeded. Try again later.")] 429.

(** The entries of an identity that a call at time [t] does not prune. *)
Definition live (ip : string) (t : Q) (w : world) : list Q :=
  List.filter (fun x => Qltb (t - x) RATE_WINDOW) (entries ip w).

(** The entries from time [a] on. *)
Definition since (a : Q) (l : list Q) : list Q := List.filter (fun x => Qle_bool a x) l.

Definition success_response (output_id original_name : string) : response :=
  jsonify [("status", PStr "success");
           ("output_file", PStr output_id);
           ("original_name", PStr original_name)] 200.

Definition not_found_response : response :=
  jsonify [("error", PStr "File not found")] 404.

(** ** The status report, the prompt store and the remaining routes *)

(** [LLMManager.get_status]; [env] is the answer to its health request.
    The fields come in the order in which the dictionary display evaluates
    them; the last one is the chain [a and b and c]. *)
Definition get_status (env : health_outcome) : M (list (string * pyval)) :=
  let ollama_running :=
    match env with
    | HealthStatus code => (code =? 200)%Z
    | HealthError => false
    end in
  installed <- config_get "ollama_installed" ;;
  downloaded <- config_get "model_downloaded" ;;
  model_name <- config_get "model_name" ;;
  setup_complete <- gets (fun w => default (PBool false) (config w !! "setup_complete")) ;;
  ready <- (a <- config_get "ollama_installed" ;;
            if negb (truthy a) then ret a
            else if negb ollama_running then ret (PBool false)
            else config_get "model_downloaded") ;;
  ret [("ollama_installed", installed);
       ("ollama_running", PBool ollama_running);
       ("model_downloaded", downloaded);
       ("model_name", model_name);
       ("setup_complete", setup_complete);
       ("ready", ready)].

(** [llm_manager.setup_progress] as a JSON value *)
Definition progress_value (p : progress_info) : pyval :=
  PDict {[ "stage" := PStr (stage p);
           "message" := PStr (message p);
           "progress" := PInt (percent p);
           "error" := from_option PStr PNone (error p) ]}.

(** The [/setup_status] route *)
Definition setup_status (env : health_outcome) : M response :=
  status <- get_status env ;;
  p <- gets setup_progress ;;
  ret (jsonify (status ++ [("progress", progress_value p)])%list 200).

(** [k in v] and [v[k]] for a value known to be a dictionary *)
Definition has_key (k : string) (v : pyval) : bool :=
  match v with PDict d => bool_decide (is_Some (d !! k)) | _ => false end.

Definition item (k : string) (v : pyval) : pyval :=
  match v with PDict d => default PNone (d !! k) | _ => PNone end.

(** The [/list_models] route *)
Definition list_models (env : tags_outcome) : M response :=
  answer <- try_except
    (match env with
     | TagsError => raise (mk_exn RequestException "connection refused")
     | TagsNot200 => ret None
     | TagsBadJson => raise (mk_exn JSONDecodeError "Expecting value")
     | TagsMalformed => raise (mk_exn AttributeError "object has no attribute 'get'")
     | TagsModels names =>
         let valid_models :=
           List.filter (fun name => validate_model_name (PStr name)) names in
         ret (Some (jsonify [("models", PList (map PStr valid_models))] 200))
     end)
    (fun e =>
       if isinstance e RequestException || isinstance e JSONDecodeError
       then ret None else raise e) ;;
  match answer with
  | Some r => ret r
  | None => ret (jsonify [("models", PList [])] 200)
  end.

Section Prompt.

Variable app_dir : string.

(** [encodable]: whether the sanitized prompt can be encoded as UTF-8. *)
Definition save_prompt (prompt_text : pyval) (encodable : bool) : M bool :=
  try_except
    (let prompt_text := sanitize_input prompt_text 10000 in
     write_text (PROMPT_FILE app_dir) prompt_text encodable ;;
     os_chmod (PROMPT_FILE app_dir) 384 ;;
     ret true)
    (on OSError (fun e =>
       raise (mk_exn Exception ("Failed to save prompt: " ++ exn_str e)))).

(** The [/get_prompt] route *)
Definition get_prompt : M response :=
  prompt <- read_prompt app_dir ;;
  ret (jsonify [("prompt", PStr prompt)] 200).

(** The [/save_prompt] route.  [get_json] is what [request.get_json()]
    does: it returns the parsed body, or it raises (a body that is not
    JSON); [encodable] is passed on to [save_prompt]. *)
Definition update_prompt (get_json : res pyval) (encodable : bool) : M response :=
  try_except
    (data <- lift_res get_json ;;
     if negb (truthy data) || negb (is_dict data) || negb (has_key "prompt" data) then
       ret (jsonify [("error", PStr "Invalid request")] 400)
     else if negb (is_str (item "prompt" data)) then
       ret (jsonify [("error", PStr "Invalid prompt type")] 400)
     else
       save_prompt (item "prompt" data) encodable ;;
       ret (jsonify [("status", PStr "success")] 200))
    (on Exception (fun e => ret (error_500 e))).

End Prompt.

(** The [/auto_setup] route: a request that passes the checks starts a
    thread on [llm_manager.auto_setup]; [env] is what that thread will meet. *)
Definition auto_setup_route (env : setup_env) (data : pyval) (s : system)
  : response * system :=
  if negb (truthy data) || negb (is_dict data) then
    (jsonify [("error", PStr "Invalid request")] 400, s)
  else
  let model_name := match data with
                    | PDict d => default (PStr "llama2") (d !! "model_name")
                    | _ => PNone
                    end in
  if negb (is_str model_name) then
    (jsonify [("error", PStr "Invalid model name type")] 400, s)
  else if negb (validate_model_name model_name) then
    (jsonify [("error", PStr "Invalid model name")] 400, s)
  else
    (jsonify [("status", PStr "started")] 200,
     System (sys_world s) (setup_lock s)
            (threads s ++ [Thread env model_name AtEntry])%list (executed s)).

(** What happens to the threads: a request arrives at the route, or the
    scheduler lets thread [i] take a step. *)
Inductive event : Type :=
| Arrive (env : setup_env) (data : pyval)
| Run (i : nat).

Fixpoint run_events (events : list event) (s : system) : system :=
  match events with
  | [] => s
  | Arrive env data :: rest => run_events rest (snd (auto_setup_route env data s))
  | Run i :: rest => run_events rest (default s (thread_step i s))
  end.

(** ** More vocabulary *)

(** [fields[k]] for the fields of a JSON object *)
Fixpoint field (k : string) (fields : list (string * pyval)) : option pyval :=
  match fields with
  | [] => None
  | (k', v) :: rest => if String.eqb k k' then Some v else field k rest
  end.

(** The times of the calls that went through, given the status codes. *)
Fixpoint accepted (times : list Q) (codes : list Z) : list Q :=
  match times, codes with
  | t :: ts, c :: cs => if (c =? 200)%Z then t :: accepted ts cs else accepted ts cs
  | _, _ => []
  end.

(** The clock readings do not go back. *)
Fixpoint non_decreasing (l : list Q) : Prop :=
  match l with
  | [] => True
  | x :: rest => Forall (fun y => (x <= y)%Q) rest /\ non_decreasing rest
  end.

(** The number of angle brackets in a text. *)
Fixpoint angle_brackets (s : string) : Z :=
  match s with
  | EmptyString => 0
  | String c r =>
      (if Ascii.eqb c "<" || Ascii.eqb c ">" then 1 else 0) + angle_brackets r
  end%Z.

(** A flag of the configuration is set. *)
Definition flag_set (k : string) (w : world) : Prop :=
  config w !! k = Some (PBool true).

(** The characters the sanitizer takes out. *)
Definition markup_free (s : string) : Prop :=
  Py.has_char "<" s = false /\ Py.has_char ">" s = false
  /\ Py.has_char Ascii.zero s = false.

(** [x] lies within the window that ends at time [t]. *)
Definition in_window (t : Q) : Q -> bool := fun x => Qltb (t - x) RATE_WINDOW.

(** Some line of the output of [ollama pull] is read more than 1800
    seconds after [start_time]. *)
Definition timed_out (start_time : Q) (lines : list (Q * string)) : bool :=
  existsb (fun l => Qltb 1800 (fst l - start_time)) lines.

(** The name that [download_model] works with: the argument, or the stored
    [model_name] when the argument is [None] or left out. *)
Definition requested_model (model_name : option pyval) (w : world) : option pyval :=
  match model_name with
  | None | Some PNone => config w !! "model_name"
  | Some v => Some v
  end.

(** From a state that satisfies [P], the outcome of [m] and the state it
    leaves satisfy [Q]. *)
Definition hoare {A} (P : world -> Prop) (m : M A) (Q : res A -> world -> Prop) : Prop :=
  forall w, P w -> Q (fst (m w)) (snd (m w)).

(** What [install_ollama] returns: [True] only with Ollama detected and
    the progress at "installed", [False] only with an error reported. *)
Definition install_outcome (r : res bool) (w : world) : Prop :=
  match r with
  | Ok true =>
      flag_set "ollama_installed" w /\
      setup_progress w = Progress "installed" "Ollama installed successfully" 50 None
  | Ok false => is_Some (error (setup_progress w))
  | Raise _ => False
  end.

(** The state a completed set-up leaves. *)
Definition setup_done (w : world) : Prop :=
  flag_set "ollama_installed" w /\ flag_set "model_downloaded" w /\
  flag_set "setup_complete" w /\
  setup_progress w = Progress "complete" "Setup complete - System ready" 100 None.

Definition setup_outcome (r : res bool) (w : world) : Prop :=
  match r with
  | Ok true => setup_done w
  | _ => True
  end.

(** Every thread carries a model name that passes the validator. *)
Definition all_valid (s : system) : Prop :=
  forall j tj, threads s !! j = Some tj -> validate_model_name (th_model tj) = true.

(** ** Sample inputs *)

Definition sample_world : world := World ∅ CfgAbsent ∅ default_config idle_progress None.

Definition sample_upload : upload := Upload "Annual report.pdf" "%PDF-1.7 ...".

Definition sample_pdf_env : pdf_env :=
  PdfEnv 12345 true
         (ReaderPages [PageText "Revenue grew."; PageFails; PageText "Costs fell."])
         (GenJson (PDict {[ "response" := PStr "A <short> summary." ]}))
         77 true.

Definition sample_setup_env : setup_env :=
  SetupEnv (ProbeEnv (Exited 0 "ollama version 0.1.32" "") (Exited 0 "/usr/bin/ollama" ""))
           (StartEnv false (Exited 1 "" "") (Ok 4242%Z)
                     (fun i => if (i <? 3)%nat then HealthError else HealthStatus 200)
                     None)
           (TagsModels ["mistral:latest"])
           (PullEnv (Ok tt) 0%Q 0%Q [(1%Q, "pulling manifest")] (Some 0%Z)).

(** * Properties *)

(** ** Strings *)

Lemma sapp_assoc (a b c : string) : (a ++ b) ++ c = a ++ (b ++ c).
Proof. induction a as [|x a IH]; simpl; [reflexivity | now rewrite IH]. Qed.

Lemma sapp_nil_r (a : string) : a ++ "" = a.
Proof. induction a as [|x a IH]; simpl; [reflexivity | now rewrite IH]. Qed.

Lemma slength_app (a b : string) :
  String.length (a ++ b) = (String.length a + String.length b)%nat.
Proof. induction a as [|x a IH]; simpl; [reflexivity | now rewrite IH]. Qed.

Lemma sapp_inv_head (a b c : string) : a ++ b = a ++ c -> b = c.
Proof. induction a as [|x a IH]; simpl; [tauto | intros H; injection H; auto]. Qed.

Lemma prefix_iff (p s : string) :
  Py.prefix p s = true <-> exists r, s = p ++ r.
Proof.
  revert s. induction p as [|x p IH]; intros s; simpl.
  - split; [intros _; now exists s | reflexivity].
  - destruct s as [|y s]; simpl.
    + split; [discriminate | intros [r Hr]; discriminate].
    + destruct (Ascii.eqb_spec x y) as [->|Hne]; simpl.
      * rewrite IH. split; intros [r Hr]; exists r; [now rewrite Hr | now injection Hr].
      * split; [discriminate | intros [r Hr]; injection Hr; intros; now subst].
Qed.

Lemma prefix_app (p r : string) : Py.prefix p (p ++ r) = true.
Proof. apply prefix_iff. now exists r. Qed.

Lemma contains_iff (sub s : string) :
  Py.contains sub s = true <-> exists pre post, s = pre ++ sub ++ post.
Proof.
  induction s as [|c s IH]; simpl.
  - rewrite orb_false_r, prefix_iff. split.
    + intros [r Hr]. now exists "", r.
    + intros [pre [post H]]. destruct pre; simpl in H; [now exists post | discriminate].
  - rewrite orb_true_iff, prefix_iff, IH. split.
    + intros [[r Hr] | [pre [post H]]].
      * now exists "", r.
      * exists (String c pre), post. now rewrite H.
    + intros [pre [post H]]. destruct pre as [|x pre]; simpl in H.
      * left. now exists post.
      * right. injection H as _ H. now exists pre, post.
Qed.

Lemma contains_app_r (sub a b : string) :
  Py.contains sub b = true -> Py.contains sub (a ++ b) = true.
Proof.
  rewrite !contains_iff. intros [pre [post ->]].
  exists (a ++ pre), post. now rewrite sapp_assoc.
Qed.

(** [rpartition] cuts at a separator, and none is left after the cut. *)
Lemma rpartition_some (sep : ascii) (s b a : string) :
  Py.rpartition sep s = Some (b, a) ->
  s = b ++ String sep a /\ Py.has_char sep a = false.
Proof.
  revert b a. induction s as [|c s IH]; intros b a; simpl; [discriminate|].
  destruct (Py.rpartition sep s) as [[b' a']|] eqn:E.
  - intros [= <- <-]. destruct (IH _ _ eq_refl) as [-> Hn]. now split.
  - destruct (Ascii.eqb_spec c sep) as [->|Hne]; [|discriminate].
    intros [= <- <-]. split; [reflexivity|].
    clear IH. induction s as [|d s IHs]; [reflexivity|]. simpl in *.
    destruct (Py.rpartition sep s) as [[? ?]|]; [discriminate|].
    destruct (Ascii.eqb_spec d sep) as [->|Hd]; [discriminate|].
    rewrite IHs by reflexivity. rewrite orb_false_r.
    apply Ascii.eqb_neq. congruence.
Qed.

Lemma rpartition_none (sep : ascii) (s : string) :
  Py.rpartition sep s = None -> Py.has_char sep s = false.
Proof.
  induction s as [|c s IH]; simpl; [reflexivity|].
  destruct (Py.rpartition sep s) as [[? ?]|]; [discriminate|].
  destruct (Ascii.eqb_spec c sep) as [->|Hne]; [discriminate|].
  intros _. rewrite IH by reflexivity. rewrite orb_false_r.
  apply Ascii.eqb_neq. congruence.
Qed.

Lemma has_char_contains (c : ascii) (s : string) :
  Py.contains (String c "") s = Py.has_char c s.
Proof.
  induction s as [|x s IH]; simpl; [reflexivity|].
  rewrite IH. rewrite (Ascii.eqb_sym c x).
  destruct (Ascii.eqb x c); simpl; [|reflexivity]. now destruct s.
Qed.

(** The base name never holds a slash. *)
Lemma basename_no_slash (p : string) :
  Py.contains "/" (os_path_basename p) = false.
Proof.
  unfold os_path_basename. rewrite has_char_contains.
  destruct (Py.rpartition "/" p) as [[b a]|] eqn:E.
  - now apply rpartition_some in E.
  - now apply rpartition_none.
Qed.

(** A path is some prefix followed by its base name. *)
Lemma basename_suffix (p : string) : exists pre, p = pre ++ os_path_basename p.
Proof.
  unfold os_path_basename. destruct (Py.rpartition "/" p) as [[b a]|] eqn:E.
  - apply rpartition_some in E as [-> _]. exists (b ++ "/").
    now rewrite sapp_assoc.
  - now exists "".
Qed.

Lemma basename_plain (p : string) :
  Py.has_char "/" p = false -> os_path_basename p = p.
Proof.
  unfold os_path_basename. intros H.
  destruct (Py.rpartition "/" p) as [[b a]|] eqn:E; [|reflexivity].
  apply rpartition_some in E as [-> _]. exfalso.
  induction b as [|x b IH]; simpl in H.
  - discriminate.
  - apply orb_false_iff in H as [_ H]. auto.
Qed.

Lemma lower_char_idem (c : ascii) : Py.lower_char (Py.lower_char c) = Py.lower_char c.
Proof. destruct c as [[] [] [] [] [] [] [] []]; reflexivity. Qed.

Lemma lower_idem (s : string) : Py.lower (Py.lower s) = Py.lower s.
Proof.
  induction s as [|c s IH]; simpl; [reflexivity|].
  unfold Py.lower in *. simpl. now rewrite lower_char_idem, IH.
Qed.

Lemma smap_empty (f : ascii -> ascii) (s : string) : Py.smap f s = "" <-> s = "".
Proof. destruct s; simpl; split; congruence. Qed.

(** ** Sanitizer / Validator *)

Lemma allow_listedb_iff (name : string) :
  allow_listedb name = true <-> allow_listed name.
Proof.
  unfold allow_listedb, allow_listed. rewrite existsb_exists.
  split; intros [a [Hin H]]; exists a; (split; [exact Hin|]).
  - apply orb_true_iff in H as [H|H].
    + left. now apply String.eqb_eq.
    + right. unfold Py.startswith in H. apply prefix_iff in H as [r ->].
      exists r. now rewrite sapp_assoc.
  - apply orb_true_iff. destruct H as [->|[suffix ->]].
    + left. apply String.eqb_refl.
    + right. unfold Py.startswith. rewrite <- sapp_assoc. apply prefix_app.
Qed.

(** The validator, case by case. *)
Lemma validate_model_name_str (s : string) :
  validate_model_name (PStr s) =
  negb (String.eqb s "")
  && (String.length (Py.strip (Py.lower s)) <=? 50)%nat
  && allow_listedb (Py.strip (Py.lower s)).
Proof.
  unfold validate_model_name, allow_listedb. simpl.
  destruct (String.eqb s ""); simpl; [reflexivity|].
  rewrite Nat.ltb_antisym. now destruct (_ <=? 50)%nat.
Qed.

Lemma validate_model_name_not_str (v : pyval) :
  is_str v = false -> validate_model_name v = false.
Proof.
  intros H. unfold validate_model_name. rewrite H.
  now rewrite orb_true_r.
Qed.

Lemma validate_model_name_iff (v : pyval) :
  validate_model_name v = true <->
  exists s, v = PStr s /\ s <> "" /\
            (String.length (Py.strip (Py.lower s)) <= 50)%nat /\
            allow_listed (Py.strip (Py.lower s)).
Proof.
  split.
  - intros H. destruct v; try (now rewrite validate_model_name_not_str in H).
    exists s. rewrite validate_model_name_str in H.
    apply andb_true_iff in H as [H H3]. apply andb_true_iff in H as [H1 H2].
    repeat split.
    + intros ->. discriminate.
    + now apply Nat.leb_le.
    + now apply allow_listedb_iff.
  - intros [s (-> & Hne & Hlen & Hal)]. rewrite validate_model_name_str.
    apply andb_true_iff; split; [apply andb_true_iff; split|].
    + apply negb_true_iff, String.eqb_neq, Hne.
    + now apply Nat.leb_le.
    + now apply allow_listedb_iff.
Qed.

(** What an accepted file name looks like: the checks bear on the base
    name, which is free of [..] and of backslashes and carries an allowed
    extension. *)
Lemma validate_filename_accepts (s : string) :
  validate_filename (PStr s) = true ->
  Py.contains ".." (os_path_basename s) = false /\
  Py.contains "\" (os_path_basename s) = false /\
  (String.length (os_path_basename s) <= 255)%nat /\
  has_allowed_extension s.
Proof.
  unfold validate_filename. simpl.
  destruct (String.eqb s ""); simpl; [discriminate|].
  rewrite (basename_no_slash s).
  set (b := os_path_basename s).
  destruct (Py.contains ".." b) eqn:E1; simpl; [discriminate|].
  destruct (Py.contains "\" b) eqn:E2; simpl; [discriminate|].
  destruct (255 <? String.length b)%nat eqn:E3; [discriminate|].
  intros H. apply andb_true_iff in H as [_ H].
  repeat split; try reflexivity.
  - apply Nat.ltb_ge in E3. exact E3.
  - unfold Py.rsplit1 in H.
    destruct (Py.rpartition "." b) as [[stem ext]|] eqn:E; simpl in H; [|discriminate].
    apply rpartition_some in E as [Hb _].
    destruct (basename_suffix s) as [pre Hs]. fold b in Hs.
    exists (pre ++ stem), ext. split.
    + rewrite Hs, Hb. now rewrite sapp_assoc.
    + rewrite orb_false_r in H. apply String.eqb_eq in H. rewrite H. now left.
Qed.

(** A name without an allowed extension is turned down, as the
    specification says. *)
Lemma validate_filename_needs_extension (s : string) :
  ~ has_allowed_extension s -> validate_filename (PStr s) = false.
Proof.
  intros H. destruct (validate_filename (PStr s)) eqn:E; [|reflexivity].
  exfalso. apply H. now apply validate_filename_accepts.
Qed.

(** A parent-directory sequence or a backslash in the last component is
    turned down. *)
Lemma validate_filename_rejects_in_basename (s : string) :
  Py.contains ".." (os_path_basename s) = true \/
  Py.contains "\" (os_path_basename s) = true ->
  validate_filename (PStr s) = false.
Proof.
  intros H. destruct (validate_filename (PStr s)) eqn:E; [|reflexivity].
  apply validate_filename_accepts in E as (E1 & E2 & _). destruct H; congruence.
Qed.

(** C1 (the code departs from the claim): a name with path separators and
    parent-directory sequences before its last component is accepted,
    because the checks run on [os.path.basename(filename)], where the test
    for a slash can no longer succeed. *)
Theorem validate_filename_accepts_traversal :
  Py.contains "/" "../../etc/x.pdf" = true /\
  Py.contains ".." "../../etc/x.pdf" = true /\
  validate_filename (PStr "../../etc/x.pdf") = true.
Proof. repeat split; reflexivity. Qed.

(** C5 (counterexample to the claim as stated): an input of 51 characters
    is accepted, since the length is measured after trimming. *)
Lemma validate_model_name_long_input :
  let name := "llama2                                             " in
  (50 < String.length name)%nat /\ validate_model_name (PStr name) = true.
Proof. split; [vm_compute; lia | reflexivity]. Qed.

(** C5 (the upper-case form): [str.upper] turns the sharp s (code point
    223) into ["SS"], so the upper-case form of an accepted name of 50
    characters, ["llama2:"] followed by 43 times the sharp s, is ["LLAMA2:"]
    followed by 43 times ["SS"]: it has 93 characters and is rejected. *)
Lemma validate_model_name_sharp_s :
  let sharp_s := String (ascii_of_nat 223) EmptyString in
  let name := "llama2:" ++ String.concat "" (repeat sharp_s 43) in
  let upper_form := "LLAMA2:" ++ String.concat "" (repeat "SS" 43) in
  String.length name = 50%nat /\
  Py.lower name = name /\
  validate_model_name (PStr name) = true /\
  validate_model_name (PStr upper_form) = false.
Proof. vm_compute. auto. Qed.

(** C5 (amended): [validate_model_name] accepts exactly the non-empty
    strings whose lower-cased, trimmed form has at most 50 characters and is
    an allow-list entry or an entry followed by a colon and a suffix; it
    rejects everything that is not a string; and it sees a name only
    through its lower-case form: two strings that [str.lower] sends to the
    same text validate alike, so a string validates exactly when its
    lower-case form does, and ["LLAMA2"] exactly when ["llama2"] does. *)
Theorem validate_model_name_normalized :
  (forall v,
     validate_model_name v = true <->
     exists s, v = PStr s /\ s <> "" /\
               (String.length (Py.strip (Py.lower s)) <= 50)%nat /\
               allow_listed (Py.strip (Py.lower s))) /\
  (forall v, is_str v = false -> validate_model_name v = false) /\
  validate_model_name (PStr "") = false /\
  (forall s s', Py.lower s = Py.lower s' ->
                validate_model_name (PStr s) = validate_model_name (PStr s')) /\
  (forall s, validate_model_name (PStr (Py.lower s)) = validate_model_name (PStr s)) /\
  validate_model_name (PStr "LLAMA2") = validate_model_name (PStr "llama2").
Proof.
  assert (Hcase : forall s s', Py.lower s = Py.lower s' ->
            validate_model_name (PStr s) = validate_model_name (PStr s')).
  { intros s s' H. rewrite !validate_model_name_str, H.
    f_equal. f_equal. f_equal.
    destruct s, s'; simpl in *; try reflexivity; discriminate. }
  repeat split.
  - apply validate_model_name_iff.
  - apply validate_model_name_iff.
  - apply validate_model_name_not_str.
  - exact Hcase.
  - intros s. apply Hcase. apply lower_idem.
Qed.

(** ** The monad *)

Lemma preserves_ret {A} P (a : A) : preserves P (ret a).
Proof. now intros w H. Qed.

Lemma preserves_raise {A} P e : preserves P (@raise A e).
Proof. now intros w H. Qed.

Lemma preserves_lift_res {A} P (r : res A) : preserves P (lift_res r).
Proof. now intros w H. Qed.

Lemma preserves_gets {A} P (f : world -> A) : preserves P (gets f).
Proof. now intros w H. Qed.

Lemma preserves_bind {A B} P (m : M A) (k : A -> M B) :
  preserves P m -> (forall a, preserves P (k a)) -> preserves P (bind m k).
Proof.
  intros Hm Hk w H. unfold bind. specialize (Hm w H).
  destruct (m w) as [[a|e] w']; simpl in *; [now apply Hk | exact Hm].
Qed.

Lemma preserves_try_except {A} P (m : M A) (h : exn -> M A) :
  preserves P m -> (forall e, preserves P (h e)) -> preserves P (try_except m h).
Proof.
  intros Hm Hh w H. unfold try_except. specialize (Hm w H).
  destruct (m w) as [[a|e] w']; simpl in *; [exact Hm | now apply Hh].
Qed.

Lemma preserves_try_finally {A} P (m : M A) (f : M unit) :
  preserves P m -> preserves P f -> preserves P (try_finally m f).
Proof.
  intros Hm Hf w H. unfold try_finally. specialize (Hm w H).
  destruct (m w) as [r w']; simpl in *. specialize (Hf w' Hm).
  destruct (f w') as [[u|e] w'']; exact Hf.
Qed.

Lemma preserves_on {A} P c (h : exn -> M A) e :
  (forall e, preserves P (h e)) -> preserves P (on c h e).
Proof. intros Hh. unfold on. destruct (isinstance e c); [apply Hh | apply preserves_raise]. Qed.

Lemma preserves_modify P (f : world -> world) :
  (forall w, P w -> P (f w)) -> preserves P (modify f).
Proof. intros Hf w H. now apply Hf. Qed.

(** Every class derives from [Exception]. *)
Lemma isinstance_Exception (e : exn) : isinstance e Exception = true.
Proof. reflexivity. Qed.

(** ** The configuration *)

Lemma config_ok_insert_other (c : gmap string pyval) (k : string) (v : pyval) :
  k <> "model_name" -> config_ok c -> config_ok (<[k := v]> c).
Proof.
  intros Hk Hc x Hx. rewrite lookup_insert_ne in Hx by exact Hk. now apply Hc.
Qed.

Lemma config_ok_insert_model (c : gmap string pyval) (v : pyval) :
  validate_model_name v = true -> config_ok (<["model_name" := v]> c).
Proof. intros Hv x Hx. rewrite lookup_insert_eq in Hx. now injection Hx as <-. Qed.

Lemma config_ok_default : config_ok default_config.
Proof. intros v Hv. vm_compute in Hv. now injection Hv as <-. Qed.

Lemma config_ok_repaired (d : gmap string pyval) : config_ok (repaired d).
Proof.
  unfold repaired. destruct (d !! "model_name") as [name|] eqn:E.
  - destruct (validate_model_name name) eqn:V.
    + intros v Hv. congruence.
    + now apply config_ok_insert_model.
  - intros v Hv. congruence.
Qed.

Lemma config_ok_recovered (c : config_file) : config_ok (recovered c).
Proof.
  destruct c as [| | | | |v]; try apply config_ok_default.
  destruct v; try apply config_ok_default. apply config_ok_repaired.
Qed.

(** [load_config], evaluated. *)
Lemma load_config_run (w : world) :
  load_config w =
  match cfg_file w with
  | CfgTooDeep => (Raise (mk_exn RecursionError "maximum recursion depth exceeded"), w)
  | c => (Ok (recovered c), w)
  end.
Proof.
  unfold load_config, bind, try_except, gets, recovered, repaired.
  destruct (cfg_file w) as [| | | | |v]; try reflexivity.
  destruct v; try reflexivity.
  destruct (d !! "model_name") as [name|]; [|reflexivity].
  now destruct (validate_model_name name).
Qed.

Lemma repaired_missing (d : gmap string pyval) (k : string) :
  d !! k = None -> repaired d !! k = None.
Proof.
  intros Hd. unfold repaired.
  destruct (d !! "model_name") as [name|] eqn:En; [|exact Hd].
  destruct (validate_model_name name); [exact Hd|].
  rewrite lookup_insert_ne; [exact Hd|]. intros <-. congruence.
Qed.

(** C8 (the code departs from the claim): [load_config] returns the safe
    defaults when the file is absent, cannot be opened or decoded, is not
    JSON, or is JSON other than an object; but invalid content of two other
    kinds gets through.  A JSON object is returned as found, with only a
    [model_name] that fails validation replaced: an object that lacks a key
    of the record is returned without that key, and a field of the wrong
    type is kept.  And for a text nested beyond the limit of the
    interpreter, [json.load] raises [RecursionError], which none of the
    [except] clauses names, so the error reaches the caller. *)
Theorem load_config_propagates_invalid_content :
  (forall w,
     load_config w =
     match cfg_file w with
     | CfgTooDeep => (Raise (mk_exn RecursionError "maximum recursion depth exceeded"), w)
     | CfgJson (PDict d) => (Ok (repaired d), w)
     | _ => (Ok default_config, w)
     end) /\
  (forall d k,
     In k ["ollama_installed"; "ollama_path"; "model_name"; "model_downloaded";
           "setup_complete"] ->
     d !! k = None ->
     repaired d !! k = None /\ repaired d <> default_config) /\
  (let corrupt : gmap string pyval :=
     {[ "model_name" := PStr "gpt-4; rm -rf /"; "ollama_installed" := PStr "maybe" ]} in
   let w := World ∅ (CfgJson (PDict corrupt)) ∅ ∅ idle_progress None in
   fst (load_config w)
   = Ok ({[ "model_name" := PStr "llama2"; "ollama_installed" := PStr "maybe" ]}
           : gmap string pyval)).
Proof.
  split; [|split].
  - intros w. rewrite load_config_run. unfold recovered.
    destruct (cfg_file w) as [| | | | |v]; try reflexivity. now destruct v.
  - intros d k Hk Hd. pose proof (repaired_missing d k Hd) as Hmiss.
    split; [exact Hmiss|]. intros Heq. rewrite Heq in Hmiss.
    repeat (destruct Hk as [<-|Hk]; [vm_compute in Hmiss; discriminate Hmiss|]).
    destruct Hk.
  - reflexivity.
Qed.

(** *** The model name stays valid *)

Create HintDb pres.

#[local] Hint Resolve preserves_ret preserves_raise preserves_gets preserves_lift_res : pres.

Ltac preserve_step :=
  first
    [ solve [auto with pres]
    | apply preserves_bind; [|intros ?]
    | apply preserves_try_except; [|intros ?]
    | apply preserves_try_finally
    | apply preserves_on; intros ?
    | match goal with
      | |- preserves _ (if ?b then _ else _) => destruct b eqn:?
      | |- preserves _ (match ?x with _ => _ end) => destruct x eqn:?
      | |- preserves _ (let _ := _ in _) => cbv zeta
      end ].

Ltac preserve := repeat preserve_step.

Lemma valid_set_fs f w : valid_config w -> valid_config (set_fs f w).
Proof. exact id. Qed.

Lemma valid_set_cfg_file c w : valid_config w -> valid_config (set_cfg_file c w).
Proof. exact id. Qed.

Lemma valid_set_setup_progress p w : valid_config w -> valid_config (set_setup_progress p w).
Proof. exact id. Qed.

Lemma valid_set_ollama_process o w : valid_config w -> valid_config (set_ollama_process o w).
Proof. exact id. Qed.

Lemma valid_set_request_times r w : valid_config w -> valid_config (set_request_times r w).
Proof. exact id. Qed.

Lemma preserves_update_progress st msg n : preserves valid_config (update_progress st msg n).
Proof. now intros w H. Qed.

Lemma preserves_set_error msg : preserves valid_config (set_error msg).
Proof. now intros w H. Qed.

Lemma preserves_set_message msg : preserves valid_config (set_message msg).
Proof. now intros w H. Qed.

Lemma preserves_os_path_exists p : preserves valid_config (os_path_exists p).
Proof. now intros w H. Qed.

Lemma preserves_os_path_isfile p : preserves valid_config (os_path_isfile p).
Proof. now intros w H. Qed.

Lemma preserves_os_chmod p m : preserves valid_config (os_chmod p m).
Proof. now intros w H. Qed.

Lemma preserves_os_path_getsize p : preserves valid_config (os_path_getsize p).
Proof. intros w H. unfold os_path_getsize. now destruct (fs w !! p) as [[]|]. Qed.

Lemma preserves_os_remove p : preserves valid_config (os_remove p).
Proof. intros w H. unfold os_remove. now destruct (fs w !! p) as [[]|]. Qed.

Lemma preserves_write_file p c : preserves valid_config (write_file p c).
Proof. intros w H. unfold write_file. now destruct (fs w !! p) as [[]|]. Qed.

Lemma preserves_read_file p n : preserves valid_config (read_file p n).
Proof. intros w H. unfold read_file. now destruct (fs w !! p) as [[]|]. Qed.

Lemma preserves_subprocess_run o check : preserves valid_config (subprocess_run o check).
Proof. unfold subprocess_run. preserve. Qed.

Lemma preserves_config_set k v :
  k <> "model_name" -> preserves valid_config (config_set k v).
Proof. intros Hk w H. now apply config_ok_insert_other. Qed.

Lemma preserves_config_set_model v :
  validate_model_name v = true -> preserves valid_config (config_set "model_name" v).
Proof. intros Hv w H. now apply config_ok_insert_model. Qed.

Lemma preserves_config_get k : preserves valid_config (config_get k).
Proof. intros w H. unfold config_get. now destruct (config w !! k). Qed.

#[local] Hint Resolve preserves_update_progress preserves_set_error preserves_set_message
  preserves_os_path_exists preserves_os_path_isfile preserves_os_chmod
  preserves_os_path_getsize preserves_os_remove preserves_write_file preserves_read_file
  preserves_subprocess_run preserves_config_get : pres.

#[local] Hint Extern 1 (preserves valid_config (modify _)) =>
  (apply preserves_modify; let H := fresh in intros ? H; exact H) : pres.

#[local] Hint Extern 1 (preserves valid_config (config_set _ _)) =>
  (apply preserves_config_set; discriminate) : pres.

#[local] Hint Extern 2 (preserves valid_config (config_set "model_name" _)) =>
  (apply preserves_config_set_model;
   match goal with
   | H : negb (validate_model_name ?v) = false |- validate_model_name ?v = true =>
       apply negb_false_iff in H; exact H
   end) : pres.

Lemma preserves_save_config : preserves valid_config save_config.
Proof. unfold save_config. preserve. Qed.
#[local] Hint Resolve preserves_save_config : pres.

Lemma preserves_safe_remove_file p : preserves valid_config (safe_remove_file p).
Proof. unfold safe_remove_file. preserve. Qed.
#[local] Hint Resolve preserves_safe_remove_file : pres.

Lemma preserves_get_ollama_path env : preserves valid_config (get_ollama_path env).
Proof. unfold get_ollama_path. preserve. Qed.
#[local] Hint Resolve preserves_get_ollama_path : pres.

Lemma preserves_check_ollama_installed env :
  preserves valid_config (check_ollama_installed env).
Proof. unfold check_ollama_installed. preserve. Qed.
#[local] Hint Resolve preserves_check_ollama_installed : pres.

Lemma preserves_install_ollama env : preserves valid_config (install_ollama env).
Proof. unfold install_ollama, curl. preserve. Qed.

Lemma preserves_start_ollama_service env :
  preserves valid_config (start_ollama_service env).
Proof. unfold start_ollama_service. preserve. Qed.
#[local] Hint Resolve preserves_start_ollama_service : pres.

Lemma preserves_check_model_downloaded env m :
  preserves valid_config (check_model_downloaded env m).
Proof. unfold check_model_downloaded. preserve. Qed.
#[local] Hint Resolve preserves_check_model_downloaded : pres.

Lemma preserves_pull_loop t0 t1 lines : preserves valid_config (pull_loop t0 t1 lines).
Proof.
  revert t1. induction lines as [|[t line] rest IH]; intros t1; simpl; preserve.
Qed.
#[local] Hint Resolve preserves_pull_loop : pres.

Lemma preserves_download_model env m : preserves valid_config (download_model env m).
Proof. unfold download_model. preserve. Qed.
#[local] Hint Resolve preserves_download_model : pres.

Lemma preserves_auto_setup_locked env m : preserves valid_config (auto_setup_locked env m).
Proof. unfold auto_setup_locked. preserve. Qed.

Lemma preserves_auto_setup env m : preserves valid_config (auto_setup env m).
Proof. unfold auto_setup. preserve. Qed.

Lemma preserves_set_model data : preserves valid_config (set_model data).
Proof.
  unfold set_model. preserve.
Qed.

(** [LLMManager()], evaluated. *)
Lemma init_manager_run (w : world) :
  init_manager w =
  match cfg_file w with
  | CfgTooDeep =>
      (Raise (mk_exn RecursionError "maximum recursion depth exceeded"), set_config ∅ w)
  | c => (Ok tt, set_ollama_process None
                   (set_setup_progress idle_progress (set_config (recovered c) w)))
  end.
Proof.
  unfold init_manager. unfold bind at 1, modify at 1. unfold bind.
  rewrite load_config_run. cbn [cfg_file set_config].
  destruct (cfg_file w); reflexivity.
Qed.

Lemma init_manager_valid (w : world) : valid_config (snd (init_manager w)).
Proof.
  rewrite init_manager_run.
  destruct (cfg_file w) eqn:E; cbn [snd]; try apply config_ok_recovered.
  intros v Hv. discriminate Hv.
Qed.

(** Each operation keeps a valid model name valid. *)
Lemma run_op_valid (op : config_op) (w : world) :
  valid_config w -> valid_config (run_op op w).
Proof.
  intros H. destruct op; simpl.
  - apply init_manager_valid.
  - now apply preserves_set_model.
  - now apply preserves_check_ollama_installed.
  - now apply preserves_install_ollama.
  - now apply preserves_check_model_downloaded.
  - now apply preserves_download_model.
  - now apply preserves_auto_setup.
Qed.

(** C7 (counterexample to the claim as stated): [/set_model] stores the
    name as it was sent, and a name in upper case with a trailing blank is
    neither an allow-list entry nor an entry followed by a colon. *)
Lemma set_model_stores_raw_name :
  let w := World ∅ CfgAbsent ∅ default_config idle_progress None in
  let data := PDict {[ "model_name" := PStr "LLAMA2 " ]} in
  config (snd (set_model (Ok data) w)) !! "model_name" = Some (PStr "LLAMA2 ")
  /\ ~ allow_listed "LLAMA2 ".
Proof.
  split; [reflexivity|].
  intros H. apply allow_listedb_iff in H. vm_compute in H. discriminate H.
Qed.

(** C7 (amended): once the manager is initialised, whatever operations
    load or change the configuration (re-loading, [/set_model], the
    installation probes, [download_model], [auto_setup]), a stored
    [model_name] passes [validate_model_name]: its lower-cased, trimmed form
    has at most 50 characters and is an allow-list entry or an entry
    followed by a colon and a suffix.  The stored text itself keeps the case
    and the surrounding blanks it came with. *)
Theorem model_name_stays_valid (w : world) (ops : list config_op) :
  forall v,
    config (fold_left (fun w op => run_op op w) ops (snd (init_manager w)))
      !! "model_name" = Some v ->
    validate_model_name v = true /\
    exists s, v = PStr s /\ allow_listed (Py.strip (Py.lower s)).
Proof.
  assert (H : valid_config (fold_left (fun w op => run_op op w) ops (snd (init_manager w)))).
  { generalize (init_manager_valid w). generalize (snd (init_manager w)).
    induction ops as [|op ops IH]; intros w0 H0; simpl; [exact H0|].
    apply IH. now apply run_op_valid. }
  intros v Hv. specialize (H v Hv). split; [exact H|].
  apply validate_model_name_iff in H as [s (-> & _ & _ & Hal)].
  now exists s.
Qed.

(** ** The installer *)

(** C2 (the code departs from the claim): when the installer script has
    been downloaded and [sh] then exits with a non-zero status, or runs
    into its timeout, [install_ollama] returns [False] and the script is
    still on disk: only the size check and the path after a successful run
    call [safe_remove_file]; the three [except] clauses do not. *)
Theorem install_ollama_leaves_script_behind :
  let script := "#!/bin/sh" ++ Py.nl ++ "# " ++ String.concat "" (repeat "ollama " 20) in
  let w := World ∅ CfgAbsent ∅ default_config idle_progress None in
  let env how := InstallEnv (Some script) (Exited 0 "" "") how (ProbeEnv NotFound NotFound) in
  (fst (install_ollama (env (Exited 1 "" "install failed")) w) = Ok false /\
   fs (snd (install_ollama (env (Exited 1 "" "install failed")) w)) !! install_script
     = Some (File script)) /\
  (fst (install_ollama (env TimedOut) w) = Ok false /\
   fs (snd (install_ollama (env TimedOut) w)) !! install_script = Some (File script)).
Proof. repeat split; vm_compute; reflexivity. Qed.

(** On the two paths that do clean up, the script is gone. *)
Example install_ollama_cleans_up_after_success :
  let script := "#!/bin/sh" ++ Py.nl ++ "# " ++ String.concat "" (repeat "ollama " 20) in
  let w := World ∅ CfgAbsent ∅ default_config idle_progress None in
  let env := InstallEnv (Some script) (Exited 0 "" "") (Exited 0 "done" "")
                        (ProbeEnv (Exited 0 "ollama version 0.1" "") NotFound) in
  fst (install_ollama env w) = Ok true /\
  fs (snd (install_ollama env w)) !! install_script = None.
Proof. split; vm_compute; reflexivity. Qed.

Example install_ollama_cleans_up_after_size_check :
  let w := World ∅ CfgAbsent ∅ default_config idle_progress None in
  let env := InstallEnv (Some "too short") (Exited 0 "" "") (Exited 0 "" "")
                        (ProbeEnv NotFound NotFound) in
  fst (install_ollama env w) = Ok false /\
  fs (snd (install_ollama env w)) !! install_script = None.
Proof. split; vm_compute; reflexivity. Qed.

(** ** The rate limiter *)

Lemma Qltb_lt (x y : Q) : Qltb x y = true <-> (x < y)%Q.
Proof.
  unfold Qltb. rewrite negb_true_iff. split.
  - intros H. apply Qnot_le_lt. intros Hle. apply Qle_bool_iff in Hle. congruence.
  - intros H. destruct (Qle_bool y x) eqn:E; [|reflexivity].
    apply Qle_bool_iff in E. exfalso. exact (Qlt_not_le _ _ H E).
Qed.

#[local] Arguments Nat.leb : simpl never.
Lemma rate_gate_spec (ip : string) (t : Q) (w : world) :
  let limited := (RATE_LIMIT <=? length (live ip t w))%nat in
  fst (rate_gate ip t w) = Ok (if limited then too_many else ok_response) /\
  entries ip (snd (rate_gate ip t w)) = if limited then live ip t w else (live ip t w ++ [t])%list.
Proof.
  unfold rate_gate, rate_limit, live, entries, bind, modify, gets, ret. simpl.
  destruct (request_times w !! ip) as [l|] eqn:E; simpl.
  - rewrite lookup_insert_eq. simpl.
    destruct (RATE_LIMIT <=? length (List.filter _ l))%nat eqn:L; simpl.
    + rewrite lookup_insert_eq. now split.
    + repeat first [rewrite lookup_insert_eq | rewrite lookup_total_insert_eq | progress simpl].
      now split.
  - rewrite E. simpl.
    repeat first [rewrite lookup_insert_eq | rewrite lookup_total_insert_eq | rewrite E
                 | progress simpl].
    now split.
Qed.

Lemma since_live (ip : string) (a t : Q) (w : world) :
  (t - a < RATE_WINDOW)%Q -> since a (live ip t w) = since a (entries ip w).
Proof.
  intros Ht. unfold since, live. induction (entries ip w) as [|x l IH]; simpl; [reflexivity|].
  destruct (Qle_bool a x) eqn:Ea.
  - assert (Hx : Qltb (t - x) RATE_WINDOW = true).
    { apply Qltb_lt. apply Qle_bool_iff in Ea. unfold RATE_WINDOW in *. lra. }
    rewrite Hx. simpl. rewrite Ea. now rewrite IH.
  - destruct (Qltb (t - x) RATE_WINDOW); simpl; [rewrite Ea|]; exact IH.
Qed.

Lemma length_since_le (a : Q) (l : list Q) : (length (since a l) <= length l)%nat.
Proof. unfold since. apply List.filter_length_le. Qed.

Lemma since_app (a : Q) (l1 l2 : list Q) : since a (l1 ++ l2)%list = (since a l1 ++ since a l2)%list.
Proof. unfold since. apply List.filter_app. Qed.

Lemma rate_gate_pair (ip : string) (t : Q) (w : world) :
  rate_gate ip t w =
  (Ok (if (RATE_LIMIT <=? length (live ip t w))%nat then too_many else ok_response),
   snd (rate_gate ip t w)).
Proof.
  destruct (rate_gate_spec ip t w) as [H _]. destruct (rate_gate ip t w) as [r w'].
  simpl in *. now rewrite H.
Qed.

(** Any decorated route: the gate of [rate_gate], then the handler. *)
Lemma rate_limit_gate (f : M response) (ip : string) (t : Q) (w : world) :
  rate_limit f ip t w =
  if (RATE_LIMIT <=? length (live ip t w))%nat then (Ok too_many, snd (rate_gate ip t w))
  else f (snd (rate_gate ip t w)).
Proof.
  unfold rate_gate, rate_limit, live, entries, bind, modify, gets, ret. simpl.
  destruct (request_times w !! ip) as [l|] eqn:E; simpl.
  - rewrite lookup_insert_eq. simpl.
    now destruct (RATE_LIMIT <=? length (List.filter _ l))%nat eqn:L.
  - rewrite E. reflexivity.
Qed.

Lemma call_sequence_cons (ip : string) (t : Q) (ts : list Q) (w : world) :
  call_sequence ip (t :: ts) w =
  match call_sequence ip ts (snd (rate_gate ip t w)) with
  | (Ok codes, w') =>
      (Ok ((if (RATE_LIMIT <=? length (live ip t w))%nat then 429 else 200)%Z :: codes), w')
  | (Raise e, w') => (Raise e, w')
  end.
Proof.
  simpl. unfold bind at 1. rewrite rate_gate_pair. simpl. unfold bind, ret.
  destruct (call_sequence ip ts _) as [[codes|e] w']; [|reflexivity].
  now destruct (RATE_LIMIT <=? _)%nat.
Qed.

Lemma call_sequence_returns (ip : string) (ts : list Q) (w : world) :
  exists codes w', call_sequence ip ts w = (Ok codes, w') /\ length codes = length ts.
Proof.
  revert w. induction ts as [|t ts IH]; intros w.
  - now exists [], w.
  - rewrite call_sequence_cons.
    destruct (IH (snd (rate_gate ip t w))) as (codes & w' & -> & Hlen).
    eexists _, w'. split; [reflexivity|]. simpl. now rewrite Hlen.
Qed.

Lemma call_sequence_app (ip : string) (l1 l2 : list Q) (w : world) :
  forall c1 w1 c2 w2,
    call_sequence ip l1 w = (Ok c1, w1) ->
    call_sequence ip l2 w1 = (Ok c2, w2) ->
    call_sequence ip (l1 ++ l2)%list w = (Ok (c1 ++ c2)%list, w2).
Proof.
  revert w. induction l1 as [|t l1 IH]; intros w c1 w1 c2 w2 H1 H2.
  - injection H1 as <- <-. exact H2.
  - rewrite call_sequence_cons in H1. simpl app. rewrite call_sequence_cons.
    destruct (call_sequence ip l1 _) as [[codes|e] w'] eqn:E; [|discriminate].
    injection H1 as <- <-.
    now rewrite (IH _ _ _ _ _ E H2).
Qed.

(** While the calls stay within one window, each admitted call adds an
    entry that is still on record at the end. *)
Lemma accepted_calls_counted (ip : string) (a : Q) (ts : list Q) :
  forall w codes w',
    Forall (fun x => (a <= x)%Q /\ (x - a < RATE_WINDOW)%Q) ts ->
    call_sequence ip ts w = (Ok codes, w') ->
    codes = repeat 200%Z (length ts) ->
    length (since a (entries ip w')) = (length (since a (entries ip w)) + length ts)%nat.
Proof.
  induction ts as [|t ts IH]; intros w codes w' Hwin Hrun Hcodes.
  - injection Hrun as _ <-. simpl. lia.
  - apply Forall_cons in Hwin as [[Ha Ht] Hrest].
    rewrite call_sequence_cons in Hrun.
    destruct (call_sequence ip ts _) as [[cs|e] w1] eqn:E; [|discriminate].
    injection Hrun as <- <-. simpl in Hcodes. injection Hcodes as Hhd Htl.
    destruct (RATE_LIMIT <=? length (live ip t w))%nat eqn:L; [discriminate|].
    rewrite (IH _ _ _ Hrest E Htl).
    destruct (rate_gate_spec ip t w) as [_ Hent]. rewrite L in Hent. rewrite Hent.
    rewrite since_app, length_app, (since_live _ _ _ _ Ht). simpl.
    apply Qle_bool_iff in Ha. rewrite Ha. simpl. lia.
Qed.

(** With room left under the ceiling, every call is admitted. *)
Lemma accepted_while_room (ip : string) (ts : list Q) :
  forall w,
    (length (entries ip w) + length ts <= RATE_LIMIT)%nat ->
    exists w', call_sequence ip ts w = (Ok (repeat 200%Z (length ts)), w').
Proof.
  induction ts as [|t ts IH]; intros w Hroom.
  - now exists w.
  - rewrite call_sequence_cons. simpl in Hroom.
    assert (Hlive : (length (live ip t w) <= length (entries ip w))%nat)
      by apply List.filter_length_le.
    destruct (RATE_LIMIT <=? length (live ip t w))%nat eqn:L.
    { apply Nat.leb_le in L. lia. }
    destruct (rate_gate_spec ip t w) as [_ Hent]. rewrite L in Hent.
    destruct (IH (snd (rate_gate ip t w))) as [w' Hw'].
    { rewrite Hent, length_app. simpl. lia. }
    rewrite Hw'. now exists w'.
Qed.

(** Entries older than the window do not survive the pruning. *)
Lemma live_after_window (ip : string) (t : Q) (w : world) :
  (forall x, In x (entries ip w) -> (RATE_WINDOW <= t - x)%Q) -> live ip t w = [].
Proof.
  unfold live. induction (entries ip w) as [|x l IH]; intros H; simpl; [reflexivity|].
  assert (Hx : Qltb (t - x) RATE_WINDOW = false).
  { destruct (Qltb (t - x) RATE_WINDOW) eqn:E; [|reflexivity].
    apply Qltb_lt in E. specialize (H x (or_introl eq_refl)). lra. }
  rewrite Hx. apply IH. intros y Hy. apply H. now right.
Qed.

Lemma rate_gate_after_window (ip : string) (t : Q) (w : world) :
  (forall x, In x (entries ip w) -> (RATE_WINDOW <= t - x)%Q) ->
  exists w', rate_gate ip t w = (Ok ok_response, w') /\ entries ip w' = [t].
Proof.
  intros H. exists (snd (rate_gate ip t w)).
  rewrite rate_gate_pair at 1. destruct (rate_gate_spec ip t w) as [_ Hent].
  rewrite (live_after_window _ _ _ H) in *. simpl in *. now split.
Qed.

(** C6: whoever the client is, with the window of 60 seconds and the
    ceiling of 10: when eleven calls fall within one window and the first
    ten are admitted, the eleventh is rejected with status 429, and from a
    state where the client has nothing on record within the window the
    first ten are admitted and the eleventh rejected; and a call made once
    the window has elapsed since every recorded call is admitted again. *)
Theorem rate_limit_window (client_ip : string) :
  (forall (a : Q) (ts : list Q) (t : Q) (w : world),
     length ts = 10%nat ->
     Forall (fun x => (a <= x)%Q /\ (x - a < RATE_WINDOW)%Q) (ts ++ [t])%list ->
     (forall codes w',
        call_sequence client_ip (ts ++ [t])%list w = (Ok codes, w') ->
        firstn 10 codes = repeat 200%Z 10 ->
        codes = (repeat 200%Z 10 ++ [429%Z])%list)
     /\ ((forall x, In x (entries client_ip w) -> (RATE_WINDOW <= hd t ts - x)%Q) ->
         exists w', call_sequence client_ip (ts ++ [t])%list w
                    = (Ok (repeat 200%Z 10 ++ [429%Z])%list, w')))
  /\
  (forall (t : Q) (w : world),
     (forall x, In x (entries client_ip w) -> (RATE_WINDOW <= t - x)%Q) ->
     exists w', rate_gate client_ip t w = (Ok ok_response, w') /\ entries client_ip w' = [t]).
Proof.
  split; [|apply rate_gate_after_window].
  intros a ts t w Hlen Hwin.
  apply Forall_app in Hwin as [Hts Ht]. apply Forall_cons in Ht as [[Hat Htw] _].
  (* the eleventh call, once ten calls were admitted *)
  assert (Hlast : forall w0 w1,
            call_sequence client_ip ts w0 = (Ok (repeat 200%Z 10), w1) ->
            call_sequence client_ip [t] w1 = (Ok [429%Z], snd (rate_gate client_ip t w1))).
  { intros w0 w1 H10. rewrite call_sequence_cons. simpl.
    pose proof (accepted_calls_counted client_ip a ts w0 _ w1 Hts H10) as Hcount.
    rewrite Hlen in Hcount. specialize (Hcount eq_refl).
    assert (Hfull : (RATE_LIMIT <=? length (live client_ip t w1))%nat = true).
    { apply Nat.leb_le. unfold RATE_LIMIT.
      pose proof (length_since_le a (live client_ip t w1)) as Hle.
      rewrite (since_live _ _ _ _ Htw) in Hle. lia. }
    now rewrite Hfull. }
  split.
  - intros codes w' Hrun Hfirst.
    destruct (call_sequence_returns client_ip ts w) as (c1 & w1 & H1 & Hl1).
    destruct (call_sequence_returns client_ip [t] w1) as (c2 & w2 & H2 & Hl2).
    rewrite (call_sequence_app _ _ _ _ _ _ _ _ H1 H2) in Hrun. injection Hrun as <- <-.
    rewrite firstn_app in Hfirst. rewrite Hl1, Hlen in Hfirst. simpl in Hfirst.
    rewrite app_nil_r, firstn_all2 in Hfirst by lia. subst c1.
    rewrite (Hlast _ _ H1) in H2. injection H2 as <- _. reflexivity.
  - intros Hquiet. destruct ts as [|t1 rest]; [discriminate|]. simpl in Hquiet, Hlen.
    destruct (rate_gate_after_window client_ip t1 w Hquiet) as (w1 & Hadm & Hent).
    assert (H1 : exists w10, call_sequence client_ip (t1 :: rest) w = (Ok (repeat 200%Z 10), w10)).
    { rewrite call_sequence_cons.
      assert (Hw1 : snd (rate_gate client_ip t1 w) = w1) by now rewrite Hadm.
      rewrite Hw1.
      destruct (accepted_while_room client_ip rest w1) as [w10 Hw10].
      { rewrite Hent. simpl. unfold RATE_LIMIT. lia. }
      rewrite Hw10. exists w10.
      rewrite (live_after_window _ _ _ Hquiet). simpl.
      replace (length rest) with 9%nat by lia. reflexivity. }
    destruct H1 as [w10 H10]. eexists.
    apply (call_sequence_app _ _ _ _ _ _ _ _ H10 (Hlast _ _ H10)).
Qed.

(** ** Reading without writing *)

Lemma read_only_ret {A} (a : A) : read_only (ret a).
Proof. now intros w. Qed.

Lemma read_only_raise {A} e : read_only (@raise A e).
Proof. now intros w. Qed.

Lemma read_only_gets {A} (f : world -> A) : read_only (gets f).
Proof. now intros w. Qed.

Lemma read_only_bind {A B} (m : M A) (k : A -> M B) :
  read_only m -> (forall a, read_only (k a)) -> read_only (bind m k).
Proof.
  intros Hm Hk w. unfold bind. specialize (Hm w).
  destruct (m w) as [[a|e] w']; simpl in *; subst; [apply Hk | reflexivity].
Qed.

Lemma read_only_try_except {A} (m : M A) (h : exn -> M A) :
  read_only m -> (forall e, read_only (h e)) -> read_only (try_except m h).
Proof.
  intros Hm Hh w. unfold try_except. specialize (Hm w).
  destruct (m w) as [[a|e] w']; simpl in *; subst; [reflexivity | apply Hh].
Qed.

Lemma read_only_on {A} c (h : exn -> M A) e :
  (forall e, read_only (h e)) -> read_only (on c h e).
Proof. intros Hh. unfold on. destruct (isinstance e c); [apply Hh | apply read_only_raise]. Qed.

Lemma read_only_os_path_getsize p : read_only (os_path_getsize p).
Proof. intros w. unfold os_path_getsize. now destruct (fs w !! p) as [[]|]. Qed.

Lemma read_only_read_file p n : read_only (read_file p n).
Proof. intros w. unfold read_file. now destruct (fs w !! p) as [[]|]. Qed.

Lemma read_only_config_get k : read_only (config_get k).
Proof. intros w. unfold config_get. now destruct (config w !! k). Qed.

Lemma read_only_py_len v : read_only (py_len v).
Proof. destruct v; first [apply read_only_ret | apply read_only_raise]. Qed.

Create HintDb ro.
#[local] Hint Resolve read_only_ret read_only_raise read_only_gets read_only_os_path_getsize
  read_only_read_file read_only_config_get read_only_py_len : ro.

Ltac read_only_step :=
  first
    [ solve [auto with ro]
    | apply read_only_bind; [|intros ?]
    | apply read_only_try_except; [|intros ?]
    | apply read_only_on; intros ?
    | match goal with
      | |- read_only (if ?b then _ else _) => destruct b eqn:?
      | |- read_only (match ?x with _ => _ end) => destruct x eqn:?
      | |- read_only (let _ := _ in _) => cbv zeta
      end ].


(** ** Character classes and tokens *)

Lemma alnum_filename_char (c : ascii) : alnum c = true -> filename_char c = true.
Proof. destruct c as [[] [] [] [] [] [] [] []]; intros H; try reflexivity; discriminate H. Qed.

Lemma alnum_not_stripped (c : ascii) : alnum c = true -> Py.has_char c "._" = false.
Proof. destruct c as [[] [] [] [] [] [] [] []]; intros H; try reflexivity; discriminate H. Qed.

Lemma filename_char_ascii (c : ascii) : filename_char c = true -> is_ascii c = true.
Proof. destruct c as [[] [] [] [] [] [] [] []]; intros H; try reflexivity; discriminate H. Qed.

Lemma filename_char_not_space (c : ascii) :
  filename_char c = true -> negb (Py.isspace c) = true.
Proof. destruct c as [[] [] [] [] [] [] [] []]; intros H; try reflexivity; discriminate H. Qed.

Lemma filename_char_not_slash (c : ascii) :
  filename_char c = true -> negb (Ascii.eqb "/" c) = true.
Proof. destruct c as [[] [] [] [] [] [] [] []]; intros H; try reflexivity; discriminate H. Qed.

Lemma hex_digit_alnum (n : N) : alnum (hex_digit n) = true.
Proof.
  destruct n as [|p]; [reflexivity|].
  do 4 (destruct p as [p|p|]; try reflexivity).
Qed.

Lemma hex_digits_spec (k : nat) (r : N) (acc : string) :
  Py.sall alnum acc = true ->
  Py.sall alnum (hex_digits k r acc) = true /\
  String.length (hex_digits k r acc) = (k + String.length acc)%nat.
Proof.
  revert r acc. induction k as [|k IH]; intros r acc H; [now split|].
  cbn [hex_digits].
  destruct (IH (r / 16)%N (String (hex_digit (r mod 16)) acc)) as [H1 H2].
  { cbn [Py.sall]. now rewrite hex_digit_alnum. }
  split; [exact H1|]. rewrite H2. simpl. lia.
Qed.

Lemma token_hex_shape (n : nat) (entropy : N) :
  (0 < n)%nat ->
  exists c rest, token_hex n entropy = String c rest /\
                 alnum c = true /\ Py.sall alnum rest = true.
Proof.
  intros Hn. unfold token_hex.
  destruct (hex_digits_spec (2 * n) entropy "" eq_refl) as [H1 H2].
  destruct (hex_digits (2 * n) entropy "") as [|c rest]; simpl in *; [lia|].
  apply andb_true_iff in H1 as [Hc Hrest]. now exists c, rest.
Qed.

#[local] Opaque token_hex.
#[local] Arguments os_path_join : simpl never.
#[local] Arguments secure_filename : simpl never.
#[local] Arguments validate_filename : simpl never.
#[local] Arguments path_stem : simpl never.
#[local] Arguments Z.mul : simpl never.


(** ** More on strings *)

Lemma sall_app (P : ascii -> bool) (a b : string) :
  Py.sall P (a ++ b) = Py.sall P a && Py.sall P b.
Proof. induction a as [|x a IH]; simpl; [reflexivity|]. now rewrite IH, andb_assoc. Qed.

Lemma sall_impl (P Q : ascii -> bool) (s : string) :
  (forall c, P c = true -> Q c = true) -> Py.sall P s = true -> Py.sall Q s = true.
Proof.
  intros H. induction s as [|x s IH]; simpl; [reflexivity|].
  intros HP. apply andb_true_iff in HP as [Hx Hs]. now rewrite (H _ Hx), IH.
Qed.

Lemma sall_sfilter (P : ascii -> bool) (s : string) : Py.sall P (Py.sfilter P s) = true.
Proof.
  induction s as [|x s IH]; simpl; [reflexivity|].
  destruct (P x) eqn:E; simpl; [now rewrite E|exact IH].
Qed.

Lemma sfilter_all (P : ascii -> bool) (s : string) :
  Py.sall P s = true -> Py.sfilter P s = s.
Proof.
  induction s as [|x s IH]; simpl; [reflexivity|].
  intros H. apply andb_true_iff in H as [Hx Hs]. now rewrite Hx, IH.
Qed.

Lemma sall_lstrip_by (P Q : ascii -> bool) (s : string) :
  Py.sall P s = true -> Py.sall P (Py.lstrip_by Q s) = true.
Proof.
  induction s as [|x s IH]; simpl; [reflexivity|].
  intros H. destruct (Q x); [|exact H].
  apply andb_true_iff in H as [_ Hs]. now apply IH.
Qed.

Lemma sall_rstrip_by (P Q : ascii -> bool) (s : string) :
  Py.sall P s = true -> Py.sall P (Py.rstrip_by Q s) = true.
Proof.
  induction s as [|x s IH]; simpl; [reflexivity|].
  intros H. apply andb_true_iff in H as [Hx Hs]. specialize (IH Hs).
  destruct (Py.rstrip_by Q s) as [|y r].
  - destruct (Q x); simpl; [reflexivity|now rewrite Hx].
  - simpl in *. now rewrite Hx.
Qed.

Lemma lstrip_by_head (Q : ascii -> bool) (c : ascii) (s : string) :
  Q c = false -> Py.lstrip_by Q (String c s) = String c s.
Proof. intros H. simpl. now rewrite H. Qed.

Lemma rstrip_by_last (Q : ascii -> bool) (s : string) (c : ascii) :
  Q c = false -> Py.rstrip_by Q (s ++ String c "") = s ++ String c "".
Proof.
  intros H. induction s as [|x s IH]; simpl.
  - now rewrite H.
  - rewrite IH. now destruct s.
Qed.

Lemma replace_absent (c : ascii) (by_ s : string) :
  Py.has_char c s = false -> Py.replace c by_ s = s.
Proof.
  induction s as [|x s IH]; simpl; [reflexivity|].
  rewrite (Ascii.eqb_sym c x). intros H. apply orb_false_iff in H as [Hx Hs].
  now rewrite Hx, IH.
Qed.

Lemma has_char_sall (c : ascii) (s : string) :
  Py.has_char c s = false <-> Py.sall (fun x => negb (Ascii.eqb c x)) s = true.
Proof.
  induction s as [|x s IH]; simpl; [tauto|].
  rewrite orb_false_iff, andb_true_iff, negb_true_iff, IH. tauto.
Qed.

Lemma split_ws_plain (s : string) :
  s <> "" -> Py.sall (fun c => negb (Py.isspace c)) s = true -> Py.split_ws s = [s].
Proof.
  induction s as [|x s IH]; [congruence|]. intros _ H. simpl in H.
  apply andb_true_iff in H as [Hx Hs]. apply negb_true_iff in Hx.
  simpl. rewrite Hx. destruct s as [|y s]; [reflexivity|].
  assert (Hy : Py.isspace y = false).
  { simpl in Hs. apply andb_true_iff in Hs as [Hy _]. now apply negb_true_iff. }
  rewrite Hy. rewrite IH by (congruence || exact Hs). reflexivity.
Qed.

Lemma rpartition_absent (sep : ascii) (s : string) :
  Py.has_char sep s = false -> Py.rpartition sep s = None.
Proof.
  induction s as [|x s IH]; simpl; [reflexivity|].
  rewrite (Ascii.eqb_sym sep x). intros H. apply orb_false_iff in H as [Hx Hs].
  now rewrite IH, Hx.
Qed.

Lemma rpartition_app (sep : ascii) (b a : string) :
  Py.has_char sep a = false -> Py.rpartition sep (b ++ String sep a) = Some (b, a).
Proof.
  intros H. induction b as [|x b IH]; simpl.
  - now rewrite (rpartition_absent _ _ H), Ascii.eqb_refl.
  - now rewrite IH.
Qed.

Lemma split_nonempty (sep : ascii) (s : string) : Py.split sep s <> [].
Proof.
  induction s as [|x s IH]; simpl; [discriminate|].
  destruct (Ascii.eqb x sep); [discriminate|].
  now destruct (Py.split sep s).
Qed.

Lemma split_app_sep (sep : ascii) (a b : string) :
  Py.split sep (a ++ String sep b) = (Py.split sep a ++ Py.split sep b)%list.
Proof.
  induction a as [|x a IH]; simpl.
  - now rewrite Ascii.eqb_refl.
  - destruct (Ascii.eqb x sep); [now rewrite IH|].
    rewrite IH. pose proof (split_nonempty sep a) as Hne.
    now destruct (Py.split sep a).
Qed.

Lemma split_plain (sep : ascii) (s : string) :
  Py.has_char sep s = false -> Py.split sep s = [s].
Proof.
  induction s as [|x s IH]; simpl; [reflexivity|].
  rewrite (Ascii.eqb_sym sep x). intros H. apply orb_false_iff in H as [Hx Hs].
  now rewrite Hx, IH.
Qed.

Lemma join_snoc (sep : string) (l : list string) (x : string) :
  Py.join sep (l ++ [x]) = match l with [] => x | _ => Py.join sep l ++ sep ++ x end.
Proof.
  induction l as [|y l IH]; [reflexivity|].
  destruct l as [|z l]; [reflexivity|].
  change (Py.join sep ((y :: z :: l) ++ [x])) with (y ++ sep ++ Py.join sep ((z :: l) ++ [x])).
  rewrite IH. change (Py.join sep (y :: z :: l)) with (y ++ sep ++ Py.join sep (z :: l)).
  now rewrite !sapp_assoc.
Qed.

Lemma prefix_app_long (q d r : string) :
  (String.length q <= String.length d)%nat -> Py.prefix q (d ++ r) = Py.prefix q d.
Proof.
  revert d. induction q as [|x q IH]; intros d H; [reflexivity|].
  destruct d as [|y d]; simpl in *; [lia|].
  destruct (Ascii.eqb x y); simpl; [apply IH; lia | reflexivity].
Qed.

Lemma endswith_char_app (x y : string) (c : ascii) :
  y <> "" -> Py.endswith (x ++ y) (String c "") = Py.endswith y (String c "").
Proof.
  intros Hy. induction x as [|a x IH]; [reflexivity|].
  simpl. rewrite IH.
  assert (Hne : String.eqb (x ++ y) "" = false).
  { destruct x; simpl; [now apply String.eqb_neq | reflexivity]. }
  rewrite Hne. now destruct (Ascii.eqb a c).
Qed.

(** ** Paths *)

Lemma join_relative (a b : string) :
  Py.startswith b "/" = false -> os_path_join a b = join_prefix a ++ b.
Proof.
  intros H. unfold os_path_join, join_prefix. rewrite H.
  destruct (String.eqb a "" || Py.endswith a "/"); [reflexivity|].
  now rewrite sapp_assoc.
Qed.

Lemma isabs_join_prefix (a y : string) :
  os_path_isabs a = true -> os_path_isabs (join_prefix a ++ y) = true.
Proof.
  unfold os_path_isabs, Py.startswith, join_prefix. intros H.
  apply prefix_iff in H as [r ->].
  now destruct (String.eqb ("/" ++ r) "" || Py.endswith ("/" ++ r) "/").
Qed.

Ltac mstep :=
  cbv beta iota zeta delta
    [bind ret raise try_except try_finally on isinstance issubclass exn_cls mk_exn
     os_chmod gets modify lift_res].

(** ** The document pipeline *)

Section Pipeline.

Variable app_dir : string.
Variable cwd : string.
Variable nfkd_ascii : string -> string.

Lemma read_only_read_prompt : read_only (read_prompt app_dir).
Proof. unfold read_prompt, os_path_exists. repeat read_only_step. Qed.

Lemma read_only_extract_pdf_text env p : read_only (extract_pdf_text env p).
Proof. unfold extract_pdf_text, os_path_isfile. repeat read_only_step. Qed.

Lemma read_only_query_ollama env prompt context : read_only (query_ollama env prompt context).
Proof. unfold query_ollama. repeat read_only_step. Qed.

#[local] Hint Resolve read_only_read_prompt read_only_extract_pdf_text
  read_only_query_ollama : ro.

Lemma read_only_produce_output env p : read_only (produce_output app_dir env p).
Proof. unfold produce_output. repeat read_only_step. Qed.

(** ** Removing files *)

Lemma safe_remove_file_file (p c : string) (w : world) :
  fs w !! p = Some (File c) ->
  safe_remove_file p w = (Ok true, set_fs (delete p (fs w)) w).
Proof.
  intros H. unfold safe_remove_file, try_except, bind, os_path_exists, gets, os_remove, ret.
  rewrite H. simpl. now rewrite H.
Qed.

Lemma safe_remove_file_is_file (p : string) (w : world) :
  (exists c, fs w !! p = Some (File c)) ->
  safe_remove_file p w = (Ok true, set_fs (delete p (fs w)) w).
Proof. intros [c H]. now apply (safe_remove_file_file p c). Qed.

Lemma safe_remove_file_absent (p : string) (w : world) :
  fs w !! p = None -> safe_remove_file p w = (Ok false, w).
Proof.
  intros H. unfold safe_remove_file, try_except, bind, os_path_exists, gets, os_remove, ret.
  now rewrite H.
Qed.

Lemma write_file_ok (p c : string) (w w1 : world) :
  write_file p c w = (Ok tt, w1) -> w1 = set_fs (<[p := File c]> (fs w)) w.
Proof.
  unfold write_file. destruct (fs w !! p) as [[]|]; intros H; now inversion H.
Qed.



(** ** Where the folders are *)

Lemma folder_join (name x : string) :
  name <> "" ->
  Py.startswith name "/" = false ->
  Py.endswith name "/" = false ->
  Py.startswith x "/" = false ->
  os_path_join (os_path_join app_dir name) x = join_prefix app_dir ++ name ++ "/" ++ x.
Proof.
  intros Hne Hs He Hx.
  rewrite (join_relative _ x Hx), (join_relative app_dir name Hs).
  unfold join_prefix at 1.
  assert (H1 : String.eqb (join_prefix app_dir ++ name) "" = false).
  { destruct (join_prefix app_dir); simpl; [now apply String.eqb_neq | reflexivity]. }
  rewrite H1, (endswith_char_app _ _ _ Hne), He. simpl orb. cbv iota.
  now rewrite !sapp_assoc.
Qed.

Lemma upload_not_artifact (x y : string) :
  Py.startswith x "/" = false -> Py.startswith y "/" = false ->
  os_path_join (UPLOAD_FOLDER app_dir) x <> os_path_join (OUTPUT_FOLDER app_dir) y.
Proof.
  intros Hx Hy. unfold UPLOAD_FOLDER, OUTPUT_FOLDER.
  rewrite (folder_join "uploads" x), (folder_join "outputs" y) by (discriminate || easy).
  intros H. apply sapp_inv_head in H. discriminate H.
Qed.

(** ** Normalised paths *)

Lemma normpath_step_plain (n : nat) (comps : list string) (name : string) :
  Py.mem name [""; "."] = false -> String.eqb name ".." = false ->
  normpath_step n comps name = (comps ++ [name])%list.
Proof. intros H1 H2. unfold normpath_step. now rewrite H1, H2. Qed.

Lemma slashes_prefix (n : nat) (a b : string) :
  Py.prefix (slashes n ++ a) (slashes n ++ a ++ b) = true.
Proof. rewrite <- sapp_assoc. apply prefix_app. Qed.

(** Below an absolute directory of three characters or more, a plain name
    stays below the directory once both paths are normalised. *)
Lemma normpath_child (d name : string) :
  (3 <= String.length d)%nat ->
  Py.startswith d "/" = true ->
  Py.has_char "/" name = false ->
  Py.mem name [""; "."] = false -> String.eqb name ".." = false ->
  Py.startswith (os_path_normpath (d ++ "/" ++ name)) (os_path_normpath d) = true.
Proof.
  intros Hlen Habs Hplain Hdot Hdots. unfold os_path_normpath, Py.startswith in *.
  assert (Hd : String.eqb d "" = false) by (destruct d; [simpl in Hlen; lia | reflexivity]).
  assert (Hd' : String.eqb (d ++ "/" ++ name) "" = false) by (destruct d; [discriminate | reflexivity]).
  rewrite Hd, Hd'.
  rewrite !(prefix_app_long _ d) by (simpl; lia). rewrite Habs.
  set (n := if Py.prefix "//" d && negb (Py.prefix "///" d) then 2%nat else 1%nat).
  assert (Hn : exists m, n = S m) by (unfold n; destruct (_ && _); eauto).
  destruct Hn as [m Hm].
  change (d ++ "/" ++ name) with (d ++ String "/" name).
  rewrite split_app_sep, (split_plain _ _ Hplain), fold_left_app. cbn [fold_left].
  rewrite (normpath_step_plain _ _ _ Hdot Hdots), join_snoc.
  set (comps := fold_left (normpath_step n) (Py.split "/" d) []).
  assert (Hne : forall x, String.eqb (slashes n ++ x) "" = false) by (intros x; now rewrite Hm).
  rewrite !Hne.
  destruct comps as [|c comps].
  - cbn [Py.join]. rewrite sapp_nil_r. apply prefix_app.
  - apply slashes_prefix.
Qed.

Local Abbreviation artifact_name := (artifact_name nfkd_ascii).
Local Abbreviation artifact_path := (artifact_path app_dir nfkd_ascii).


(** ** Secure file names *)

Lemma secure_filename_chars (x : string) :
  Py.sall filename_char (secure_filename nfkd_ascii x) = true.
Proof.
  unfold secure_filename, Py.strip_chars.
  apply sall_rstrip_by, sall_lstrip_by, sall_sfilter.
Qed.

Lemma path_stem_chars (P : ascii -> bool) (x : string) :
  Py.sall P x = true -> Py.sall P (path_stem x) = true.
Proof.
  intros H. unfold path_stem.
  destruct (Py.rpartition "." x) as [[b a]|] eqn:E; [|exact H].
  destruct (negb (String.eqb b "") && negb (String.eqb a "")); [|exact H].
  apply rpartition_some in E as [-> _]. rewrite sall_app in H.
  now apply andb_true_iff in H as [H _].
Qed.

Hypothesis nfkd_ascii_plain : forall s, Py.sall is_ascii s = true -> nfkd_ascii s = s.

(** A name made of file-name characters that neither starts nor ends with
    a dot or an underscore is its own secure form. *)
Lemma secure_filename_fixed (c d : ascii) (rest pre : string) :
  let s := String c rest in
  s = pre ++ String d "" ->
  Py.has_char c "._" = false -> Py.has_char d "._" = false ->
  Py.sall filename_char s = true ->
  secure_filename nfkd_ascii s = s.
Proof.
  intros s Hlast Hc Hd Hall. unfold secure_filename.
  rewrite nfkd_ascii_plain by (apply (sall_impl filename_char); auto using filename_char_ascii).
  rewrite replace_absent
    by (apply has_char_sall, (sall_impl filename_char); auto using filename_char_not_slash).
  rewrite split_ws_plain;
    [| discriminate | apply (sall_impl filename_char); auto using filename_char_not_space].
  cbn [Py.join]. rewrite (sfilter_all _ _ Hall).
  unfold Py.strip_chars. unfold s at 1. rewrite lstrip_by_head by exact Hc.
  fold s. rewrite Hlast. now apply rstrip_by_last.
Qed.

(** The shape of an artifact name. *)
Lemma artifact_name_shape (env : pdf_env) (f : upload) :
  exists c rest pre,
    artifact_name env f = String c rest /\
    artifact_name env f = pre ++ "t" /\
    alnum c = true /\
    Py.sall filename_char (artifact_name env f) = true.
Proof.
  destruct (token_hex_shape 8 (output_entropy env)) as (c & rest & Htok & Hc & Hrest); [lia|].
  set (stem := path_stem (secure_filename nfkd_ascii (up_filename f))).
  exists c, (rest ++ "_" ++ stem ++ "_output.txt"),
         (token_hex 8 (output_entropy env) ++ "_" ++ stem ++ "_output.tx").
  unfold artifact_name. fold stem. repeat split.
  - now rewrite Htok.
  - rewrite !sapp_assoc. reflexivity.
  - exact Hc.
  - rewrite Htok. change (String c rest) with (String c "" ++ rest).
    rewrite !sall_app. cbn [Py.sall].
    rewrite (alnum_filename_char _ Hc), (sall_impl alnum filename_char rest alnum_filename_char Hrest).
    unfold stem. rewrite (path_stem_chars _ _ (secure_filename_chars _)). reflexivity.
Qed.

Lemma artifact_name_secure (env : pdf_env) (f : upload) :
  secure_filename nfkd_ascii (artifact_name env f) = artifact_name env f.
Proof.
  destruct (artifact_name_shape env f) as (c & rest & pre & H1 & H2 & Hc & Hall).
  rewrite H1 in *. apply (secure_filename_fixed c "t" rest pre); auto.
  now apply alnum_not_stripped.
Qed.

Lemma artifact_name_plain (env : pdf_env) (f : upload) :
  Py.has_char "/" (artifact_name env f) = false /\
  Py.startswith (artifact_name env f) "/" = false /\
  String.eqb (artifact_name env f) "" = false /\
  Py.mem (artifact_name env f) [""; "."] = false /\
  String.eqb (artifact_name env f) ".." = false.
Proof.
  destruct (artifact_name_shape env f) as (c & rest & pre & H1 & _ & Hc & Hall).
  split.
  { apply has_char_sall, (sall_impl filename_char); auto using filename_char_not_slash. }
  rewrite H1. clear H1 Hall.
  destruct c as [[] [] [] [] [] [] [] []]; try discriminate Hc; repeat split; reflexivity.
Qed.

Lemma upload_path_some env f p :
  upload_path app_dir nfkd_ascii env (Some f) = Some p ->
  up_filename f <> "" /\
  validate_filename (PStr (up_filename f)) = true /\
  Py.endswith (Py.lower (secure_filename nfkd_ascii (up_filename f))) ".pdf" = true /\
  p = os_path_join (UPLOAD_FOLDER app_dir)
        (token_hex 8 (upload_entropy env) ++ "_" ++ secure_filename nfkd_ascii (up_filename f)).
Proof.
  unfold upload_path.
  destruct (String.eqb_spec (up_filename f) "") as [|Hne]; [discriminate|].
  destruct (validate_filename (PStr (up_filename f))); [|discriminate].
  destruct (Py.endswith _ _); [|discriminate].
  intros H. apply (inj Some) in H. repeat split; auto.
Qed.

Lemma process_pdf_saved env f p w w1 :
  upload_path app_dir nfkd_ascii env (Some f) = Some p ->
  p <> "" ->
  write_file p (up_content f) w = (Ok tt, w1) ->
  process_pdf app_dir nfkd_ascii env (Some f) w =
  if (Py.len (up_content f) >? MAX_CONTENT_LENGTH)%Z then
    (Ok (jsonify [("error", PStr "File too large (max 50MB)")] 400),
     set_fs (delete p (fs w1)) w1)
  else
    match produce_output app_dir env p w1 with
    | (Ok text, _) =>
        match fs w1 !! artifact_path env f with
        | Some Dir =>
            (Ok (error_500 (mk_exn IsADirectoryError "Is a directory")),
             set_fs (delete p (fs w1)) w1)
        | _ =>
            if answer_encodable env then
              (Ok (success_response
                     (os_path_basename (artifact_path env f))
                     (path_stem (secure_filename nfkd_ascii (up_filename f))
                      ++ "_output.txt")),
               set_fs (delete p (<[artifact_path env f := File text]> (fs w1))) w1)
            else
              (Ok (error_500 (mk_exn UnicodeEncodeError "surrogates not allowed")),
               set_fs (delete p (<[artifact_path env f := File ""]> (fs w1))) w1)
        end
    | (Raise e, _) => (Ok (error_500 e), set_fs (delete p (fs w1)) w1)
    end.
Proof.
  intros Hp Hne Hsave.
  destruct (upload_path_some _ _ _ Hp) as (Hname & Hvalid & Hpdf & ->).
  set (p := os_path_join _ _) in *.
  unfold process_pdf.
  apply String.eqb_neq in Hname. rewrite Hname, Hvalid, Hpdf.
  change (negb true) with false. cbv iota zeta. fold p.
  apply String.eqb_neq in Hne. rewrite Hne.
  change (negb false) with true. cbv iota.
  fold (artifact_name env f). fold (artifact_path env f).
  pose proof (write_file_ok _ _ _ _ Hsave) as Hw1.
  assert (Hfile : fs w1 !! p = Some (File (up_content f))).
  { rewrite Hw1. apply lookup_insert_eq. }
  assert (Hgone : fs (set_fs (delete p (fs w1)) w1) !! p = None) by apply lookup_delete_eq.
  pose proof (read_only_produce_output env p w1) as Hro.
  mstep. rewrite Hsave. mstep. unfold os_path_getsize. rewrite Hfile. mstep.
  destruct (Py.len (up_content f) >? MAX_CONTENT_LENGTH)%Z.
  - rewrite (safe_remove_file_file _ _ _ Hfile). reflexivity.
  - destruct (produce_output app_dir env p w1) as [[text|e] w2]; simpl in Hro; subst w2.
    + unfold write_text.
      assert (Hgone' : forall m : gmap string node,
                fs (set_fs (delete p m) w1) !! p = None)
        by (intros m; apply lookup_delete_eq).
      assert (Hrm : forall text,
                safe_remove_file p (set_fs (<[artifact_path env f := File text]> (fs w1)) w1)
                = (Ok true,
                   set_fs (delete p (<[artifact_path env f := File text]> (fs w1))) w1)).
      { intros t. rewrite safe_remove_file_is_file; [reflexivity|].
        cbn [fs set_fs]. destruct (decide (artifact_path env f = p)) as [->|Hd].
        - eexists. apply lookup_insert_eq.
        - rewrite lookup_insert_ne by exact Hd. eexists. exact Hfile. }
      destruct (fs w1 !! artifact_path env f) as [[c|]|] eqn:E.
      * destruct (answer_encodable env); rewrite Hrm; [reflexivity|].
        mstep. rewrite (safe_remove_file_absent _ _ (Hgone' _)). reflexivity.
      * rewrite (safe_remove_file_file _ _ _ Hfile). mstep.
        rewrite (safe_remove_file_absent _ _ Hgone). reflexivity.
      * destruct (answer_encodable env); rewrite Hrm; [reflexivity|].
        mstep. rewrite (safe_remove_file_absent _ _ (Hgone' _)). reflexivity.
    + rewrite (safe_remove_file_file _ _ _ Hfile). mstep.
      rewrite (safe_remove_file_absent _ _ Hgone). reflexivity.
Qed.

Lemma upload_name_relative (env : pdf_env) (x : string) :
  Py.startswith (token_hex 8 (upload_entropy env) ++ "_" ++ x) "/" = false.
Proof.
  destruct (token_hex_shape 8 (upload_entropy env)) as (c & rest & -> & Hc & _); [lia|].
  destruct c as [[] [] [] [] [] [] [] []]; try discriminate Hc; reflexivity.
Qed.

Lemma upload_path_nonempty env f p :
  upload_path app_dir nfkd_ascii env (Some f) = Some p -> p <> "".
Proof.
  intros Hp. destruct (upload_path_some _ _ _ Hp) as (_ & _ & _ & ->).
  unfold UPLOAD_FOLDER. rewrite folder_join by (discriminate || easy || apply upload_name_relative).
  intros H. apply (f_equal String.length) in H. rewrite !slength_app in H. simpl in H. lia.
Qed.

Lemma upload_path_not_artifact env f p :
  upload_path app_dir nfkd_ascii env (Some f) = Some p -> p <> artifact_path env f.
Proof.
  intros Hp. destruct (upload_path_some _ _ _ Hp) as (_ & _ & _ & ->).
  apply upload_not_artifact; [apply upload_name_relative | apply artifact_name_plain].
Qed.

(** C3: once [process_pdf] has saved the upload, the upload is gone from
    storage when [process_pdf] returns, and [process_pdf] does return a
    response: whether the file is too large, the extraction, the prompt, the
    query or the writing of the output fails, or everything succeeds. *)
Theorem process_pdf_removes_upload env file w p w1 :
  upload_path app_dir nfkd_ascii env file = Some p ->
  write_file p (default "" (up_content <$> file)) w = (Ok tt, w1) ->
  exists r w',
    process_pdf app_dir nfkd_ascii env file w = (Ok r, w') /\ fs w' !! p = None.
Proof.
  intros Hp Hsave. destruct file as [f|]; [|discriminate Hp]. simpl in Hsave.
  rewrite (process_pdf_saved _ _ _ _ _ Hp (upload_path_nonempty _ _ _ Hp) Hsave).
  destruct (Py.len (up_content f) >? MAX_CONTENT_LENGTH)%Z.
  { eexists _, _. split; [reflexivity | apply lookup_delete_eq]. }
  destruct (produce_output app_dir env p w1) as [[text|e] w2].
  - destruct (fs w1 !! artifact_path env f) as [[c|]|];
      try destruct (answer_encodable env);
      eexists _, _; (split; [reflexivity | apply lookup_delete_eq]).
  - eexists _, _. split; [reflexivity | apply lookup_delete_eq].
Qed.

(** ** Retrieval *)

Hypothesis app_dir_absolute : os_path_isabs app_dir = true.

Lemma artifact_path_shape (env : pdf_env) (f : upload) :
  artifact_path env f = OUTPUT_FOLDER app_dir ++ "/" ++ artifact_name env f /\
  os_path_isabs (OUTPUT_FOLDER app_dir) = true /\
  os_path_isabs (artifact_path env f) = true /\
  (3 <= String.length (OUTPUT_FOLDER app_dir))%nat.
Proof.
  destruct (artifact_name_plain env f) as (_ & Hrel & _).
  assert (Hout : OUTPUT_FOLDER app_dir = join_prefix app_dir ++ "outputs").
  { unfold OUTPUT_FOLDER. now apply join_relative. }
  assert (Habs : os_path_isabs (join_prefix app_dir ++ "outputs") = true).
  { now apply isabs_join_prefix. }
  assert (Hpath : artifact_path env f = OUTPUT_FOLDER app_dir ++ "/" ++ artifact_name env f).
  { unfold artifact_path, OUTPUT_FOLDER.
    rewrite folder_join by (discriminate || easy).
    rewrite join_relative by reflexivity. now rewrite !sapp_assoc. }
  repeat split.
  - exact Hpath.
  - now rewrite Hout.
  - rewrite Hpath, Hout. revert Habs. unfold os_path_isabs, Py.startswith.
    destruct (join_prefix app_dir ++ "outputs"); [discriminate|]. exact id.
  - rewrite Hout, slength_app. simpl. lia.
Qed.

Lemma download_artifact (env : pdf_env) (f : upload) (w : world) (text : string) :
  fs w !! artifact_path env f = Some (File text) ->
  download app_dir cwd nfkd_ascii (artifact_name env f) w
  = (Ok (Response 200 (Attachment text) [artifact_path env f]), w).
Proof.
  intros Hfile. unfold download. rewrite artifact_name_secure.
  destruct (artifact_name_plain env f) as (Hplain & _ & Hne & Hdot & Hdots).
  destruct (artifact_path_shape env f) as (Hpath & Habs & Habs' & Hlen).
  rewrite Hne, String.eqb_refl. fold (artifact_path env f).
  assert (Hin : Py.startswith (os_path_normpath (artifact_path env f))
                                (os_path_normpath (OUTPUT_FOLDER app_dir)) = true).
  { rewrite Hpath. now apply normpath_child. }
  unfold os_path_abspath. rewrite Habs, Habs'. cbn [negb orb]. rewrite Hin.
  mstep. unfold os_path_isfile, send_file. mstep. rewrite Hfile. cbn [negb]. mstep.
  rewrite Hfile. reflexivity.
Qed.

Lemma download_missing (env : pdf_env) (f : upload) (w : world) :
  fs w !! artifact_path env f = None ->
  download app_dir cwd nfkd_ascii (artifact_name env f) w = (Ok not_found_response, w).
Proof.
  intros Hfile. unfold download. rewrite artifact_name_secure.
  destruct (artifact_name_plain env f) as (_ & _ & Hne & _).
  rewrite Hne, String.eqb_refl. fold (artifact_path env f). cbn [negb orb].
  mstep. unfold os_path_isfile. mstep. rewrite Hfile. reflexivity.
Qed.

(** A successful [process_pdf], taken apart. *)
Lemma process_pdf_success env file w r w' :
  process_pdf app_dir nfkd_ascii env file w = (Ok r, w') ->
  status r = 200%Z ->
  exists f p w1 text,
    file = Some f /\
    upload_path app_dir nfkd_ascii env file = Some p /\
    write_file p (up_content f) w = (Ok tt, w1) /\
    produce_output app_dir env p w1 = (Ok text, w1) /\
    r = success_response (artifact_name env f)
          (path_stem (secure_filename nfkd_ascii (up_filename f)) ++ "_output.txt") /\
    fs w' !! artifact_path env f = Some (File text) /\
    fs w' !! p = None.
Proof.
  intros Hrun Hst. destruct file as [f|].
  2:{ unfold process_pdf in Hrun. revert Hrun. mstep. intros [= <- _]. discriminate Hst. }
  destruct (upload_path app_dir nfkd_ascii env (Some f)) as [p|] eqn:Hp.
  2:{ exfalso. revert Hrun Hp. unfold process_pdf, upload_path.
      destruct (String.eqb (up_filename f) "").
      { mstep. intros [= <- _]. discriminate Hst. }
      destruct (validate_filename (PStr (up_filename f))).
      2:{ mstep. intros [= <- _]. discriminate Hst. }
      destruct (Py.endswith _ ".pdf").
      2:{ mstep. intros [= <- _]. discriminate Hst. }
      discriminate. }
  destruct (write_file p (up_content f) w) as [[[]|e] w1] eqn:Hsave.
  - rewrite (process_pdf_saved _ _ _ _ _ Hp (upload_path_nonempty _ _ _ Hp) Hsave) in Hrun.
    destruct (Py.len (up_content f) >? MAX_CONTENT_LENGTH)%Z.
    { injection Hrun as <- _. discriminate Hst. }
    pose proof (read_only_produce_output env p w1) as Hro.
    destruct (produce_output app_dir env p w1) as [[text|e] w2] eqn:Hout;
      simpl in Hro; subst w2.
    2:{ injection Hrun as <- _. discriminate Hst. }
    assert (Hbase : os_path_basename (artifact_path env f) = artifact_name env f).
    { destruct (artifact_path_shape env f) as (-> & _).
      destruct (artifact_name_plain env f) as (Hplain & _).
      unfold os_path_basename.
      change (OUTPUT_FOLDER app_dir ++ "/" ++ artifact_name env f)
        with (OUTPUT_FOLDER app_dir ++ String "/" (artifact_name env f)).
      now rewrite rpartition_app. }
    assert (Hfinal : forall fs0 : gmap string node,
              delete p (<[artifact_path env f := File text]> fs0) !! artifact_path env f
              = Some (File text)).
    { intros fs0. rewrite lookup_delete_ne by (now apply upload_path_not_artifact).
      apply lookup_insert_eq. }
    exists f, p, w1, text.
    destruct (fs w1 !! artifact_path env f) as [[c|]|] eqn:E.
    + destruct (answer_encodable env); [|injection Hrun as <- _; discriminate Hst].
      injection Hrun as <- <-. rewrite Hbase. repeat split; auto.
      * apply Hfinal.
      * apply lookup_delete_eq.
    + injection Hrun as <- _. discriminate Hst.
    + destruct (answer_encodable env); [|injection Hrun as <- _; discriminate Hst].
      injection Hrun as <- <-. rewrite Hbase. repeat split; auto.
      * apply Hfinal.
      * apply lookup_delete_eq.
  - exfalso. destruct (upload_path_some _ _ _ Hp) as (Hname & Hvalid & Hpdf & Hpeq).
    revert Hrun. unfold process_pdf.
    apply String.eqb_neq in Hname. rewrite Hname, Hvalid, Hpdf.
    change (negb true) with false. cbv iota zeta. rewrite <- Hpeq.
    mstep. rewrite Hsave. mstep.
    destruct (negb (String.eqb p "")).
    + mstep. destruct (safe_remove_file p w1) as [[b|e'] w2]; mstep;
        intros [= <- _]; discriminate Hst.
    + mstep. intros [= <- _]. discriminate Hst.
Qed.

(** C9 (the code departs from the claim): the identifier that a
    successful [process_pdf] hands out retrieves exactly the text that
    [process_pdf] wrote to the output artifact, as claimed; but the
    retrieval removes nothing, and a second retrieval is answered 200 with
    the same text, not with a 404.  [download] registers the removal with
    [call_on_close], and [Response.close] would remove the file (a download
    after it is answered 404); but the response of [send_file] has
    [direct_passthrough] set, so the server is handed the file wrapper
    itself and [Response.close] is never called. *)
Theorem retrieve_leaves_artifact env file w output_id original_name w' :
  process_pdf app_dir nfkd_ascii env file w
    = (Ok (success_response output_id original_name), w') ->
  exists p w1 text,
    upload_path app_dir nfkd_ascii env file = Some p /\
    write_file p (default "" (up_content <$> file)) w = (Ok tt, w1) /\
    produce_output app_dir env p w1 = (Ok text, w1) /\
    fs w' !! os_path_join (OUTPUT_FOLDER app_dir) output_id = Some (File text) /\
    let sent := Response 200 (Attachment text)
                  [os_path_join (OUTPUT_FOLDER app_dir) output_id] in
    retrieve app_dir cwd nfkd_ascii output_id w' = (Ok sent, w') /\
    retrieve app_dir cwd nfkd_ascii output_id
      (snd (retrieve app_dir cwd nfkd_ascii output_id w')) = (Ok sent, w') /\
    exists w'',
      close_response (on_close sent) w' = (Ok tt, w'') /\
      download app_dir cwd nfkd_ascii output_id w'' = (Ok not_found_response, w'').
Proof.
  intros Hrun.
  destruct (process_pdf_success _ _ _ _ _ Hrun eq_refl)
    as (f & p & w1 & text & -> & Hp & Hsave & Hout & Hr & Hfile & _).
  injection Hr as -> _. fold (artifact_path env f).
  assert (Hret : retrieve app_dir cwd nfkd_ascii (artifact_name env f) w'
                 = (Ok (Response 200 (Attachment text) [artifact_path env f]), w')).
  { unfold retrieve. mstep. rewrite (download_artifact _ _ _ _ Hfile). reflexivity. }
  exists p, w1, text. repeat split; auto.
  - rewrite Hret. exact Hret.
  - exists (set_fs (delete (artifact_path env f) (fs w')) w'). split.
    + cbn [on_close close_response]. mstep.
      rewrite (safe_remove_file_file _ _ _ Hfile). reflexivity.
    + rewrite download_missing by apply lookup_delete_eq. reflexivity.
Qed.

End Pipeline.

(** ** Threads that run [auto_setup] at the same time *)

Lemma lookup_set_thread (l : list thread) (i j : nat) (t t' : thread) :
  l !! i = Some t ->
  <[i := t']> l !! j = if decide (i = j) then Some t' else l !! j.
Proof.
  intros H. destruct (decide (i = j)) as [<-|Hne].
  - apply list_lookup_insert_eq. now apply lookup_lt_Some in H.
  - now apply list_lookup_insert_ne.
Qed.

Lemma contiguous_nil : contiguous [].
Proof. intros i j k x y z H. discriminate H. Qed.

Lemma contiguous_snoc (l : list nat) (x : nat) :
  contiguous l -> (In x l -> last l = Some x) -> contiguous (l ++ [x]).
Proof.
  intros Hc Hlast i j k a b c Hi Hj Hk Hij Hjk Hac.
  assert (Hkl : (k < length (l ++ [x]))%nat) by (now apply lookup_lt_Some in Hk).
  rewrite length_app in Hkl. simpl in Hkl.
  rewrite lookup_app_l in Hi by lia. rewrite lookup_app_l in Hj by lia.
  destruct (decide (k < length l)%nat) as [Hlt|Hge].
  - rewrite lookup_app_l in Hk by lia. exact (Hc i j k a b c Hi Hj Hk Hij Hjk Hac).
  - assert (k = length l) by lia. subst k.
    rewrite lookup_app_r in Hk by lia. rewrite Nat.sub_diag in Hk. simpl in Hk.
    injection Hk as Hk. assert (Hax : a = x) by congruence. clear Hk Hac. subst a.
    assert (Hin : In x l) by (apply list_elem_of_In, list_elem_of_lookup; eauto).
    specialize (Hlast Hin). rewrite last_lookup in Hlast.
    destruct (decide (j = pred (length l))) as [->|Hne].
    + congruence.
    + apply (Hc i j (pred (length l)) x b x Hi Hj Hlast); [lia | lia | reflexivity].
Qed.

Lemma spawn_inv (w : world) (calls : list (setup_env * pyval)) : setup_inv (spawn w calls).
Proof.
  unfold setup_inv, spawn, log_tids. simpl. repeat split.
  - intros i t Ht Hin. rewrite list_lookup_fmap in Ht.
    destruct (calls !! i); [|discriminate]. injection Ht as <-. destruct Hin.
  - discriminate.
  - intros i [].
  - apply contiguous_nil.
  - intros i t Ht _. rewrite list_lookup_fmap in Ht.
    destruct (calls !! i); [|discriminate]. injection Ht as <-. now left.
Qed.

Lemma in_setup_at_pc (t : thread) (p : pc) :
  in_setup (at_pc t p) <-> exists st, p = InSetup st.
Proof.
  unfold in_setup. simpl. destruct p; split; try tauto; try (intros [st H]; discriminate).
  intros _. eauto.
Qed.

(** A step that neither takes nor gives the lock and runs no stage:
    validation. *)
Lemma inv_validate (s : system) (i : nat) (t : thread) (w' : world) (p : pc) :
  setup_inv s -> threads s !! i = Some t -> th_pc t = AtEntry ->
  (p = AtLock /\ validate_model_name (th_model t) = true \/ p = Returned false) ->
  setup_inv (System w' (setup_lock s) (<[i := at_pc t p]> (threads s)) (executed s)).
Proof.
  intros (I1 & I2 & I3 & I4 & I5) Ht Hpc Hp.
  assert (Hnot : ~ in_setup t) by (unfold in_setup; now rewrite Hpc).
  assert (Hnr : ~ is_returned t) by (unfold is_returned; now rewrite Hpc).
  assert (Hp' : ~ in_setup (at_pc t p)).
  { rewrite in_setup_at_pc. intros [st ->]. destruct Hp as [[? _]|?]; discriminate. }
  unfold setup_inv, log_tids in *. cbn [threads setup_lock executed]. repeat split.
  - intros k tk Hk Hin. rewrite (lookup_set_thread _ _ _ _ _ Ht) in Hk.
    destruct (decide (i = k)) as [<-|Hne]; [|now apply I1 with tk].
    injection Hk as <-. contradiction.
  - intros k Hlock. destruct (I2 k Hlock) as (tk & Hk & Hin). exists tk. split; [|exact Hin].
    rewrite (lookup_set_thread _ _ _ _ _ Ht). destruct (decide (i = k)) as [<-|Hne]; [|exact Hk].
    congruence.
  - intros k Hin. destruct (I3 k Hin) as (tk & Hk & Hst). exists tk. split; [|exact Hst].
    rewrite (lookup_set_thread _ _ _ _ _ Ht). destruct (decide (i = k)) as [<-|Hne]; [|exact Hk].
    assert (tk = t) by congruence. subst tk. tauto.
  - exact I4.
  - intros k tk Hk Hbad. rewrite (lookup_set_thread _ _ _ _ _ Ht) in Hk.
    destruct (decide (i = k)) as [<-|Hne]; [|now apply I5 with k].
    injection Hk as <-. simpl in *. destruct Hp as [[_ Hv]| ->]; [congruence | now right].
Qed.

(** Taking the free lock. *)
Lemma inv_acquire (s : system) (i : nat) (t : thread) :
  setup_inv s -> threads s !! i = Some t -> th_pc t = AtLock -> setup_lock s = None ->
  setup_inv (System (sys_world s) (Some i)
               (<[i := at_pc t (InSetup CheckInstalled)]> (threads s)) (executed s)).
Proof.
  intros (I1 & I2 & I3 & I4 & I5) Ht Hpc Hfree.
  assert (Hnot : ~ in_setup t) by (unfold in_setup; now rewrite Hpc).
  assert (Hnr : ~ is_returned t) by (unfold is_returned; now rewrite Hpc).
  unfold setup_inv, log_tids in *. cbn [threads setup_lock executed]. repeat split.
  - intros k tk Hk Hin. rewrite (lookup_set_thread _ _ _ _ _ Ht) in Hk.
    destruct (decide (i = k)) as [<-|Hne]; [reflexivity|].
    specialize (I1 k tk Hk Hin). congruence.
  - intros k [= <-]. exists (at_pc t (InSetup CheckInstalled)). split.
    + rewrite (lookup_set_thread _ _ _ _ _ Ht). now rewrite decide_True.
    + exact I.
  - intros k Hin. destruct (I3 k Hin) as (tk & Hk & Hst). exists tk. split; [|exact Hst].
    rewrite (lookup_set_thread _ _ _ _ _ Ht). destruct (decide (i = k)) as [<-|Hne]; [|exact Hk].
    assert (tk = t) by congruence. subst tk. tauto.
  - exact I4.
  - intros k tk Hk Hbad. rewrite (lookup_set_thread _ _ _ _ _ Ht) in Hk.
    destruct (decide (i = k)) as [<-|Hne]; [|now apply I5 with k].
    injection Hk as <-. simpl in Hbad.
    destruct (I5 i t Ht Hbad); congruence.
Qed.

(** Running a stage: the thread stays inside and keeps the lock, or it
    returns and gives the lock back. *)
Lemma inv_stage (s : system) (i : nat) (t : thread) (st : setup_stage)
  (w' : world) (p : pc) (lock' : option nat) :
  setup_inv s -> threads s !! i = Some t -> th_pc t = InSetup st ->
  ((exists next, p = InSetup next) /\ lock' = setup_lock s
   \/ (exists r, p = Returned r) /\ lock' = None) ->
  setup_inv (System w' lock' (<[i := at_pc t p]> (threads s)) (executed s ++ [(i, st)])).
Proof.
  intros (I1 & I2 & I3 & I4 & I5) Ht Hpc Hp.
  assert (Hin : in_setup t) by (unfold in_setup; now rewrite Hpc).
  assert (Hlock : setup_lock s = Some i) by (now apply I1 with t).
  assert (Hothers : forall k tk, threads s !! k = Some tk -> in_setup tk -> k = i).
  { intros k tk Hk Hk'. specialize (I1 k tk Hk Hk'). congruence. }
  unfold setup_inv, log_tids in *. cbn [threads setup_lock executed].
  rewrite map_app. cbn [map fst]. repeat split.
  - intros k tk Hk Hk'. rewrite (lookup_set_thread _ _ _ _ _ Ht) in Hk.
    destruct (decide (i = k)) as [<-|Hne].
    + injection Hk as <-. apply in_setup_at_pc in Hk' as [n ->].
      destruct Hp as [[_ ->]|[[r Hr] _]]; [exact Hlock | discriminate].
    + exfalso. apply Hne. symmetry. now apply Hothers with tk.
  - intros k Hk. destruct Hp as [[[n ->] ->]|[_ ->]]; [|discriminate].
    assert (k = i) by congruence. subst k.
    exists (at_pc t (InSetup n)). split; [|exact I].
    rewrite (lookup_set_thread _ _ _ _ _ Ht). now rewrite decide_True.
  - intros k Hk. rewrite (lookup_set_thread _ _ _ _ _ Ht).
    destruct (decide (i = k)) as [<-|Hne].
    + exists (at_pc t p). split; [reflexivity|].
      destruct Hp as [[[n ->] _]|[[r ->] _]].
      * right. split; [exact I | apply last_snoc].
      * now left.
    + apply in_app_or in Hk as [Hk|[Hk|[]]]; [|congruence].
      destruct (I3 k Hk) as (tk & Hk1 & [Hret|[Hk2 _]]).
      * exists tk. split; [exact Hk1 | now left].
      * exfalso. apply Hne. symmetry. now apply Hothers with tk.
  - apply contiguous_snoc; [exact I4|].
    intros Hk. destruct (I3 i Hk) as (tk & Hk1 & [Hret|[_ Hlast]]); [|exact Hlast].
    assert (tk = t) by congruence. subst tk.
    unfold is_returned in Hret. now rewrite Hpc in Hret.
  - intros k tk Hk Hbad. rewrite (lookup_set_thread _ _ _ _ _ Ht) in Hk.
    destruct (decide (i = k)) as [<-|Hne]; [|now apply I5 with k].
    injection Hk as <-. simpl in Hbad.
    destruct (I5 i t Ht Hbad); congruence.
Qed.

Lemma thread_step_inv (i : nat) (s s' : system) :
  setup_inv s -> thread_step i s = Some s' -> setup_inv s'.
Proof.
  intros Hinv. unfold thread_step.
  destruct (threads s !! i) as [t|] eqn:Ht; [|discriminate].
  destruct (th_pc t) as [| |st|r] eqn:Hpc.
  - destruct (validate_model_name (th_model t)) eqn:Hv; cbn [negb]; intros [= <-].
    + apply inv_validate; auto.
    + apply inv_validate; auto.
  - destruct (setup_lock s) eqn:Hlock; [discriminate|]. intros [= <-].
    now apply inv_acquire.
  - destruct (run_stage (th_env t) (th_model t) st (sys_world s)) as [[[r|next]|e] w'];
      intros [= <-]; apply inv_stage; eauto.
  - discriminate.
Qed.

Lemma run_schedule_inv (schedule : list nat) (s : system) :
  setup_inv s -> setup_inv (run_schedule schedule s).
Proof.
  revert s. induction schedule as [|i rest IH]; intros s Hinv; [exact Hinv|].
  simpl. apply IH. destruct (thread_step i s) as [s'|] eqn:E; [|exact Hinv].
  now apply thread_step_inv with i s.
Qed.

(** C4: whatever requests arrive and however the scheduler interleaves
    their threads, at most one thread is inside the locked block of
    [auto_setup] and that thread holds [setup_lock]; a thread that waits at
    the lock while another is inside cannot move (it is queued); a thread
    with an invalid model name is rejected: it never reaches the lock; and
    in the log of the stages run, the stages of each thread are next to one
    another: two sequences never interleave. *)
Theorem auto_setup_mutual_exclusion
  (w : world) (calls : list (setup_env * pyval)) (schedule : list nat) :
  let s := run_schedule schedule (spawn w calls) in
  (forall i j ti tj,
     threads s !! i = Some ti -> threads s !! j = Some tj ->
     in_setup ti -> in_setup tj -> i = j) /\
  (forall i ti, threads s !! i = Some ti -> in_setup ti -> setup_lock s = Some i) /\
  (forall i j ti tj,
     threads s !! i = Some ti -> threads s !! j = Some tj ->
     in_setup ti -> th_pc tj = AtLock -> thread_step j s = None) /\
  (forall j tj,
     threads s !! j = Some tj -> validate_model_name (th_model tj) = false ->
     th_pc tj = AtEntry \/ th_pc tj = Returned false) /\
  contiguous (map fst (executed s)).
Proof.
  intros s.
  destruct (run_schedule_inv schedule _ (spawn_inv w calls)) as (I1 & I2 & I3 & I4 & I5).
  fold s in I1, I2, I3, I4, I5. repeat split.
  - intros i j ti tj Hi Hj Hti Htj.
    pose proof (I1 i ti Hi Hti). pose proof (I1 j tj Hj Htj). congruence.
  - exact I1.
  - intros i j ti tj Hi Hj Hti Hpc. unfold thread_step. rewrite Hj, Hpc.
    now rewrite (I1 i ti Hi Hti).
  - exact I5.
  - exact I4.
Qed.

Lemma auto_setup_locked_stages (env : setup_env) (m : pyval) (w : world) :
  auto_setup_locked env m w = run_stages env m w.
Proof.
  unfold auto_setup_locked, run_stages, run_stage, update_progress, set_error, config_set.
  mstep.
  repeat
    (match goal with
     | |- context [check_ollama_installed ?e ?x] =>
         destruct (check_ollama_installed e x) as [[[]|?] ?]
     | |- context [start_ollama_service ?e ?x] =>
         destruct (start_ollama_service e x) as [[[]|?] ?]
     | |- context [check_model_downloaded ?e ?n ?x] =>
         destruct (check_model_downloaded e n x) as [[[]|?] ?]
     | |- context [download_model ?e ?n ?x] =>
         destruct (download_model e n x) as [[[]|?] ?]
     | |- context [save_config ?x] =>
         destruct (save_config x) as [[[]|?] ?]
     end; mstep; cbn [negb]; mstep; try reflexivity).
Qed.

(** A stage returns a value, or hands over to the stage after it; no
    exception leaves it. *)
Lemma run_stage_shape (env : setup_env) (m : pyval) (st : setup_stage) (w : world) :
  exists w',
    (exists b, run_stage env m st w = (Ok (inl b), w')) \/
    (st <> MarkComplete /\ run_stage env m st w = (Ok (inr (next_stage st)), w')).
Proof.
  unfold run_stage, update_progress, set_error, config_set. destruct st; mstep;
  repeat
    (match goal with
     | |- context [check_ollama_installed ?e ?x] =>
         destruct (check_ollama_installed e x) as [[[]|?] ?]
     | |- context [start_ollama_service ?e ?x] =>
         destruct (start_ollama_service e x) as [[[]|?] ?]
     | |- context [check_model_downloaded ?e ?n ?x] =>
         destruct (check_model_downloaded e n x) as [[[]|?] ?]
     | |- context [download_model ?e ?n ?x] =>
         destruct (download_model e n x) as [[[]|?] ?]
     | |- context [save_config ?x] =>
         destruct (save_config x) as [[[]|?] ?]
     end; mstep; cbn [negb]; mstep);
  eexists; first [ left; eexists; reflexivity | right; split; [discriminate | reflexivity] ].
Qed.

Lemma step_solo_stage env m st w log :
  thread_step 0 (System w (Some 0%nat) [Thread env m (InSetup st)] log) =
  Some (match run_stage env m st w with
        | (Ok (inr next), w') =>
            System w' (Some 0%nat) [Thread env m (InSetup next)] (log ++ [(0%nat, st)])
        | (Ok (inl r), w') =>
            System w' None [Thread env m (Returned r)] (log ++ [(0%nat, st)])
        | (Raise _, w') =>
            System w' None [Thread env m (Returned false)] (log ++ [(0%nat, st)])
        end).
Proof.
  unfold thread_step. cbn [threads lookup list_lookup th_pc th_env th_model sys_world].
  now destruct (run_stage env m st w) as [[[r|next]|e] w'].
Qed.

Lemma step_solo_entry env m w l log :
  thread_step 0 (System w l [Thread env m AtEntry] log) =
  Some (if negb (validate_model_name m)
        then System (snd (set_error "Invalid model name" w)) l
                    [Thread env m (Returned false)] log
        else System w l [Thread env m AtLock] log).
Proof.
  unfold thread_step. cbn [threads lookup list_lookup th_pc th_env th_model sys_world].
  now destruct (negb (validate_model_name m)).
Qed.

Lemma step_solo_lock env m w log :
  thread_step 0 (System w None [Thread env m AtLock] log) =
  Some (System w (Some 0%nat) [Thread env m (InSetup CheckInstalled)] log).
Proof. reflexivity. Qed.

Lemma run_schedule_cons i rest s :
  run_schedule (i :: rest) s = run_schedule rest (default s (thread_step i s)).
Proof. reflexivity. Qed.

Lemma run_solo_returned n env m r w l log :
  run_schedule (repeat 0%nat n) (System w l [Thread env m (Returned r)] log)
  = System w l [Thread env m (Returned r)] log.
Proof. induction n as [|n IH]; [reflexivity|]. simpl. exact IH. Qed.

(** One thread alone runs [auto_setup]: six turns take it from the entry to
    its return, with the result and the state that [auto_setup] gives, and
    the lock free again. *)
Lemma solo_thread_runs_auto_setup (env : setup_env) (m : pyval) (w : world) :
  exists b w' log,
    auto_setup env m w = (Ok b, w') /\
    run_schedule (repeat 0%nat 6) (spawn w [(env, m)])
    = System w' None [Thread env m (Returned b)] log.
Proof.
  unfold auto_setup, spawn. cbn [map fst snd].
  change (repeat 0%nat 6) with (0%nat :: repeat 0%nat 5).
  rewrite run_schedule_cons, step_solo_entry.
  destruct (validate_model_name m) eqn:Hv; cbn [negb default from_option id].
  - rewrite auto_setup_locked_stages. unfold run_stages.
    change (repeat 0%nat 5) with (0%nat :: repeat 0%nat 4).
    rewrite run_schedule_cons, step_solo_lock. cbn [default from_option id].
    change (repeat 0%nat 4) with (0%nat :: repeat 0%nat 3).
    rewrite run_schedule_cons, step_solo_stage.
    destruct (run_stage_shape env m CheckInstalled w) as [w1 [[b Hst]|[_ Hst]]];
      rewrite Hst; cbn [next_stage default from_option id].
    { rewrite run_solo_returned. now eexists _, _, _. }
    change (repeat 0%nat 3) with (0%nat :: repeat 0%nat 2).
    rewrite run_schedule_cons, step_solo_stage.
    destruct (run_stage_shape env m StartService w1) as [w2 [[b Hst2]|[_ Hst2]]];
      rewrite Hst2; cbn [next_stage default from_option id].
    { rewrite run_solo_returned. now eexists _, _, _. }
    change (repeat 0%nat 2) with (0%nat :: repeat 0%nat 1).
    rewrite run_schedule_cons, step_solo_stage.
    destruct (run_stage_shape env m AcquireModel w2) as [w3 [[b Hst3]|[_ Hst3]]];
      rewrite Hst3; cbn [next_stage default from_option id].
    { rewrite run_solo_returned. now eexists _, _, _. }
    change (repeat 0%nat 1) with (0%nat :: repeat 0%nat 0).
    rewrite run_schedule_cons, step_solo_stage.
    destruct (run_stage_shape env m MarkComplete w3) as [w4 [[b Hst4]|[Hne _]]];
      [|now destruct Hne].
    rewrite Hst4. cbn [default from_option id].
    rewrite run_solo_returned. now eexists _, _, _.
  - unfold set_error. mstep. cbn [snd].
    rewrite (run_solo_returned 5). now eexists _, _, _.
Qed.

(** ** The theorems at sample inputs *)

Lemma process_pdf_removes_upload_witness :
  exists r w',
    process_pdf "/srv/app" drop_non_ascii sample_pdf_env (Some sample_upload) sample_world
    = (Ok r, w')
    /\ fs w' !! "/srv/app/uploads/0000000000003039_Annual_report.pdf" = None.
Proof.
  apply (process_pdf_removes_upload "/srv/app" drop_non_ascii sample_pdf_env
           (Some sample_upload) sample_world
           "/srv/app/uploads/0000000000003039_Annual_report.pdf"
           (snd (write_file "/srv/app/uploads/0000000000003039_Annual_report.pdf"
                            (up_content sample_upload) sample_world)));
    vm_compute; reflexivity.
Defined.

Lemma drop_non_ascii_plain (s : string) :
  Py.sall is_ascii s = true -> drop_non_ascii s = s.
Proof. apply sfilter_all. Qed.

Lemma retrieve_leaves_artifact_witness :
  exists text,
    let sent := Response 200 (Attachment text)
                  [os_path_join (OUTPUT_FOLDER "/srv/app")
                     "000000000000004d_Annual_report_output.txt"] in
    let w' := snd (process_pdf "/srv/app" drop_non_ascii sample_pdf_env
                     (Some sample_upload) sample_world) in
    retrieve "/srv/app" "/" drop_non_ascii "000000000000004d_Annual_report_output.txt" w'
    = (Ok sent, w')
    /\ retrieve "/srv/app" "/" drop_non_ascii "000000000000004d_Annual_report_output.txt"
         (snd (retrieve "/srv/app" "/" drop_non_ascii
                 "000000000000004d_Annual_report_output.txt" w'))
       = (Ok sent, w').
Proof.
  destruct (retrieve_leaves_artifact "/srv/app" "/" drop_non_ascii drop_non_ascii_plain
              eq_refl sample_pdf_env (Some sample_upload) sample_world
              "000000000000004d_Annual_report_output.txt" "Annual_report_output.txt"
              (snd (process_pdf "/srv/app" drop_non_ascii sample_pdf_env
                      (Some sample_upload) sample_world)))
    as (p & w1 & text & _ & _ & _ & _ & H1 & H2 & _).
  - vm_compute. reflexivity.
  - exists text. split; assumption.
Defined.

Lemma rate_limit_window_witness :
  exists w',
    call_sequence "203.0.113.7" ([0; 1; 2; 3; 4; 5; 6; 7; 8; 9] ++ [10])%Q%list sample_world
    = (Ok (repeat 200%Z 10 ++ [429%Z])%list, w').
Proof.
  apply (proj1 (rate_limit_window "203.0.113.7") 0%Q [0; 1; 2; 3; 4; 5; 6; 7; 8; 9]%Q 10%Q
           sample_world).
  - reflexivity.
  - repeat (apply Forall_cons; split; [split; [unfold Qle | unfold Qlt]; simpl; lia|]).
    apply Forall_nil. exact I.
  - intros x Hx. destruct Hx.
Defined.

Lemma model_name_stays_valid_witness :
  validate_model_name (PStr "Mistral:7B") = true /\
  exists s, PStr "Mistral:7B" = PStr s /\ allow_listed (Py.strip (Py.lower s)).
Proof.
  apply (model_name_stays_valid
           (World ∅ CfgGarbage ∅ ∅ idle_progress None)
           [OpSetModel (Ok (PDict {[ "model_name" := PStr "Mistral:7B" ]}))]).
  reflexivity.
Defined.

Lemma validate_model_name_normalized_witness :
  validate_model_name (PStr "Mistral:7B-Instruct")
  = validate_model_name (PStr "mistral:7b-instruct").
Proof.
  apply (proj1 (proj2 (proj2 (proj2 validate_model_name_normalized)))).
  reflexivity.
Defined.

Lemma auto_setup_mutual_exclusion_witness :
  let s := run_schedule [0; 0; 1; 1]%nat
             (spawn sample_world [(sample_setup_env, PStr "mistral");
                                  (sample_setup_env, PStr "llama3")]) in
  setup_lock s = Some 0%nat /\ thread_step 1 s = None /\ contiguous (map fst (executed s)).
Proof.
  intros s.
  destruct (auto_setup_mutual_exclusion sample_world
              [(sample_setup_env, PStr "mistral"); (sample_setup_env, PStr "llama3")]
              [0; 0; 1; 1]%nat) as (_ & Hlock & Hqueue & _ & Hlog).
  fold s in Hlock, Hqueue, Hlog. split; [|split].
  - apply (Hlock 0%nat (Thread sample_setup_env (PStr "mistral") (InSetup CheckInstalled)));
      [reflexivity | exact I].
  - apply (Hqueue 0%nat 1%nat
             (Thread sample_setup_env (PStr "mistral") (InSetup CheckInstalled))
             (Thread sample_setup_env (PStr "llama3") AtLock));
      [reflexivity | reflexivity | exact I | reflexivity].
  - exact Hlog.
Defined.

(** * Further properties of the code *)

(** ** The sanitizer *)

Lemma has_char_app (c : ascii) (a b : string) :
  Py.has_char c (a ++ b) = Py.has_char c a || Py.has_char c b.
Proof. induction a as [|x a IH]; simpl; [reflexivity|]. now rewrite IH, orb_assoc. Qed.

Lemma has_char_replace_gone (c : ascii) (by_ s : string) :
  Py.has_char c by_ = false -> Py.has_char c (Py.replace c by_ s) = false.
Proof.
  intros Hby. induction s as [|x s IH]; simpl; [reflexivity|].
  destruct (Ascii.eqb x c) eqn:E.
  - now rewrite has_char_app, Hby, IH.
  - simpl. rewrite IH, orb_false_r. rewrite Ascii.eqb_sym. exact E.
Qed.

Lemma has_char_replace_other (d c : ascii) (by_ s : string) :
  Py.has_char d by_ = false -> Py.has_char d s = false ->
  Py.has_char d (Py.replace c by_ s) = false.
Proof.
  intros Hby. induction s as [|x s IH]; simpl; [reflexivity|].
  intros H. apply orb_false_iff in H as [Hx Hs].
  destruct (Ascii.eqb x c).
  - now rewrite has_char_app, Hby, IH.
  - simpl. now rewrite Hx, IH.
Qed.

Lemma sanitize_input_markup_free_all (text : pyval) (max_length : Z) :
  markup_free (sanitize_input text max_length).
Proof.
  destruct text; try (repeat split; reflexivity).
  unfold sanitize_input, markup_free.
  set (t := Py.slice_to max_length s).
  assert (H0 : Py.has_char Ascii.zero (Py.replace Ascii.zero "" t) = false)
    by now apply has_char_replace_gone.
  assert (H1 : Py.has_char "<" (Py.replace "<" "&lt;" (Py.replace Ascii.zero "" t)) = false)
    by now apply has_char_replace_gone.
  repeat split.
  - now apply has_char_replace_other.
  - now apply has_char_replace_gone.
  - apply has_char_replace_other; [reflexivity|]. now apply has_char_replace_other.
Qed.

Lemma len_take (n : Z) (s : string) : (0 <= n)%Z -> (Py.len (Py.take n s) <= n)%Z.
Proof.
  unfold Py.len. revert n. induction s as [|x s IH]; intros n Hn; simpl; [lia|].
  destruct (n <=? 0)%Z eqn:E; simpl; [lia|].
  apply Z.leb_gt in E. specialize (IH (n - 1)%Z). lia.
Qed.

Lemma take_all (n : Z) (s : string) : (Py.len s <= n)%Z -> Py.take n s = s.
Proof.
  unfold Py.len. revert n. induction s as [|x s IH]; intros n Hn; simpl; [reflexivity|].
  simpl in Hn. destruct (n <=? 0)%Z eqn:E; [apply Z.leb_le in E; lia|].
  rewrite IH; [reflexivity | lia].
Qed.

Lemma length_replace_drop (c : ascii) (s : string) :
  (String.length (Py.replace c "" s) <= String.length s)%nat.
Proof.
  induction s as [|x s IH]; simpl; [lia|]. destruct (Ascii.eqb x c); simpl; lia.
Qed.

Lemma replace_app (c : ascii) (by_ a b : string) :
  Py.replace c by_ (a ++ b) = Py.replace c by_ a ++ Py.replace c by_ b.
Proof.
  induction a as [|x a IH]; simpl; [reflexivity|].
  destruct (Ascii.eqb x c); simpl; rewrite IH; [now rewrite sapp_assoc | reflexivity].
Qed.

Lemma length_escape (s : string) :
  (String.length (Py.replace ">" "&gt;" (Py.replace "<" "&lt;" s)) <= 4 * String.length s)%nat.
Proof.
  induction s as [|x s IH]; simpl; [lia|].
  destruct (Ascii.eqb x "<").
  - simpl. lia.
  - simpl. destruct (Ascii.eqb x ">"); simpl; lia.
Qed.

Lemma sanitize_input_length_le (text : pyval) (max_length : Z) :
  (0 <= max_length)%Z ->
  (Py.len (sanitize_input text max_length) <= 4 * max_length)%Z.
Proof.
  intros Hn. destruct text; try (unfold Py.len; simpl; lia).
  unfold sanitize_input, Py.slice_to.
  replace (0 <=? max_length)%Z with true by (symmetry; now apply Z.leb_le).
  pose proof (len_take max_length s Hn) as H1.
  pose proof (length_replace_drop Ascii.zero (Py.take max_length s)) as H2.
  pose proof (length_escape (Py.replace Ascii.zero "" (Py.take max_length s))) as H3.
  unfold Py.len in *. lia.
Qed.

Lemma sanitize_input_clean (s : string) (n : Z) :
  markup_free s -> (Py.len s <= n)%Z -> sanitize_input (PStr s) n = s.
Proof.
  intros (H1 & H2 & H0) Hlen. unfold sanitize_input, Py.slice_to.
  assert (Hn : (0 <= n)%Z) by (unfold Py.len in Hlen; lia).
  replace (0 <=? n)%Z with true by (symmetry; now apply Z.leb_le).
  rewrite take_all by exact Hlen.
  rewrite (replace_absent _ _ _ H0), (replace_absent _ _ _ H1).
  now apply replace_absent.
Qed.

Lemma length_escaped (s : string) :
  Py.len (Py.replace ">" "&gt;" (Py.replace "<" "&lt;" s))
  = (Py.len s + 3 * angle_brackets s)%Z.
Proof.
  unfold Py.len. induction s as [|x s IH]; [reflexivity|].
  cbn [Py.replace angle_brackets String.length].
  destruct (Ascii.eqb x "<") eqn:E1.
  - cbn [orb]. simpl. lia.
  - cbn [orb Py.replace]. destruct (Ascii.eqb x ">") eqn:E2; simpl; lia.
Qed.

(** C10: [sanitize_input] cuts the text first and escapes afterwards, so
    its result is not bounded by [max_length].  With [max_length] 2 the
    text ["<b>"] gives ["&lt;b"]: the cut keeps ["<b"], the escaping makes
    five characters of it.  In general, for a bound that is not negative,
    the result has the length of the text kept (the first [max_length]
    characters, without the NUL characters) plus three for each angle
    bracket kept; so a text that fits the bound already and holds an angle
    bracket comes out longer than the bound. *)
Theorem sanitize_input_exceeds_max_length :
  sanitize_input (PStr "<b>") 2 = "&lt;b" /\
  (forall text max_length,
     (0 <= max_length)%Z ->
     let kept := Py.replace Ascii.zero "" (Py.take max_length text) in
     Py.len (sanitize_input (PStr text) max_length)
     = (Py.len kept + 3 * angle_brackets kept)%Z) /\
  (exists text max_length,
     (0 <= max_length)%Z /\ (Py.len text <= max_length)%Z /\
     (max_length < Py.len (sanitize_input (PStr text) max_length))%Z).
Proof.
  split; [reflexivity|]. split.
  - intros text n Hn kept. unfold sanitize_input, Py.slice_to.
    replace (0 <=? n)%Z with true by (symmetry; now apply Z.leb_le).
    apply length_escaped.
  - exists "<b", 2%Z. repeat split; vm_compute; congruence.
Qed.

(** X1: whatever the value and the bound, the text [sanitize_input]
    returns holds no [<], no [>] and no NUL character. *)
Theorem sanitize_input_no_markup (text : pyval) (max_length : Z) :
  markup_free (sanitize_input text max_length).
Proof. apply sanitize_input_markup_free_all. Qed.

(** X2: for a bound that is not negative, the text [sanitize_input]
    returns has at most four times [max_length] characters (each of the
    [max_length] characters kept becomes at most one four-character
    entity), and a value that is not a string gives the empty text. *)
Theorem sanitize_input_length (text : pyval) (max_length : Z) :
  (0 <= max_length)%Z ->
  (Py.len (sanitize_input text max_length) <= 4 * max_length)%Z /\
  (is_str text = false -> sanitize_input text max_length = "").
Proof.
  intros Hn. split; [now apply sanitize_input_length_le|].
  now destruct text.
Qed.

(** X3: sanitizing a sanitized text again changes nothing as long as it
    fits the second bound: the entities written by the first pass are not
    escaped a second time. *)
Theorem sanitize_input_twice (text : pyval) (n m : Z) :
  (Py.len (sanitize_input text n) <= m)%Z ->
  sanitize_input (PStr (sanitize_input text n)) m = sanitize_input text n.
Proof.
  intros H. apply sanitize_input_clean; [apply sanitize_input_markup_free_all | exact H].
Qed.

(** ** Removing files, progress and the configuration file *)

(** What [safe_remove_file] does, case by case. *)
Lemma safe_remove_file_run (p : string) (w : world) :
  safe_remove_file p w =
  match fs w !! p with
  | Some (File _) => (Ok true, set_fs (delete p (fs w)) w)
  | _ => (Ok false, w)
  end.
Proof.
  unfold safe_remove_file, try_except, bind, os_path_exists, gets, os_remove, on, ret.
  destruct (fs w !! p) as [[c|]|] eqn:E; simpl.
  - rewrite E. reflexivity.
  - rewrite E. reflexivity.
  - reflexivity.
Qed.

(** X4: [safe_remove_file] never raises.  It removes a regular file and
    returns [True]; for a path that is missing or is a directory it returns
    [False] and leaves the file system as it is. *)
Theorem safe_remove_file_spec (p : string) (w : world) :
  safe_remove_file p w =
  match fs w !! p with
  | Some (File _) => (Ok true, set_fs (delete p (fs w)) w)
  | _ => (Ok false, w)
  end.
Proof. apply safe_remove_file_run. Qed.

(** X5: [update_progress] never raises; afterwards the percentage lies
    between 0 and 100, the error is cleared, the stage and the message hold
    no markup character and at most 200 and 800 characters, and nothing
    else of the state has changed. *)
Theorem update_progress_bounds (st msg : string) (n : Z) (w : world) :
  exists p, update_progress st msg n w = (Ok tt, set_setup_progress p w) /\
    (0 <= percent p <= 100)%Z /\ error p = None /\
    markup_free (stage p) /\ markup_free (message p) /\
    (Py.len (stage p) <= 200)%Z /\ (Py.len (message p) <= 800)%Z.
Proof.
  eexists. split; [reflexivity|].
  cbn [percent error stage message].
  repeat split; try apply sanitize_input_markup_free_all; try lia.
  - apply (sanitize_input_length_le (PStr st) 50). lia.
  - apply (sanitize_input_length_le (PStr msg) 200). lia.
Qed.

(** X6: when the configuration file can be opened for writing and the
    stored model name is valid, [load_config] after [save_config] returns
    the configuration that was saved; when the file cannot be opened,
    [save_config] swallows the error and changes nothing. *)
Theorem save_config_load_config (w : world) :
  (cfg_file w <> CfgUnopenable -> valid_config w ->
   fst (load_config (snd (save_config w))) = Ok (config w)) /\
  (cfg_file w = CfgUnopenable -> save_config w = (Ok tt, w)).
Proof.
  split.
  - intros Hopen Hvalid. rewrite load_config_run.
    assert (Hsaved : cfg_file (snd (save_config w)) = CfgJson (PDict (config w))).
    { unfold save_config, try_except, bind, gets, modify. simpl.
      destruct (cfg_file w) eqn:E; try reflexivity. congruence. }
    rewrite Hsaved. simpl. unfold repaired.
    destruct (config w !! "model_name") as [v|] eqn:E; [|reflexivity].
    now rewrite (Hvalid v E).
  - intros H. unfold save_config, try_except, bind, gets. simpl. rewrite H. reflexivity.
Qed.

(** X7: a file name that [validate_filename] accepts ends in a dot and an
    extension of the allowed set (in any case), and its last path component
    holds no parent-directory sequence, no backslash and at most 255
    characters; a value that is not a string, and the empty string, are
    turned down. *)
Theorem validate_filename_accepted (v : pyval) :
  validate_filename v = true ->
  exists s, v = PStr s /\ s <> "" /\
    has_allowed_extension s /\
    Py.contains ".." (os_path_basename s) = false /\
    Py.contains "\" (os_path_basename s) = false /\
    (String.length (os_path_basename s) <= 255)%nat.
Proof.
  intros H.
  destruct v as [|b|z|q|s|l|d];
    try (unfold validate_filename in H; cbn in H; rewrite ?orb_true_r in H; discriminate H).
  exists s. split; [reflexivity|].
  split; [intros ->; vm_compute in H; discriminate H|].
  apply validate_filename_accepts in H as (H1 & H2 & H3 & H4). auto.
Qed.

(** ** More on the rate limiter *)

(** What one decorated call does, the gate first and then the handler. *)
Lemma rate_limit_run (f : M response) (ip : string) (t : Q) (w : world) :
  rate_limit f ip t w =
  if (RATE_LIMIT <=? length (live ip t w))%nat
  then (Ok too_many, set_request_times (<[ip := live ip t w]> (request_times w)) w)
  else f (set_request_times (<[ip := (live ip t w ++ [t])%list]> (request_times w)) w).
Proof.
  unfold rate_limit, live, entries, bind, modify, gets, ret. simpl.
  destruct (request_times w !! ip) as [l|] eqn:E; simpl.
  - rewrite lookup_insert_eq. simpl.
    destruct (RATE_LIMIT <=? length (List.filter _ l))%nat eqn:L; [reflexivity|].
    unfold set_request_times.
    repeat first [ rewrite lookup_insert_eq | rewrite lookup_total_insert_eq
                 | rewrite insert_insert_eq
                 | progress cbn [request_times fs cfg_file config setup_progress
                                 ollama_process] ].
    reflexivity.
  - rewrite E. simpl. change (RATE_LIMIT <=? 0)%nat with false. cbv iota.
    unfold set_request_times.
    repeat first [ rewrite lookup_insert_eq | rewrite lookup_total_insert_eq
                 | rewrite insert_insert_eq | rewrite E
                 | progress cbn [request_times fs cfg_file config setup_progress
                                 ollama_process app] ].
    reflexivity.
Qed.

(** X8: a call that finds ten or more live timestamps for its client is
    answered with status 429 and the handler of the route is not run: the
    state afterwards is the one before, with the record of the client
    pruned.  Any other call runs the handler in the state where the record
    of the client is the pruned one followed by the time of the call. *)
Theorem rate_limit_before_handler (f : M response) (ip : string) (t : Q) (w : world) :
  rate_limit f ip t w =
  if (RATE_LIMIT <=? length (live ip t w))%nat
  then (Ok too_many, set_request_times (<[ip := live ip t w]> (request_times w)) w)
  else f (set_request_times (<[ip := (live ip t w ++ [t])%list]> (request_times w)) w).
Proof. apply rate_limit_run. Qed.

(** X9: the gate touches the record of the calling client only: the
    timestamps on record for every other client, the files, the
    configuration and the progress are as before. *)
Theorem rate_gate_other_clients (ip other : string) (t : Q) (w : world) :
  ip <> other ->
  let w' := snd (rate_gate ip t w) in
  request_times w' !! other = request_times w !! other /\
  fs w' = fs w /\ cfg_file w' = cfg_file w /\ config w' = config w /\
  setup_progress w' = setup_progress w /\ ollama_process w' = ollama_process w.
Proof.
  intros Hne. unfold rate_gate. rewrite rate_limit_run.
  destruct (RATE_LIMIT <=? length (live ip t w))%nat; simpl;
    rewrite lookup_insert_ne by exact Hne; repeat split; reflexivity.
Qed.

Lemma filter_window_later (t t' : Q) (l : list Q) :
  (t <= t')%Q -> List.filter (in_window t') (List.filter (in_window t) l) = List.filter (in_window t') l.
Proof.
  intros Ht. induction l as [|x l IH]; simpl; [reflexivity|].
  destruct (in_window t x) eqn:E1; simpl.
  - destruct (in_window t' x); [now rewrite IH | exact IH].
  - destruct (in_window t' x) eqn:E2; [|exact IH].
    exfalso. unfold in_window in *. apply Qltb_lt in E2.
    assert (H : Qltb (t - x) RATE_WINDOW = true) by (apply Qltb_lt; lra).
    congruence.
Qed.

Lemma in_window_self (t : Q) : in_window t t = true.
Proof. unfold in_window. apply Qltb_lt. unfold RATE_WINDOW. lra. Qed.

Lemma accepted_cons (t : Q) (ts : list Q) (c : Z) (cs : list Z) :
  accepted (t :: ts) (c :: cs)
  = if (c =? 200)%Z then t :: accepted ts cs else accepted ts cs.
Proof. reflexivity. Qed.

(** After a run of calls at times that do not go back, the record of the
    client holds the earlier entries and the accepted calls that lie within
    the window of the last call. *)
Lemma call_sequence_entries (ip : string) (ts : list Q) :
  forall w codes w' tl,
    non_decreasing ts -> last ts = Some tl ->
    call_sequence ip ts w = (Ok codes, w') ->
    entries ip w' = List.filter (in_window tl) (entries ip w ++ accepted ts codes).
Proof.
  induction ts as [|t ts IH]; intros w codes w' tl Hmono Hlast Hrun; [discriminate|].
  rewrite call_sequence_cons in Hrun.
  destruct (call_sequence ip ts _) as [[cs|e] w1] eqn:E; [|discriminate].
  injection Hrun as <- <-.
  destruct (rate_gate_spec ip t w) as [_ Hent]. fold (in_window t) in *.
  destruct Hmono as [Hle Hmono].
  destruct ts as [|t2 rest].
  - injection E as <- <-. injection Hlast as <-. rewrite Hent.
    unfold live. fold (in_window t). rewrite List.filter_app.
    destruct (RATE_LIMIT <=? _)%nat; simpl; [now rewrite app_nil_r|].
    now rewrite in_window_self.
  - assert (Hlast' : last (t2 :: rest) = Some tl) by exact Hlast.
    rewrite (IH _ _ _ _ Hmono Hlast' E), Hent.
    assert (Htl : (t <= tl)%Q).
    { rewrite Forall_forall in Hle. apply Hle.
      apply last_Some in Hlast' as [l' ->].
      apply elem_of_app. right. left. }
    rewrite !List.filter_app. unfold live. fold (in_window t).
    rewrite accepted_cons. generalize (accepted (t2 :: rest) cs). intros acc.
    destruct (RATE_LIMIT <=? _)%nat.
    + change (429 =? 200)%Z with false. cbv iota.
      now rewrite (filter_window_later _ _ _ Htl).
    + change (200 =? 200)%Z with true. cbv iota.
      rewrite List.filter_app, (filter_window_later _ _ _ Htl).
      change (t :: acc) with ([t] ++ acc)%list.
      rewrite List.filter_app. now rewrite app_assoc.
Qed.

(** The record of a client never grows beyond the ceiling. *)
Lemma call_sequence_bounded (ip : string) (ts : list Q) :
  forall w codes w',
    (length (entries ip w) <= RATE_LIMIT)%nat ->
    call_sequence ip ts w = (Ok codes, w') ->
    (length (entries ip w') <= RATE_LIMIT)%nat.
Proof.
  induction ts as [|t ts IH]; intros w codes w' Hb Hrun.
  - injection Hrun as _ <-. exact Hb.
  - rewrite call_sequence_cons in Hrun.
    destruct (call_sequence ip ts _) as [[cs|e] w1] eqn:E; [|discriminate].
    injection Hrun as <- <-. refine (IH _ _ _ _ E).
    destruct (rate_gate_spec ip t w) as [_ Hent]. rewrite Hent.
    assert (Hlive : (length (live ip t w) <= length (entries ip w))%nat)
      by apply List.filter_length_le.
    destruct (RATE_LIMIT <=? length (live ip t w))%nat eqn:L; [lia|].
    apply Nat.leb_gt in L. rewrite length_app. simpl. lia.
Qed.

(** X10: the sliding window.  For a client with nothing on record and
    calls at times that do not go back, at the time of any call at most ten
    of the calls that went through so far, that call included, lie within
    the 60 seconds before it. *)
Theorem rate_limit_sliding_window (ip : string) (ts : list Q) (t : Q) (w : world)
    (codes : list Z) (w' : world) :
  entries ip w = [] ->
  non_decreasing (ts ++ [t]) ->
  call_sequence ip (ts ++ [t]) w = (Ok codes, w') ->
  (length (List.filter (fun x => Qltb (t - x) RATE_WINDOW) (accepted (ts ++ [t]) codes))
   <= RATE_LIMIT)%nat.
Proof.
  intros Hempty Hmono Hrun.
  assert (Hlast : last (ts ++ [t]) = Some t) by apply last_snoc.
  pose proof (call_sequence_entries ip _ _ _ _ _ Hmono Hlast Hrun) as Hent.
  rewrite Hempty in Hent. simpl in Hent. unfold in_window in Hent. rewrite <- Hent.
  apply (call_sequence_bounded ip (ts ++ [t])%list w codes w'); [|exact Hrun].
  rewrite Hempty. simpl. unfold RATE_LIMIT. lia.
Qed.

(** ** The manager *)

Lemma save_config_run (w : world) :
  save_config w =
  (Ok tt, match cfg_file w with
          | CfgUnopenable => w
          | _ => set_cfg_file (CfgJson (PDict (config w))) w
          end).
Proof.
  unfold save_config, try_except, bind, gets, modify. simpl.
  now destruct (cfg_file w).
Qed.

(** [get_ollama_path] never raises and changes nothing. *)
Lemma get_ollama_path_run (env : probe_env) (w : world) :
  exists v, get_ollama_path env w = (Ok v, w).
Proof.
  unfold get_ollama_path, try_except, bind, subprocess_run.
  destruct (which_run env) as [rc out err| | |]; simpl; eauto.
  unfold ret at 1. destruct (rc =? 0)%Z; simpl; [|eauto].
  unfold os_path_isfile, gets.
  destruct (fs w !! _) as [[c|]|]; simpl; eauto.
Qed.

(** What [check_ollama_installed] returns, and what it changes. *)
Lemma check_ollama_installed_run (env : probe_env) (w : world) :
  exists b w', check_ollama_installed env w = (Ok b, w') /\
    (b = true <-> exists out err, version_run env = Exited 0 out err) /\
    (b = true -> flag_set "ollama_installed" w' /\ fs w' = fs w) /\
    (b = false -> w' = w).
Proof.
  unfold check_ollama_installed, try_except, bind at 1, subprocess_run.
  destruct (version_run env) as [rc out err| | |] eqn:Ev; simpl;
    try (exists false, w; split; [reflexivity|];
         split; [split; [discriminate | intros (? & ? & ?); discriminate]|];
         split; [discriminate | reflexivity]).
  unfold ret at 1. destruct (rc =? 0)%Z eqn:Erc; simpl.
  - apply Z.eqb_eq in Erc. subst rc.
    unfold bind, config_set, modify.
    destruct (get_ollama_path_run env
                (set_config (<["ollama_installed" := PBool true]> (config w)) w))
      as [v Hv].
    rewrite Hv, save_config_run. cbn [ret].
    eexists true, _. split; [reflexivity|].
    split; [split; eauto|]. split; [|discriminate]. intros _.
    unfold flag_set.
    destruct (cfg_file _); cbn [config fs set_config set_cfg_file];
      (split; [|reflexivity]);
      rewrite lookup_insert_ne by discriminate; apply lookup_insert_eq.
  - exists false, w. split; [reflexivity|].
    split; [split; [discriminate|]|split; [discriminate|reflexivity]].
    intros (o & e & H). injection H as -> _ _. discriminate Erc.
Qed.

(** X11: [check_ollama_installed] never raises.  It returns [True]
    exactly when [ollama --version] runs and exits with status 0, and then
    [ollama_installed] is set; when it returns [False] (a non-zero status,
    a timeout, a missing executable or another OS error) the state is left
    as it was, so a flag set earlier is not reset. *)
Theorem check_ollama_installed_spec (env : probe_env) (w : world) :
  exists b w', check_ollama_installed env w = (Ok b, w') /\
    (b = true <-> exists out err, version_run env = Exited 0 out err) /\
    (b = true -> flag_set "ollama_installed" w' /\ fs w' = fs w) /\
    (b = false -> w' = w).
Proof. apply check_ollama_installed_run. Qed.

Lemma wait_for_service_iff (health : nat -> health_outcome) (rounds : list nat) :
  wait_for_service health rounds = true <->
  exists i, In i rounds /\ health i = HealthStatus 200.
Proof.
  induction rounds as [|i rest IH]; simpl.
  - split; [discriminate | intros (i & [] & _)].
  - destruct (health i) as [code|] eqn:E.
    + destruct (code =? 200)%Z eqn:Ec.
      * apply Z.eqb_eq in Ec. subst code. split; [|reflexivity]. intros _. eauto.
      * rewrite IH. split; intros (j & Hj & Hh); [eauto|].
        destruct Hj as [<-|Hj]; [|eauto].
        rewrite E in Hh. injection Hh as ->. discriminate Ec.
    + rewrite IH. split; intros (j & Hj & Hh); [eauto|].
      destruct Hj as [<-|Hj]; [congruence | eauto].
Qed.

(** What [start_ollama_service] returns, and what it leaves alone. *)
Lemma start_ollama_service_run (env : start_env) (w : world) :
  exists b w', start_ollama_service env w = (Ok b, w') /\
    config w' = config w /\ cfg_file w' = cfg_file w /\ fs w' = fs w /\
    (b = true <->
     (is_Some (ollama_process w) /\ handle_alive env = true) \/
     ((exists pid, popen_serve env = Ok pid) /\
      wait_for_service (health env) (seq 0 30) = true)) /\
    (is_Some (ollama_process w) -> handle_alive env = true -> w' = w).
Proof.
  unfold start_ollama_service, bind at 1, gets.
  destruct (bool_decide (is_Some (ollama_process w)) && handle_alive env) eqn:Ealive.
  { apply andb_true_iff in Ealive as [H1 H2]. apply bool_decide_eq_true in H1.
    exists true, w. repeat split; auto. }
  assert (Hnot : ~ (is_Some (ollama_process w) /\ handle_alive env = true)).
  { intros [H1 H2]. rewrite H2, bool_decide_true in Ealive by exact H1. discriminate. }
  unfold try_except at 1, bind at 1, update_progress, modify.
  set (w1 := set_setup_progress _ w).
  assert (Hkill : exists u,
    try_except (_ <- subprocess_run (pkill_run env) false;; ret tt)
      (fun e => if isinstance e TimeoutExpired || isinstance e OSError
                then ret tt else raise e) w1 = (Ok u, w1)).
  { unfold try_except, bind, subprocess_run.
    destruct (pkill_run env); simpl; eauto. }
  destruct Hkill as [u Hkill]. unfold bind at 1. rewrite Hkill.
  unfold bind at 1, lift_res.
  destruct (popen_serve env) as [pid|e] eqn:Epop.
  - unfold bind at 1, modify.
    destruct (wait_for_service (health env) (seq 0 30)) eqn:Ewait.
    + eexists true, _. split; [reflexivity|]. repeat split; eauto.
      intros H1 H2. exfalso. auto.
    + destruct (exited_stderr env) as [err|].
      * unfold raise, on. rewrite isinstance_Exception.
        eexists false, _. split; [reflexivity|]. repeat split; try discriminate.
        -- intros [H|[_ H]]; [now exfalso | discriminate].
        -- intros H1 H2. exfalso. auto.
      * eexists false, _. split; [reflexivity|]. repeat split; try discriminate.
        -- intros [H|[_ H]]; [now exfalso | discriminate].
        -- intros H1 H2. exfalso. auto.
  - unfold on. rewrite isinstance_Exception.
    eexists false, _. split; [reflexivity|]. repeat split; try discriminate.
    + intros [H|[[pid H] _]]; [now exfalso | discriminate].
    + intros H1 H2. exfalso. auto.
Qed.

(** X12: [start_ollama_service] never raises and never touches the
    configuration or the files.  With a live handle it returns [True] and
    changes nothing.  Otherwise it returns [True] exactly when [Popen]
    succeeds and one of the first 30 health polls answers 200; later polls
    are not made. *)
Theorem start_ollama_service_spec (env : start_env) (w : world) :
  exists b w', start_ollama_service env w = (Ok b, w') /\
    config w' = config w /\ cfg_file w' = cfg_file w /\ fs w' = fs w /\
    (b = true <->
     (is_Some (ollama_process w) /\ handle_alive env = true) \/
     ((exists pid, popen_serve env = Ok pid) /\
      exists i, (i < 30)%nat /\ health env i = HealthStatus 200)) /\
    (is_Some (ollama_process w) -> handle_alive env = true -> w' = w).
Proof.
  destruct (start_ollama_service_run env w) as (b & w' & H & Hc & Hf & Hfs & Hb & Hid).
  exists b, w'. repeat split; auto.
  - intros Ht. apply Hb in Ht as [Ht|[Hp Hw]]; [now left|right].
    split; [exact Hp|]. apply wait_for_service_iff in Hw as (i & Hi & Hh).
    exists i. split; [|exact Hh]. apply in_seq in Hi. lia.
  - intros Ht. apply Hb. destruct Ht as [Ht|[Hp (i & Hi & Hh)]]; [now left|right].
    split; [exact Hp|]. apply wait_for_service_iff. exists i. split; [|exact Hh].
    apply in_seq. lia.
Qed.

(** What [check_model_downloaded] does for a given name. *)
Lemma check_model_downloaded_run (env : tags_outcome) (m : pyval) (w : world) :
  check_model_downloaded env (Some m) w =
  if negb (validate_model_name m) then (Ok false, w) else
  match env with
  | TagsModels names =>
      if existsb (fun name => Py.contains (str_of m) name) names
      then (Ok true, snd (save_config
                            (set_config (<["model_downloaded" := PBool true]> (config w)) w)))
      else (Ok false, w)
  | TagsMalformed => (Raise (mk_exn AttributeError "object has no attribute 'get'"), w)
  | _ => (Ok false, w)
  end.
Proof.
  unfold check_model_downloaded, bind at 1, ret at 1.
  destruct (negb (validate_model_name m)); [reflexivity|].
  destruct env as [| | | |names]; try reflexivity.
  unfold try_except.
  destruct (existsb _ names); [|reflexivity].
  unfold bind, config_set, modify. rewrite save_config_run. reflexivity.
Qed.

(** A positive answer of [check_model_downloaded] sets the flag. *)
Lemma check_model_downloaded_sets (env : tags_outcome) (m : pyval) (w w' : world) :
  check_model_downloaded env (Some m) w = (Ok true, w') -> flag_set "model_downloaded" w'.
Proof.
  rewrite check_model_downloaded_run.
  destruct (negb (validate_model_name m)); [discriminate|].
  destruct env as [| | | |names]; try discriminate.
  destruct (existsb _ names); [|discriminate].
  intros [= <-]. rewrite save_config_run. unfold flag_set.
  destruct (cfg_file _); cbn [config set_config set_cfg_file snd]; apply lookup_insert_eq.
Qed.


(** The loop over the output of [ollama pull] stops with the time-out
    exception at the first line read more than 1800 seconds after the
    start, and changes nothing but the progress message. *)
Lemma pull_loop_run (t0 t1 : Q) (lines : list (Q * string)) (w : world) :
  exists msg,
    pull_loop t0 t1 lines w =
    (if timed_out t0 lines
     then Raise (mk_exn Exception "Download timeout (30 minutes exceeded)")
     else Ok tt,
     set_setup_progress
       (Progress (stage (setup_progress w)) msg (percent (setup_progress w))
                 (error (setup_progress w))) w).
Proof.
  revert t1 w. induction lines as [|[t line] rest IH]; intros t1 w.
  - exists (message (setup_progress w)). destruct w as [? ? ? ? [] ?]. reflexivity.
  - cbn [pull_loop timed_out existsb fst]. fold (timed_out t0 rest).
    destruct (Qltb 1800 (t - t0)).
    + exists (message (setup_progress w)). destruct w as [? ? ? ? [] ?]. reflexivity.
    + cbn [orb].
      destruct (Qltb 2 (t - t1)); [|apply IH].
      destruct (_ || _); [|apply IH].
      unfold bind, set_message, modify.
      destruct (IH t (set_setup_progress
                        (Progress (stage (setup_progress w))
                                  (sanitize_input (PStr (Py.take 200 (Py.strip line))) 200)
                                  (percent (setup_progress w)) (error (setup_progress w))) w))
        as [msg Hmsg].
      exists msg. cbv zeta. rewrite Hmsg. reflexivity.
Qed.

(** The first step of [download_model]: the name it works with. *)
Lemma download_model_name (model_name : option pyval) (w : world) :
  match model_name with
  | None | Some PNone => config_get "model_name"
  | Some v => ret v
  end w =
  match requested_model model_name w with
  | Some m => (Ok m, w)
  | None => (Raise (mk_exn KeyError "'model_name'"), w)
  end.
Proof.
  destruct model_name as [[]|]; cbn [requested_model]; try reflexivity;
    unfold config_get; now destruct (config w !! "model_name").
Qed.

(** Without an argument and without a stored name, [download_model] raises. *)
Lemma download_model_missing (env : pull_env) (model_name : option pyval) (w : world) :
  requested_model model_name w = None ->
  download_model env model_name w = (Raise (mk_exn KeyError "'model_name'"), w).
Proof.
  intros Hm. unfold download_model, bind at 1.
  rewrite download_model_name, Hm. reflexivity.
Qed.

(** What [download_model] does for the name it works with. *)
Lemma download_model_run (env : pull_env) (model_name : option pyval) (m : pyval)
    (w : world) :
  requested_model model_name w = Some m ->
  exists b w', download_model env model_name w = (Ok b, w') /\
    (b = true <->
     validate_model_name m = true /\ pull_popen env = Ok tt /\
     timed_out (pull_start env) (pull_lines env) = false /\ pull_wait env = Some 0%Z) /\
    (b = true ->
     config w' = <["model_downloaded" := PBool true]> (<["model_name" := m]> (config w)) /\
     error (setup_progress w') = None) /\
    (b = false -> config w' = config w /\ cfg_file w' = cfg_file w /\
                  is_Some (error (setup_progress w'))) /\
    fs w' = fs w.
Proof.
  intros Hm. unfold download_model, bind at 1.
  rewrite download_model_name, Hm.
  destruct (validate_model_name m) eqn:Ev; cbn [negb].
  2:{ eexists false, _. split; [reflexivity|].
      split; [split; [discriminate | intros [H _]; discriminate]|].
      split; [discriminate|]. split; [|reflexivity]. intros _. cbn. eauto. }
  unfold bind at 1, update_progress, modify.
  set (w0 := set_setup_progress _ w).
  unfold try_except, bind at 1, lift_res.
  destruct (pull_popen env) as [[]|e] eqn:Epop.
  2:{ destruct (isinstance e TimeoutExpired); [|rewrite isinstance_Exception];
        (eexists false, _; split; [reflexivity|];
         split; [split; [discriminate | intros (_ & H & _); discriminate]|];
         split; [discriminate|]; split; [|reflexivity]; intros _; cbn; eauto). }
  unfold bind at 1.
  destruct (pull_loop_run (pull_start env) (pull_first_update env) (pull_lines env) w0)
    as [msg Hloop].
  rewrite Hloop. set (w1 := set_setup_progress _ w0).
  destruct (timed_out _ _) eqn:Etime.
  { cbn. eexists false, _. split; [reflexivity|].
    split; [split; [discriminate | intros (_ & _ & H & _); discriminate]|].
    split; [discriminate|]. split; [|reflexivity]. intros _. cbn. eauto. }
  destruct (pull_wait env) as [rc|] eqn:Ewait.
  2:{ cbn. eexists false, _. split; [reflexivity|].
      split; [split; [discriminate | intros (_ & _ & _ & H); discriminate]|].
      split; [discriminate|]. split; [|reflexivity]. intros _. cbn. eauto. }
  destruct (rc =? 0)%Z eqn:Erc.
  - apply Z.eqb_eq in Erc. subst rc.
    unfold bind, config_set, modify. rewrite save_config_run.
    eexists true, _. split; [reflexivity|].
    split; [split; auto|]. split; [|split; [discriminate|]].
    + intros _. destruct (cfg_file _); cbn; auto.
    + destruct (cfg_file _); reflexivity.
  - cbn. eexists false, _. split; [reflexivity|].
    split; [split; [discriminate|]|].
    { intros (_ & _ & _ & H). injection H as ->. discriminate Erc. }
    split; [discriminate|]. split; [|reflexivity]. intros _. cbn. eauto.
Qed.

(** *** Outcomes *)

Lemma hoare_bind {A B} (P : world -> Prop) (R : res A -> world -> Prop)
    (Q : res B -> world -> Prop) (m : M A) (k : A -> M B) :
  hoare P m R ->
  (forall a, hoare (R (Ok a)) (k a) Q) ->
  (forall e w, R (Raise e) w -> Q (Raise e) w) ->
  hoare P (bind m k) Q.
Proof.
  intros Hm Hk He w Hw. unfold bind. specialize (Hm w Hw).
  destruct (m w) as [[a|e] w1]; simpl in *; [now apply Hk | now apply He].
Qed.

(** A step whose outcome does not matter for what follows. *)
Lemma hoare_bind_any {A B} (P : world -> Prop) (Q : res B -> world -> Prop)
    (m : M A) (k : A -> M B) :
  (forall a, hoare (fun _ => True) (k a) Q) ->
  (forall e w, Q (Raise e) w) ->
  hoare P (bind m k) Q.
Proof.
  intros Hk He. apply (hoare_bind P (fun _ _ => True)); [now intros w _ | exact Hk | auto].
Qed.

Lemma hoare_try_except {A} (P : world -> Prop) (R Q : res A -> world -> Prop)
    (m : M A) (h : exn -> M A) :
  hoare P m R ->
  (forall a w, R (Ok a) w -> Q (Ok a) w) ->
  (forall e, hoare (R (Raise e)) (h e) Q) ->
  hoare P (try_except m h) Q.
Proof.
  intros Hm Hok Hh w Hw. unfold try_except. specialize (Hm w Hw).
  destruct (m w) as [[a|e] w1]; simpl in *; [now apply Hok | now apply Hh].
Qed.

Lemma hoare_raise {A} (P : world -> Prop) (Q : res A -> world -> Prop) (e : exn) :
  (forall w, P w -> Q (Raise e) w) -> hoare P (raise e) Q.
Proof. intros H w Hw. now apply H. Qed.

Lemma hoare_ret {A} (P : world -> Prop) (Q : res A -> world -> Prop) (a : A) :
  (forall w, P w -> Q (Ok a) w) -> hoare P (ret a) Q.
Proof. intros H w Hw. now apply H. Qed.

(** A step that always returns. *)
Lemma hoare_bind_returns {A B} (P : world -> Prop) (Q : res B -> world -> Prop)
    (m : M A) (k : A -> M B) :
  returns m ->
  (forall a, hoare (fun _ => True) (k a) Q) ->
  hoare P (bind m k) Q.
Proof.
  intros Hm Hk w Hw. unfold bind. destruct (Hm w) as [a Ha].
  destruct (m w) as [[a'|e] w1]; simpl in *; [now apply Hk | discriminate].
Qed.

Lemma returns_update_progress st msg n : returns (update_progress st msg n).
Proof. intros w. now exists tt. Qed.

Lemma install_ollama_hoare (env : install_env) :
  hoare (fun _ => True) (install_ollama env) install_outcome.
Proof.
  unfold install_ollama.
  apply hoare_bind_returns; [apply returns_update_progress | intros _].
  apply (hoare_try_except _
           (fun r w => match r with
                       | Ok true => install_outcome r w
                       | Ok false => False
                       | Raise _ => True
                       end)).
  - apply hoare_bind_any; [intros _ | intros; exact I].
    apply hoare_bind_any; [intros _ | intros; exact I].
    apply hoare_bind_any; [intros ex | intros; exact I].
    destruct (negb ex); [now apply hoare_raise|].
    apply hoare_bind_any; [intros file_size | intros; exact I].
    destruct (_ || _).
    { apply hoare_bind_any; [intros _ | intros; exact I]. now apply hoare_raise. }
    apply hoare_bind_any; [intros _ | intros; exact I].
    apply hoare_bind_any; [intros _ | intros; exact I].
    apply hoare_bind_any; [intros _ | intros; exact I].
    apply hoare_bind_any; [intros _ | intros; exact I].
    apply (hoare_bind _ (fun r w => r = Ok true -> flag_set "ollama_installed" w)).
    + intros w _.
      destruct (check_ollama_installed_run (post_probe env) w)
        as (b & w' & -> & _ & Hb & _).
      simpl. intros [= ->]. now apply Hb.
    + intros [|]; [|now apply hoare_raise].
      intros w Hw. specialize (Hw eq_refl). split; [exact Hw | reflexivity].
    + intros; exact I.
  - intros [|] w H; [exact H | destruct H].
  - intros e w _. cbv beta.
    destruct (isinstance e TimeoutExpired) eqn:E1; [cbn; eauto|].
    destruct (isinstance e CalledProcessError) eqn:E2; [cbn; eauto|].
    rewrite isinstance_Exception. cbn. eauto.
Qed.

(** X15: [install_ollama] never raises.  It returns [True] only when the
    probe after the installation has found Ollama, with [ollama_installed]
    set and the progress at stage "installed", 50 percent, without error;
    and whenever it returns [False] an error message is on record in the
    progress. *)
Theorem install_ollama_reports (env : install_env) (w : world) :
  exists b w', install_ollama env w = (Ok b, w') /\
    (b = true ->
     flag_set "ollama_installed" w' /\
     setup_progress w' = Progress "installed" "Ollama installed successfully" 50 None) /\
    (b = false -> is_Some (error (setup_progress w'))).
Proof.
  pose proof (install_ollama_hoare env w I) as H.
  destruct (install_ollama env w) as [[[|]|e] w']; simpl in H; [| |destruct H].
  - exists true, w'. split; [reflexivity|]. split; [auto | discriminate].
  - exists false, w'. split; [reflexivity|]. split; [discriminate | auto].
Qed.

(** X14: [download_model] works with the name it is given, or with the
    stored [model_name] when it is given [None] or no argument.  With no
    name given and none stored it raises [KeyError] and changes nothing; in
    every other case it returns.  It returns [True] exactly when the name
    passes [validate_model_name], [ollama pull] starts, no line of its
    output is read more than 1800 seconds after the start, and it exits
    with status 0; the configuration then holds the name and
    [model_downloaded].  Whenever it returns [False] the configuration and
    its file are unchanged and an error message is on record. *)
Theorem download_model_spec (env : pull_env) (model_name : option pyval) (w : world) :
  match requested_model model_name w with
  | None =>
      (model_name = None \/ model_name = Some PNone) /\
      config w !! "model_name" = None /\
      download_model env model_name w = (Raise (mk_exn KeyError "'model_name'"), w)
  | Some m =>
      exists b w', download_model env model_name w = (Ok b, w') /\
        (b = true <->
         validate_model_name m = true /\ pull_popen env = Ok tt /\
         timed_out (pull_start env) (pull_lines env) = false /\
         pull_wait env = Some 0%Z) /\
        (b = true ->
         config w' = <["model_downloaded" := PBool true]>
                       (<["model_name" := m]> (config w)) /\
         error (setup_progress w') = None) /\
        (b = false -> config w' = config w /\ cfg_file w' = cfg_file w /\
                      is_Some (error (setup_progress w'))) /\
        fs w' = fs w
  end.
Proof.
  destruct (requested_model model_name w) as [m|] eqn:Hm.
  - now apply download_model_run.
  - split; [|split; [|now apply download_model_missing]].
    + destruct model_name as [[]|]; auto; discriminate Hm.
    + destruct model_name as [[]|]; try discriminate Hm; exact Hm.
Qed.

(** *** Flags are never reset *)

Section Flags.

Variable k : string.
Hypothesis k_not_model : k <> "model_name".
Hypothesis k_not_path : k <> "ollama_path".

Lemma flag_update_progress st msg n : preserves (flag_set k) (update_progress st msg n).
Proof. now intros w H. Qed.

Lemma flag_set_error msg : preserves (flag_set k) (set_error msg).
Proof. now intros w H. Qed.

Lemma flag_set_message msg : preserves (flag_set k) (set_message msg).
Proof. now intros w H. Qed.

Lemma flag_os_path_exists p : preserves (flag_set k) (os_path_exists p).
Proof. now intros w H. Qed.

Lemma flag_os_path_isfile p : preserves (flag_set k) (os_path_isfile p).
Proof. now intros w H. Qed.

Lemma flag_os_chmod p m : preserves (flag_set k) (os_chmod p m).
Proof. now intros w H. Qed.

Lemma flag_os_path_getsize p : preserves (flag_set k) (os_path_getsize p).
Proof. intros w H. unfold os_path_getsize. now destruct (fs w !! p) as [[]|]. Qed.

Lemma flag_os_remove p : preserves (flag_set k) (os_remove p).
Proof. intros w H. unfold os_remove. now destruct (fs w !! p) as [[]|]. Qed.

Lemma flag_write_file p c : preserves (flag_set k) (write_file p c).
Proof. intros w H. unfold write_file. now destruct (fs w !! p) as [[]|]. Qed.

Lemma flag_subprocess_run o check : preserves (flag_set k) (subprocess_run o check).
Proof. unfold subprocess_run. preserve. Qed.

Lemma flag_config_get k' : preserves (flag_set k) (config_get k').
Proof. intros w H. unfold config_get. now destruct (config w !! k'). Qed.

Lemma flag_config_set k' v :
  k' <> k \/ v = PBool true -> preserves (flag_set k) (config_set k' v).
Proof.
  intros Hkv w H. unfold flag_set in *. simpl.
  destruct (decide (k' = k)) as [->|Hne].
  - destruct Hkv as [Hk| ->]; [congruence | apply lookup_insert_eq].
  - now rewrite lookup_insert_ne.
Qed.

Lemma flag_save_config : preserves (flag_set k) save_config.
Proof. intros w H. rewrite save_config_run. simpl. now destruct (cfg_file w). Qed.

#[local] Hint Resolve flag_update_progress flag_set_error flag_set_message
  flag_os_path_exists flag_os_path_isfile flag_os_chmod flag_os_path_getsize
  flag_os_remove flag_write_file flag_subprocess_run flag_config_get
  flag_save_config : pres.

#[local] Hint Extern 1 (preserves (flag_set _) (modify _)) =>
  (apply preserves_modify; let H := fresh in intros ? H; exact H) : pres.

#[local] Hint Extern 1 (preserves (flag_set _) (config_set _ _)) =>
  (apply flag_config_set; first [right; reflexivity | left; congruence]) : pres.

Lemma flag_safe_remove_file p : preserves (flag_set k) (safe_remove_file p).
Proof. unfold safe_remove_file. preserve. Qed.
#[local] Hint Resolve flag_safe_remove_file : pres.

Lemma flag_get_ollama_path env : preserves (flag_set k) (get_ollama_path env).
Proof. unfold get_ollama_path. preserve. Qed.
#[local] Hint Resolve flag_get_ollama_path : pres.

Lemma flag_check_ollama_installed env : preserves (flag_set k) (check_ollama_installed env).
Proof. unfold check_ollama_installed. preserve. Qed.
#[local] Hint Resolve flag_check_ollama_installed : pres.

Lemma flag_install_ollama env : preserves (flag_set k) (install_ollama env).
Proof. unfold install_ollama, curl. preserve. Qed.

Lemma flag_start_ollama_service env : preserves (flag_set k) (start_ollama_service env).
Proof. unfold start_ollama_service. preserve. Qed.
#[local] Hint Resolve flag_start_ollama_service : pres.

Lemma flag_check_model_downloaded env m :
  preserves (flag_set k) (check_model_downloaded env m).
Proof. unfold check_model_downloaded. preserve. Qed.
#[local] Hint Resolve flag_check_model_downloaded : pres.

Lemma flag_pull_loop t0 t1 lines : preserves (flag_set k) (pull_loop t0 t1 lines).
Proof.
  revert t1. induction lines as [|[t line] rest IH]; intros t1; simpl; preserve.
Qed.
#[local] Hint Resolve flag_pull_loop : pres.

Lemma flag_download_model env m : preserves (flag_set k) (download_model env m).
Proof. unfold download_model. preserve. Qed.
#[local] Hint Resolve flag_download_model : pres.

Lemma flag_auto_setup env m : preserves (flag_set k) (auto_setup env m).
Proof. unfold auto_setup, auto_setup_locked. preserve. Qed.

Lemma flag_set_model data : preserves (flag_set k) (set_model data).
Proof. unfold set_model. preserve. Qed.

End Flags.

(** X16: no operation of the manager clears a flag.  Once a key of the
    configuration other than [model_name] and [ollama_path] holds [True]
    (so [ollama_installed], [model_downloaded], [setup_complete]), it holds
    [True] after [/set_model], the installation probe, the installer, the
    model check, the download and [auto_setup], whatever these find; only
    loading the file again can change it. *)
Theorem flags_never_reset (k : string) (op : config_op) (w : world) :
  k <> "model_name" -> k <> "ollama_path" -> op <> OpInit ->
  flag_set k w -> flag_set k (run_op op w).
Proof.
  intros H1 H2 Hop H. destruct op; simpl.
  - congruence.
  - now apply flag_set_model.
  - now apply flag_check_ollama_installed.
  - now apply flag_install_ollama.
  - now apply flag_check_model_downloaded.
  - now apply flag_download_model.
  - now apply flag_auto_setup.
Qed.

(** *** What a successful set-up leaves *)

Lemma hoare_frame {A} (P : world -> Prop) (m : M A) :
  preserves P m -> hoare P m (fun _ => P).
Proof. intros H w Hw. now apply H. Qed.

Lemma hoare_conj {A} (P : world -> Prop) (Q1 Q2 : res A -> world -> Prop) (m : M A) :
  hoare P m Q1 -> hoare P m Q2 -> hoare P m (fun r w => Q1 r w /\ Q2 r w).
Proof. intros H1 H2 w Hw. split; [now apply H1 | now apply H2]. Qed.

Lemma hoare_weaken {A} (P P' : world -> Prop) (Q : res A -> world -> Prop) (m : M A) :
  (forall w, P' w -> P w) -> hoare P m Q -> hoare P' m Q.
Proof. intros HP H w Hw. apply H. now apply HP. Qed.

Lemma auto_setup_body_hoare (env : setup_env) (m : pyval) :
  hoare (fun _ => True)
    (installed <- check_ollama_installed (probe env) ;;
     if negb installed then
       update_progress "error" "Ollama not installed. Please run ./setup.sh first" 0 ;;
       ret false
     else
     update_progress "checking" "Ollama detected" 20 ;;
     started <- start_ollama_service (start env) ;;
     if negb started then ret false else
     present <- check_model_downloaded (tags env) (Some m) ;;
     have_model <-
       (if negb present then download_model (pull env) (Some m)
        else
          update_progress "checking" ("Model " ++ str_of m ++ " already downloaded") 90 ;;
          ret true) ;;
     if negb have_model then ret false else
     config_set "setup_complete" (PBool true) ;;
     save_config ;;
     update_progress "complete" "Setup complete - System ready" 100 ;;
     ret true)
    setup_outcome.
Proof.
  set (inst := flag_set "ollama_installed").
  set (down := flag_set "model_downloaded").
  apply (hoare_bind _ (fun r w => r = Ok true -> inst w)).
  { intros w _.
    destruct (check_ollama_installed_run (probe env) w) as (b & w' & -> & _ & Hb & _).
    simpl. intros [= ->]. now apply Hb. }
  2:{ intros; exact I. }
  intros [|]; cbn [negb]; [|now intros w _].
  apply (hoare_bind _ (fun _ => inst)).
  { apply (hoare_weaken inst); [auto|]. apply hoare_frame, flag_update_progress. }
  2:{ intros; exact I. }
  intros _.
  apply (hoare_bind _ (fun _ => inst)).
  { apply hoare_frame. apply flag_start_ollama_service. }
  2:{ intros; exact I. }
  intros [|]; cbn [negb]; [|now intros w _].
  apply (hoare_bind _ (fun r w => inst w /\ (r = Ok true -> down w))).
  { apply hoare_conj.
    - apply hoare_frame. apply flag_check_model_downloaded; discriminate.
    - intros w _ Hr.
      destruct (check_model_downloaded (tags env) (Some m) w) as [r w'] eqn:E.
      simpl in Hr. subst r.
      now apply check_model_downloaded_sets in E. }
  2:{ intros; exact I. }
  intros present.
  apply (hoare_bind _ (fun r w => inst w /\ (r = Ok true -> down w))).
  { destruct present; cbn [negb].
    - intros w [Hi Hd]. specialize (Hd eq_refl). split; [exact Hi|]. intros _. exact Hd.
    - apply hoare_conj.
      + apply (hoare_weaken inst); [now intros w [H _]|].
        apply hoare_frame. apply flag_download_model; discriminate.
      + intros w _ Hr.
        destruct (requested_model (Some m) w) as [m'|] eqn:Hm.
        2:{ rewrite (download_model_missing _ _ _ Hm) in Hr. discriminate Hr. }
        destruct (download_model_run (pull env) (Some m) m' w Hm)
          as (b & w' & E & _ & Hb & _).
        rewrite E in *. simpl in Hr. injection Hr as ->.
        destruct (Hb eq_refl) as [Hc _]. cbn [snd]. unfold down, flag_set. rewrite Hc.
        apply lookup_insert_eq. }
  2:{ intros; exact I. }
  intros [|]; cbn [negb]; [|now intros w _].
  intros w [Hi Hd]. specialize (Hd eq_refl).
  unfold bind, config_set, modify, update_progress. rewrite save_config_run.
  unfold inst, down, flag_set in *.
  destruct (cfg_file _);
    unfold modify, ret, setup_outcome, setup_done, flag_set;
    cbn [fst snd config setup_progress set_setup_progress set_config set_cfg_file];
    (split; [rewrite lookup_insert_ne by discriminate; exact Hi|];
     split; [rewrite lookup_insert_ne by discriminate; exact Hd|];
     split; [apply lookup_insert_eq | vm_compute; reflexivity]).
Qed.

(** X17: [auto_setup] never raises, and it returns [True] only when the
    set-up is complete: [ollama_installed], [model_downloaded] and
    [setup_complete] are set in the configuration and the progress stands
    at stage "complete", 100 percent, without error.  A name that fails
    validation is answered [False] with the error "Invalid model name" and
    nothing else changed. *)
Theorem auto_setup_outcome (env : setup_env) (m : pyval) (w : world) :
  exists b w', auto_setup env m w = (Ok b, w') /\
    (b = true -> setup_done w') /\
    (validate_model_name m = false ->
     b = false /\ snd (set_error "Invalid model name" w) = w').
Proof.
  unfold auto_setup.
  destruct (validate_model_name m) eqn:Ev; cbn [negb].
  2:{ eexists false, _. split; [reflexivity|]. split; [discriminate|]. now intros _. }
  unfold auto_setup_locked, try_except.
  pose proof (auto_setup_body_hoare env m w I) as H.
  match goal with |- context [match ?body w with _ => _ end] =>
    change (setup_outcome (fst (body w)) (snd (body w))) in H;
    destruct (body w) as [[b|e] w'] end.
  - exists b, w'. split; [reflexivity|]. split; [|discriminate].
    intros ->. exact H.
  - unfold on. rewrite isinstance_Exception.
    eexists false, _. split; [reflexivity|]. split; discriminate.
Qed.

(** ** The status report *)

Lemma get_status_run (env : health_outcome) (w : world) :
  get_status env w =
  match config w !! "ollama_installed", config w !! "model_downloaded",
        config w !! "model_name" with
  | Some a, Some b, Some n =>
      let running := match env with
                     | HealthStatus code => (code =? 200)%Z
                     | HealthError => false
                     end in
      (Ok [("ollama_installed", a); ("ollama_running", PBool running);
           ("model_downloaded", b); ("model_name", n);
           ("setup_complete", default (PBool false) (config w !! "setup_complete"));
           ("ready", if negb (truthy a) then a
                     else if negb running then PBool false else b)], w)
  | None, _, _ => (Raise (mk_exn KeyError "'ollama_installed'"), w)
  | Some _, None, _ => (Raise (mk_exn KeyError "'model_downloaded'"), w)
  | Some _, Some _, None => (Raise (mk_exn KeyError "'model_name'"), w)
  end.
Proof.
  unfold get_status, bind, config_get, gets, ret.
  destruct (config w !! "ollama_installed") as [a|] eqn:Ea; [|reflexivity].
  destruct (config w !! "model_downloaded") as [b|] eqn:Eb; [|reflexivity].
  destruct (config w !! "model_name") as [n|] eqn:En; [|reflexivity].
  cbv beta iota zeta. rewrite Ea.
  destruct (negb (truthy a)); [reflexivity|].
  destruct (negb _); [reflexivity|]. now rewrite Eb.
Qed.

(** X18: [get_status] changes nothing, and when it returns, the field
    [ready] is true exactly when [ollama_installed] is true, the health
    request answers 200 and [model_downloaded] is true; [setup_complete] is
    reported as [False] when the configuration has no such key. *)
Theorem get_status_ready (env : health_outcome) (w w' : world)
    (st : list (string * pyval)) :
  get_status env w = (Ok st, w') ->
  w' = w /\
  exists a b ready,
    config w !! "ollama_installed" = Some a /\
    config w !! "model_downloaded" = Some b /\
    field "ready" st = Some ready /\
    (truthy ready = true <->
     truthy a = true /\ env = HealthStatus 200 /\ truthy b = true) /\
    field "setup_complete" st
    = Some (default (PBool false) (config w !! "setup_complete")).
Proof.
  rewrite get_status_run.
  destruct (config w !! "ollama_installed") as [a|]; [|discriminate].
  destruct (config w !! "model_downloaded") as [b|]; [|discriminate].
  destruct (config w !! "model_name") as [n|]; [|discriminate].
  cbv zeta. intros [= <- <-]. split; [reflexivity|].
  exists a, b. eexists. split; [reflexivity|]. split; [reflexivity|].
  split; [reflexivity|]. split; [|reflexivity].
  destruct (truthy a) eqn:Ea; cbn [negb].
  2:{ rewrite Ea. split; [discriminate | intros [H _]; discriminate]. }
  destruct env as [code|]; cbn [negb].
  2:{ split; [discriminate | intros (_ & H & _); discriminate]. }
  destruct (code =? 200)%Z eqn:Ec; cbn [negb truthy].
  - apply Z.eqb_eq in Ec. subst code. tauto.
  - split; [discriminate|]. intros (_ & H & _). injection H as ->. discriminate Ec.
Qed.

(** X19: a configuration file that holds a JSON object without one of
    the keys [ollama_installed], [model_downloaded], [model_name] is loaded
    as it is, and from then on [/setup_status] raises [KeyError]. *)
Theorem setup_status_incomplete_config (d : gmap string pyval) (k : string)
    (env : health_outcome) (w : world) :
  cfg_file w = CfgJson (PDict d) ->
  In k ["ollama_installed"; "model_downloaded"; "model_name"] ->
  d !! k = None ->
  exists e w', setup_status env (snd (init_manager w)) = (Raise e, w') /\
    exn_cls e = KeyError.
Proof.
  intros Hfile Hk Hd.
  assert (Hcfg : config (snd (init_manager w)) = repaired d).
  { rewrite init_manager_run, Hfile. reflexivity. }
  assert (Hmiss : repaired d !! k = None) by now apply repaired_missing.
  unfold setup_status, bind. rewrite get_status_run, Hcfg.
  destruct Hk as [<-|[<-|[<-|[]]]]; rewrite ?Hmiss.
  - eauto.
  - destruct (repaired d !! "ollama_installed"); eauto.
  - destruct (repaired d !! "ollama_installed"); [|eauto].
    destruct (repaired d !! "model_downloaded"); eauto.
Qed.

(** ** The prompt store *)

Lemma sanitize_input_markup_free_text (s : string) (n : Z) :
  markup_free s -> (0 <= n)%Z -> sanitize_input (PStr s) n = Py.take n s.
Proof.
  intros (H1 & H2 & H0) Hn. unfold sanitize_input, Py.slice_to.
  replace (0 <=? n)%Z with true by (symmetry; now apply Z.leb_le).
  assert (Htake : forall c, Py.has_char c s = false -> Py.has_char c (Py.take n s) = false).
  { intros c. clear. revert n. induction s as [|x s IH]; intros n; simpl; [reflexivity|].
    intros H. apply orb_false_iff in H as [Hx Hs].
    destruct (n <=? 0)%Z; [reflexivity|]. simpl. now rewrite Hx, IH. }
  rewrite (replace_absent _ _ _ (Htake _ H0)), (replace_absent _ _ _ (Htake _ H1)).
  apply replace_absent, Htake, H2.
Qed.

Lemma length_universal_newlines (s : string) :
  (String.length (universal_newlines s) <= String.length s)%nat.
Proof.
  assert (H : forall n s, (String.length s <= n)%nat ->
            (String.length (universal_newlines s) <= String.length s)%nat).
  { intros n. induction n as [|n IH]; intros [|c r] Hn; simpl in *; try lia.
    destruct (Ascii.eqb c "013").
    - destruct r as [|c' r']; simpl; [lia|].
      destruct (Ascii.eqb c' "010").
      + assert (String.length (universal_newlines r') <= String.length r')%nat
          by (apply IH; simpl in Hn; lia).
        lia.
      + assert (String.length (universal_newlines (String c' r'))
                <= String.length (String c' r'))%nat by (apply IH; simpl in *; lia).
        simpl in *. lia.
    - assert (String.length (universal_newlines r) <= String.length r)%nat
        by (apply IH; lia).
      simpl. lia. }
  now apply (H (String.length s)).
Qed.

(** Reading in text mode brings in no character but the line feed. *)
Lemma has_char_universal_newlines (c : ascii) (s : string) :
  Ascii.eqb c "010" = false ->
  Py.has_char c s = false -> Py.has_char c (universal_newlines s) = false.
Proof.
  intros Hc.
  assert (H : forall n s, (String.length s <= n)%nat ->
            Py.has_char c s = false -> Py.has_char c (universal_newlines s) = false).
  { intros n. induction n as [|n IH]; intros [|x r] Hn; simpl in *; try reflexivity; try lia.
    intros Hs. apply orb_false_iff in Hs as [Hx Hr].
    destruct (Ascii.eqb x "013").
    - simpl. rewrite Hc. cbn [orb].
      destruct r as [|x' r']; [reflexivity|].
      simpl in Hr. apply orb_false_iff in Hr as [Hx' Hr'].
      destruct (Ascii.eqb x' "010").
      + apply IH; [simpl in Hn; lia | exact Hr'].
      + apply IH; [simpl in *; lia|]. simpl. now rewrite Hx', Hr'.
    - simpl. rewrite Hx. cbn [orb]. apply IH; [lia | exact Hr]. }
  now apply (H (String.length s)).
Qed.

Lemma markup_free_universal_newlines (s : string) :
  markup_free s -> markup_free (universal_newlines s).
Proof.
  intros (H1 & H2 & H0).
  repeat split; apply has_char_universal_newlines; auto.
Qed.

(** A text without carriage return is read as it is. *)
Lemma universal_newlines_plain (s : string) :
  Py.has_char "013" s = false -> universal_newlines s = s.
Proof.
  induction s as [|c r IH]; [reflexivity|]. cbn [Py.has_char universal_newlines].
  intros H. apply orb_false_iff in H as [Hc Hr].
  rewrite Ascii.eqb_sym in Hc. rewrite Hc. now rewrite IH.
Qed.

Section PromptStore.

Variable app_dir : string.

Lemma save_prompt_run (p : pyval) (encodable : bool) (w : world) :
  save_prompt app_dir p encodable w =
  match fs w !! PROMPT_FILE app_dir with
  | Some Dir =>
      (Raise (mk_exn Exception "Failed to save prompt: Is a directory"), w)
  | _ =>
      if encodable then
        (Ok true,
         set_fs (<[PROMPT_FILE app_dir := File (sanitize_input p 10000)]> (fs w)) w)
      else
        (Raise (mk_exn UnicodeEncodeError "surrogates not allowed"),
         set_fs (<[PROMPT_FILE app_dir := File ""]> (fs w)) w)
  end.
Proof.
  unfold save_prompt, try_except, bind, write_text, os_chmod, ret, on.
  cbv zeta. destruct (fs w !! PROMPT_FILE app_dir) as [[c|]|];
    try reflexivity; now destruct encodable.
Qed.

Lemma read_prompt_stored (text : string) (w : world) :
  fs w !! PROMPT_FILE app_dir = Some (File text) ->
  markup_free text -> (Py.len text <= 50000)%Z ->
  read_prompt app_dir w = (Ok (Py.take 10000 (universal_newlines text)), w).
Proof.
  intros Hfile Hfree Hlen.
  unfold read_prompt, try_except, bind, os_path_exists, gets, read_file.
  rewrite Hfile. rewrite bool_decide_true by eauto. cbn [ret]. rewrite ?Hfile.
  rewrite (take_all 50000).
  2:{ pose proof (length_universal_newlines text). unfold Py.len in *. lia. }
  rewrite sanitize_input_markup_free_text;
    [reflexivity | now apply markup_free_universal_newlines | lia].
Qed.

(** X20: when the prompt file is not a directory and the sanitized
    prompt can be encoded as UTF-8, [save_prompt] stores the sanitized text
    and [read_prompt] then returns the first 10000 characters of what
    reading in text mode makes of it (each carriage return, with a line
    feed that follows it, read as a line feed): the sanitized text itself
    when it has no carriage return and at most 10000 characters.  The second
    sanitizing on the way back escapes nothing again.  When the prompt
    cannot be encoded, [save_prompt] raises [UnicodeEncodeError], the file
    is left empty, and [read_prompt] then returns the empty text. *)
Theorem save_prompt_read_prompt (p : pyval) (w : world) :
  fs w !! PROMPT_FILE app_dir <> Some Dir ->
  (exists w1,
     save_prompt app_dir p true w = (Ok true, w1) /\
     read_prompt app_dir w1
     = (Ok (Py.take 10000 (universal_newlines (sanitize_input p 10000))), w1) /\
     (Py.has_char "013" (sanitize_input p 10000) = false ->
      (Py.len (sanitize_input p 10000) <= 10000)%Z ->
      read_prompt app_dir w1 = (Ok (sanitize_input p 10000), w1))) /\
  (exists e w2,
     save_prompt app_dir p false w = (Raise e, w2) /\
     exn_cls e = UnicodeEncodeError /\
     read_prompt app_dir w2 = (Ok "", w2)).
Proof.
  intros Hdir. rewrite !save_prompt_run.
  assert (Hsan : (Py.len (sanitize_input p 10000) <= 50000)%Z)
    by (pose proof (sanitize_input_length_le p 10000 ltac:(lia)); lia).
  split.
  - eexists. split.
    { destruct (fs w !! PROMPT_FILE app_dir) as [[c|]|];
        [reflexivity | congruence | reflexivity]. }
    assert (Hread : read_prompt app_dir
              (set_fs (<[PROMPT_FILE app_dir := File (sanitize_input p 10000)]> (fs w)) w)
            = (Ok (Py.take 10000 (universal_newlines (sanitize_input p 10000))),
               set_fs (<[PROMPT_FILE app_dir := File (sanitize_input p 10000)]> (fs w)) w)).
    { apply read_prompt_stored;
        [apply lookup_insert_eq | apply sanitize_input_markup_free_all | exact Hsan]. }
    split; [exact Hread|].
    intros Hcr Hlen. rewrite Hread, universal_newlines_plain by exact Hcr.
    now rewrite take_all.
  - eexists _, _. split.
    { destruct (fs w !! PROMPT_FILE app_dir) as [[c|]|];
        [reflexivity | congruence | reflexivity]. }
    split; [reflexivity|].
    rewrite (read_prompt_stored ""); [reflexivity | apply lookup_insert_eq | | ].
    + repeat split.
    + unfold Py.len. simpl. lia.
Qed.

(** What the handler of [/save_prompt] answers, and what it writes. *)
Lemma update_prompt_run (get_json : res pyval) (encodable : bool) (w : world) :
  update_prompt app_dir get_json encodable w =
  match get_json with
  | Raise e => (Ok (error_500 e), w)
  | Ok (PDict d) =>
      match d !! "prompt" with
      | Some (PStr s) =>
          match fs w !! PROMPT_FILE app_dir with
          | Some Dir =>
              (Ok (error_500 (mk_exn Exception "Failed to save prompt: Is a directory")), w)
          | _ =>
              if encodable then
                (Ok (jsonify [("status", PStr "success")] 200),
                 set_fs (<[PROMPT_FILE app_dir := File (sanitize_input (PStr s) 10000)]>
                           (fs w)) w)
              else
                (Ok (error_500 (mk_exn UnicodeEncodeError "surrogates not allowed")),
                 set_fs (<[PROMPT_FILE app_dir := File ""]> (fs w)) w)
          end
      | Some _ => (Ok (jsonify [("error", PStr "Invalid prompt type")] 400), w)
      | None => (Ok (jsonify [("error", PStr "Invalid request")] 400), w)
      end
  | Ok _ => (Ok (jsonify [("error", PStr "Invalid request")] 400), w)
  end.
Proof.
  unfold update_prompt, try_except.
  destruct get_json as [data|e].
  2:{ unfold bind, lift_res, on. now rewrite isinstance_Exception. }
  unfold bind at 1, lift_res.
  destruct data as [|b|z|q|s|l|d]; try reflexivity;
    try (cbn [is_dict negb orb]; now rewrite orb_true_r).
  cbn [is_dict has_key item negb orb truthy].
  destruct (d !! "prompt") as [v|] eqn:Ev.
  2:{ destruct (bool_decide (d = ∅)); reflexivity. }
  rewrite (bool_decide_true (is_Some (Some v))) by eauto.
  assert (Hne : bool_decide (d = ∅) = false).
  { apply bool_decide_eq_false. intros ->. rewrite lookup_empty in Ev. discriminate. }
  rewrite Hne. cbn [negb orb default from_option id].
  destruct v as [|b|z|q|s|l|d']; try reflexivity.
  cbn [is_str negb id]. unfold bind. rewrite save_prompt_run.
  destruct (fs w !! PROMPT_FILE app_dir) as [[c|]|]; try reflexivity;
    now destruct encodable.
Qed.

(** X21: [/save_prompt], with its rate limit, never raises and answers
    200, 400, 429 or 500, and it touches no file but the prompt file and
    never the configuration.  It answers 200 only when the body is an object
    whose [prompt] is a string that can be encoded, and then the prompt file
    holds the sanitized string.  An answer 400 or 429 leaves the files as
    they were.  An answer 500 (a body that is not JSON, a prompt file that
    is a directory, a prompt that cannot be encoded) leaves them as they
    were too, except in the last case: [open] has emptied the prompt file
    before the encoding fails, and the prompt saved before is lost. *)
Theorem update_prompt_spec (get_json : res pyval) (encodable : bool)
    (client_ip : string) (current_time : Q) (w : world) :
  exists r w',
    rate_limit (update_prompt app_dir get_json encodable) client_ip current_time w
    = (Ok r, w') /\
    (status r = 200 \/ status r = 400 \/ status r = 429 \/ status r = 500)%Z /\
    config w' = config w /\
    (forall q, q <> PROMPT_FILE app_dir -> fs w' !! q = fs w !! q) /\
    (status r = 200%Z ->
     encodable = true /\
     exists data s, get_json = Ok data /\ item "prompt" data = PStr s /\
       fs w' !! PROMPT_FILE app_dir = Some (File (sanitize_input (PStr s) 10000))) /\
    (status r = 400%Z \/ status r = 429%Z -> fs w' = fs w) /\
    (status r = 500%Z ->
     fs w' = fs w \/
     (encodable = false /\ fs w' = <[PROMPT_FILE app_dir := File ""]> (fs w))).
Proof.
  rewrite rate_limit_run.
  destruct (RATE_LIMIT <=? length (live client_ip current_time w))%nat.
  { eexists _, _. split; [reflexivity|]. cbn [status too_many jsonify config fs
      set_request_times]. repeat split; auto; discriminate. }
  set (w0 := set_request_times _ w).
  assert (Hfs : fs w0 = fs w) by reflexivity.
  assert (Hcfg : config w0 = config w) by reflexivity.
  rewrite update_prompt_run. rewrite Hfs.
  assert (Hquiet : forall r, (status r = 400 \/ status r = 500)%Z ->
    exists r' w', (Ok r, w0) = (Ok r', w') /\
      (status r' = 200 \/ status r' = 400 \/ status r' = 429 \/ status r' = 500)%Z /\
      config w' = config w /\
      (forall q, q <> PROMPT_FILE app_dir -> fs w' !! q = fs w !! q) /\
      (status r' = 200%Z ->
       encodable = true /\
       exists data s, get_json = Ok data /\ item "prompt" data = PStr s /\
         fs w' !! PROMPT_FILE app_dir = Some (File (sanitize_input (PStr s) 10000))) /\
      (status r' = 400%Z \/ status r' = 429%Z -> fs w' = fs w) /\
      (status r' = 500%Z ->
       fs w' = fs w \/
       (encodable = false /\ fs w' = <[PROMPT_FILE app_dir := File ""]> (fs w)))).
  { intros r Hr. exists r, w0. split; [reflexivity|].
    split; [tauto|]. split; [reflexivity|]. split; [reflexivity|].
    split; [intros H; rewrite H in Hr; destruct Hr; discriminate|].
    split; [reflexivity | now left]. }
  destruct get_json as [data|e]; [|apply Hquiet; now right].
  destruct data as [|b|z|q|s|l|d]; try (apply Hquiet; now left).
  destruct (d !! "prompt") as [v|] eqn:Ev; [|apply Hquiet; now left].
  destruct v as [|b|z|q|s|l|d']; try (apply Hquiet; now left).
  assert (Hwritten : forall (r : response) (text : string),
    (status r = 200%Z -> encodable = true /\ text = sanitize_input (PStr s) 10000) ->
    (status r = 500%Z -> encodable = false /\ text = "") ->
    (status r = 200 \/ status r = 500)%Z ->
    exists r' w',
      (Ok r, set_fs (<[PROMPT_FILE app_dir := File text]> (fs w)) w0) = (Ok r', w') /\
      (status r' = 200 \/ status r' = 400 \/ status r' = 429 \/ status r' = 500)%Z /\
      config w' = config w /\
      (forall q, q <> PROMPT_FILE app_dir -> fs w' !! q = fs w !! q) /\
      (status r' = 200%Z ->
       encodable = true /\
       exists data s0, Ok (PDict d) = Ok data /\ item "prompt" data = PStr s0 /\
         fs w' !! PROMPT_FILE app_dir = Some (File (sanitize_input (PStr s0) 10000))) /\
      (status r' = 400%Z \/ status r' = 429%Z -> fs w' = fs w) /\
      (status r' = 500%Z ->
       fs w' = fs w \/
       (encodable = false /\ fs w' = <[PROMPT_FILE app_dir := File ""]> (fs w)))).
  { intros r text H200 H500 Hr. eexists _, _. split; [reflexivity|].
    cbn [config fs set_fs]. split; [tauto|]. split; [reflexivity|].
    split; [intros q Hq; now rewrite lookup_insert_ne|].
    split; [|split].
    - intros H. destruct (H200 H) as [-> ->]. split; [reflexivity|].
      exists (PDict d), s. split; [reflexivity|]. cbn [item]. rewrite Ev.
      split; [reflexivity | apply lookup_insert_eq].
    - intros [H|H]; rewrite H in Hr; destruct Hr; discriminate.
    - intros H. destruct (H500 H) as [-> ->]. right. now split. }
  destruct (fs w !! PROMPT_FILE app_dir) as [[c|]|];
    try (apply Hquiet; now right);
    destruct encodable;
    (apply Hwritten; cbn [status jsonify error_500];
     [ first [discriminate | auto] | first [discriminate | auto] | auto ]).
Qed.

End PromptStore.

(** ** Text extraction *)

Lemma extract_pages_bounded (pages : list page_outcome) (text : string) :
  (Py.len text <= 500000)%Z -> (Py.len (extract_pages pages text) <= 500000)%Z.
Proof.
  revert text. induction pages as [|[t|] rest IH]; intros text Hlen; simpl.
  - exact Hlen.
  - destruct (Py.len _ >? 500000)%Z eqn:E.
    + apply len_take. lia.
    + apply IH. lia.
  - now apply IH.
Qed.

Lemma extract_pages_nothing (pages : list page_outcome) (text : string) :
  Forall (fun pg => pg = PageFails \/ pg = PageText "") pages ->
  (Py.len text <= 500000)%Z ->
  extract_pages pages text = text.
Proof.
  intros Hall Hlen. induction Hall as [|pg rest [->| ->] _ IH]; simpl.
  - reflexivity.
  - exact IH.
  - replace (Py.len text >? 500000)%Z with false by (symmetry; lia). exact IH.
Qed.

(** X22: [extract_pdf_text] changes nothing and raises nothing but
    [Exception].  The text it returns holds no markup character and at most
    2000000 characters (500000 before escaping); pages after the hundredth
    are not read; and when every page read fails or has no text it raises
    "No text could be extracted from PDF". *)
Theorem extract_pdf_text_spec (env : pdf_env) (path : string) (w : world) :
  snd (extract_pdf_text env path w) = w /\
  match fst (extract_pdf_text env path w) with
  | Ok text => markup_free text /\ (Py.len text <= 2000000)%Z
  | Raise e => exn_cls e = Exception
  end /\
  (forall pages more,
     reader env = ReaderPages (pages ++ more) -> length pages = 100%nat ->
     extract_pdf_text env path w
     = extract_pdf_text (PdfEnv (upload_entropy env) (pypdf2_installed env)
                                (ReaderPages pages) (generate env) (output_entropy env)
                                (answer_encodable env))
                        path w) /\
  (forall pages c,
     reader env = ReaderPages pages ->
     Forall (fun pg => pg = PageFails \/ pg = PageText "") (firstn 100 pages) ->
     pypdf2_installed env = true ->
     fs w !! path = Some (File c) -> (Py.len c <= 50 * 1024 * 1024)%Z ->
     fst (extract_pdf_text env path w)
     = Raise (mk_exn Exception "No text could be extracted from PDF")).
Proof.
  split; [apply read_only_extract_pdf_text|].
  split; [|split].
  - unfold extract_pdf_text.
    destruct (pypdf2_installed env); cbn [negb]; [|reflexivity].
    unfold bind at 1, os_path_isfile, gets.
    destruct (fs w !! path) as [[c|]|] eqn:E; cbn [negb]; try reflexivity.
    unfold bind at 1, os_path_getsize. rewrite E.
    destruct (Py.len c >? 50 * 1024 * 1024)%Z; [reflexivity|].
    unfold bind, try_except.
    destruct (reader env) as [e|pages].
    + unfold raise at 1, on. rewrite isinstance_Exception. reflexivity.
    + unfold ret at 1.
      destruct (String.eqb (Py.strip _) ""); [reflexivity|].
      cbn [fst ret]. split; [apply sanitize_input_markup_free_all|].
      apply (sanitize_input_length_le _ 500000). lia.
  - intros pages more Hr Hlen. unfold extract_pdf_text. cbn [pypdf2_installed reader].
    rewrite Hr. rewrite firstn_app, Hlen, Nat.sub_diag, firstn_O, app_nil_r.
    reflexivity.
  - intros pages c Hr Hall Hinst Hfile Hsize. unfold extract_pdf_text.
    rewrite Hinst. cbn [negb].
    unfold bind at 1, os_path_isfile, gets. rewrite Hfile. cbn [negb].
    unfold bind at 1, os_path_getsize. rewrite Hfile.
    replace (Py.len c >? 50 * 1024 * 1024)%Z with false by (symmetry; lia).
    unfold bind, try_except. rewrite Hr. unfold ret at 1.
    rewrite extract_pages_nothing; [reflexivity | exact Hall | unfold Py.len; simpl; lia].
Qed.

(** ** More on the document pipeline *)

Section PipelineMore.

Variable app_dir : string.
Variable cwd : string.
Variable nfkd_ascii : string -> string.

Lemma process_pdf_rejected (env : pdf_env) (file : option upload) (w : world) :
  upload_path app_dir nfkd_ascii env file = None ->
  exists r, process_pdf app_dir nfkd_ascii env file w = (Ok r, w) /\ status r = 400%Z.
Proof.
  unfold upload_path, process_pdf. destruct file as [f|].
  2:{ intros _. eexists. split; reflexivity. }
  destruct (String.eqb (up_filename f) "").
  { intros _. eexists. split; reflexivity. }
  destruct (validate_filename (PStr (up_filename f))).
  2:{ intros _. eexists. split; reflexivity. }
  destruct (Py.endswith _ ".pdf").
  2:{ intros _. eexists. split; reflexivity. }
  discriminate.
Qed.

(** When the upload cannot be saved, the answer is a 500 and nothing is
    changed. *)
Lemma process_pdf_unsaved (env : pdf_env) (f : upload) (p : string) (w : world)
    (e : exn) (w1 : world) :
  upload_path app_dir nfkd_ascii env (Some f) = Some p ->
  write_file p (up_content f) w = (Raise e, w1) ->
  exists e', process_pdf app_dir nfkd_ascii env (Some f) w = (Ok (error_500 e'), w).
Proof.
  intros Hp Hsave.
  destruct (upload_path_some _ _ _ _ _ Hp) as (Hname & Hvalid & Hpdf & Hpeq).
  assert (Hdir : fs w !! p = Some Dir).
  { revert Hsave. unfold write_file. destruct (fs w !! p) as [[c|]|]; congruence. }
  assert (Hw1 : w1 = w).
  { revert Hsave. unfold write_file. rewrite Hdir. congruence. }
  subst w1. unfold process_pdf.
  apply String.eqb_neq in Hname. rewrite Hname, Hvalid, Hpdf.
  change (negb true) with false. cbv iota zeta. rewrite <- Hpeq.
  mstep. rewrite Hsave. mstep.
  destruct (negb (String.eqb p "")).
  - mstep. rewrite safe_remove_file_run, Hdir. mstep. eauto.
  - mstep. eauto.
Qed.


(** What the handler of [/process_pdf] answers and what it touches. *)
Lemma process_pdf_effects (env : pdf_env) (file : option upload) (w : world) :
  exists r w',
    process_pdf app_dir nfkd_ascii env file w = (Ok r, w') /\
    (status r = 200 \/ status r = 400 \/ status r = 500)%Z /\
    config w' = config w /\
    (status r <> 200%Z ->
     forall q, upload_path app_dir nfkd_ascii env file <> Some q ->
       fs w' !! q = fs w !! q \/
       (answer_encodable env = false /\
        (exists f, file = Some f /\ q = artifact_path app_dir nfkd_ascii env f) /\
        fs w' !! q = Some (File ""))).
Proof.
  destruct (upload_path app_dir nfkd_ascii env file) as [p|] eqn:Hp.
  2:{ destruct (process_pdf_rejected env file w Hp) as (r & Hr & Hs).
      exists r, w. rewrite Hs. repeat split; auto. }
  destruct file as [f|]; [|discriminate Hp].
  assert (Hother : forall q (m : gmap string node), Some p <> Some q ->
            delete p (<[p := File (up_content f)]> m) !! q = m !! q).
  { intros q m Hq. assert (p <> q) by congruence.
    rewrite lookup_delete_ne, lookup_insert_ne; auto. }
  destruct (write_file p (up_content f) w) as [[[]|e] w1] eqn:Hsave.
  - rewrite (process_pdf_saved _ _ _ _ _ _ _ Hp (upload_path_nonempty _ _ _ _ _ Hp) Hsave).
    pose proof (write_file_ok _ _ _ _ Hsave) as ->.
    destruct (Py.len (up_content f) >? MAX_CONTENT_LENGTH)%Z.
    { eexists _, _. split; [reflexivity|]. cbn [status jsonify config set_fs fs].
      repeat split; auto. }
    destruct (produce_output app_dir env p _) as [[text|e] w2].
    + destruct (fs _ !! artifact_path app_dir nfkd_ascii env f) as [[c|]|] eqn:Ea;
        try destruct (answer_encodable env) eqn:Eenc;
        eexists _, _; (split; [reflexivity|]);
        cbn [status jsonify success_response error_500 config set_fs fs];
        (split; [auto|]); (split; [reflexivity|]);
        intros Hst q Hq; try congruence; try (left; now apply Hother).
      * destruct (decide (q = artifact_path app_dir nfkd_ascii env f)) as [->|Hne].
        -- right. split; [reflexivity|]. split; [eauto|].
           rewrite lookup_delete_ne by congruence. apply lookup_insert_eq.
        -- left. rewrite lookup_delete_ne by congruence.
           rewrite lookup_insert_ne by congruence.
           rewrite lookup_insert_ne by congruence. reflexivity.
      * destruct (decide (q = artifact_path app_dir nfkd_ascii env f)) as [->|Hne].
        -- right. split; [reflexivity|]. split; [eauto|].
           rewrite lookup_delete_ne by congruence. apply lookup_insert_eq.
        -- left. rewrite lookup_delete_ne by congruence.
           rewrite lookup_insert_ne by congruence.
           rewrite lookup_insert_ne by congruence. reflexivity.
    + eexists _, _. split; [reflexivity|].
      cbn [status jsonify error_500 config set_fs fs]. repeat split; auto.
  - destruct (process_pdf_unsaved env f p w e w1 Hp Hsave) as (e' & ->).
    eexists _, _. split; [reflexivity|].
    cbn [status jsonify error_500]. repeat split; auto.
Qed.

(** X24: [/process_pdf], with its rate limit, never raises: it always
    answers, with status 200, 400, 429 or 500, and it leaves the
    configuration alone.  When the answer is not 200, every path other than
    the one of the saved upload holds what it held before, with one
    exception: when the answer of the model cannot be encoded as UTF-8,
    [open] has created the output artifact before the writing fails, and
    the artifact stays, empty. *)
Theorem process_pdf_failure_effects (env : pdf_env) (file : option upload)
    (client_ip : string) (current_time : Q) (w : world) :
  exists r w',
    rate_limit (process_pdf app_dir nfkd_ascii env file) client_ip current_time w
    = (Ok r, w') /\
    (status r = 200 \/ status r = 400 \/ status r = 429 \/ status r = 500)%Z /\
    config w' = config w /\
    (status r <> 200%Z ->
     forall q, upload_path app_dir nfkd_ascii env file <> Some q ->
       fs w' !! q = fs w !! q \/
       (answer_encodable env = false /\
        (exists f, file = Some f /\ q = artifact_path app_dir nfkd_ascii env f) /\
        fs w' !! q = Some (File ""))).
Proof.
  rewrite rate_limit_run.
  destruct (RATE_LIMIT <=? length (live client_ip current_time w))%nat.
  { eexists _, _. split; [reflexivity|].
    cbn [status too_many jsonify config fs set_request_times]. repeat split; auto. }
  set (w0 := set_request_times _ w).
  destruct (process_pdf_effects env file w0) as (r & w' & Hrun & Hst & Hcfg & Hfs).
  exists r, w'. split; [exact Hrun|]. split; [tauto|]. split; [exact Hcfg|]. exact Hfs.
Qed.

(** What [download] answers, check by check. *)
Lemma download_run (filename : string) (w : world) :
  download app_dir cwd nfkd_ascii filename w =
  (Ok (if String.eqb (secure_filename nfkd_ascii filename) ""
          || negb (String.eqb (secure_filename nfkd_ascii filename) filename)
       then jsonify [("error", PStr "Invalid filename")] 400
       else
         let filepath := os_path_join (OUTPUT_FOLDER app_dir) filename in
         match fs w !! filepath with
         | Some (File c) =>
             if Py.startswith (os_path_abspath cwd filepath)
                              (os_path_abspath cwd (OUTPUT_FOLDER app_dir))
             then Response 200 (Attachment c) [filepath]
             else jsonify [("error", PStr "Access denied")] 403
         | _ => not_found_response
         end), w).
Proof.
  unfold download.
  destruct (String.eqb (secure_filename nfkd_ascii filename) "") eqn:E1; [reflexivity|].
  destruct (String.eqb (secure_filename nfkd_ascii filename) filename) eqn:E2;
    [|reflexivity].
  apply String.eqb_eq in E2. rewrite E2. cbn [negb orb]. cbv zeta.
  mstep. unfold os_path_isfile, send_file. mstep.
  destruct (fs w !! os_path_join (OUTPUT_FOLDER app_dir) filename) as [[c|]|] eqn:E;
    cbn [negb]; try reflexivity.
  destruct (Py.startswith _ _); cbn [negb]; [|reflexivity].
  mstep. rewrite E. reflexivity.
Qed.

(** X25: [/download] never raises and changes nothing itself.  It answers
    200 only for a non-empty name made of letters, digits, [_], [.] and [-]
    alone (so without any path separator) that names a regular file in the
    output folder, and then it sends the content of that file and registers
    that file, and no other, for removal; a name that is not its own secured
    form is answered 400. *)
Theorem download_serves_safe_names_only (filename : string) (w : world) :
  exists r, download app_dir cwd nfkd_ascii filename w = (Ok r, w) /\
    (status r = 200%Z ->
     filename <> "" /\ Py.sall filename_char filename = true /\
     Py.has_char "/" filename = false /\
     exists c,
       fs w !! os_path_join (OUTPUT_FOLDER app_dir) filename = Some (File c) /\
       r = Response 200 (Attachment c) [os_path_join (OUTPUT_FOLDER app_dir) filename]) /\
    (secure_filename nfkd_ascii filename <> filename -> status r = 400%Z).
Proof.
  rewrite download_run. eexists. split; [reflexivity|].
  destruct (String.eqb (secure_filename nfkd_ascii filename) "") eqn:E1.
  { cbn [orb status jsonify]. split; [discriminate | reflexivity]. }
  destruct (String.eqb (secure_filename nfkd_ascii filename) filename) eqn:E2.
  2:{ cbn [orb negb status jsonify]. split; [discriminate | reflexivity]. }
  apply String.eqb_eq in E2. cbn [orb negb]. cbv zeta.
  split; [|congruence].
  pose proof (secure_filename_chars nfkd_ascii filename) as Hchars. rewrite E2 in Hchars.
  destruct (fs w !! _) as [[c|]|] eqn:E; try discriminate.
  destruct (Py.startswith _ _); [|discriminate].
  intros _. split; [intros ->; rewrite E2 in E1; discriminate|].
  split; [exact Hchars|]. split; [|eauto].
  apply has_char_sall. revert Hchars. apply sall_impl.
  intros ch. apply filename_char_not_slash.
Qed.



(** The text of a successful inference is sanitized. *)
Lemma query_ollama_text (env : generate_outcome) (prompt context : string)
    (w w' : world) (t : string) :
  query_ollama env prompt context w = (Ok t, w') ->
  markup_free t /\ (Py.len t <= 4000000)%Z.
Proof.
  unfold query_ollama. cbv zeta. unfold bind at 1, config_get.
  destruct (config w !! "model_name"); [|discriminate].
  unfold try_except.
  destruct env as [|msg| |result]; try (cbn; discriminate).
  destruct result as [|b|z|q|s|l|d]; try (cbn; discriminate).
  unfold bind at 1, ret at 1. unfold bind.
  destruct (py_len _ w) as [[n|e] w2] eqn:E.
  - unfold ret. intros [= <- _].
    split; [apply sanitize_input_markup_free_all|].
    apply (sanitize_input_length_le _ 1000000). lia.
  - assert (He : exn_cls e = TypeError).
    { revert E. unfold py_len.
      destruct (default _ _); cbn; try discriminate; now intros [= <- _]. }
    destruct e as [c s1 s2]. simpl in He. subst c. cbn. discriminate.
Qed.

Lemma produce_output_text (env : pdf_env) (p : string) (w w' : world) (t : string) :
  produce_output app_dir env p w = (Ok t, w') ->
  markup_free t /\ (Py.len t <= 4000000)%Z.
Proof.
  unfold produce_output, bind.
  destruct (extract_pdf_text env p w) as [[text|e] w1]; [|discriminate].
  destruct (read_prompt app_dir w1) as [[prompt|e] w2]; [|discriminate].
  apply query_ollama_text.
Qed.

(** X30: when [process_pdf] answers 200, the output artifact is in place
    and the text stored in it has passed [sanitize_input]: it holds no [<],
    no [>] and no NUL character, and at most 4000000 characters. *)
Theorem process_pdf_artifact_sanitized (env : pdf_env) (file : option upload)
    (w w' : world) (r : response) :
  process_pdf app_dir nfkd_ascii env file w = (Ok r, w') ->
  status r = 200%Z ->
  exists f text,
    file = Some f /\
    fs w' !! artifact_path app_dir nfkd_ascii env f = Some (File text) /\
    markup_free text /\ (Py.len text <= 4000000)%Z.
Proof.
  intros Hrun Hst.
  destruct (upload_path app_dir nfkd_ascii env file) as [p|] eqn:Hp.
  2:{ destruct (process_pdf_rejected env file w Hp) as (r' & Hr & Hs).
      rewrite Hr in Hrun. injection Hrun as <- _. congruence. }
  destruct file as [f|]; [|discriminate Hp].
  destruct (write_file p (up_content f) w) as [[[]|e] w1] eqn:Hsave.
  2:{ destruct (process_pdf_unsaved env f p w e w1 Hp Hsave) as (e' & He).
      rewrite He in Hrun. injection Hrun as <- _. discriminate Hst. }
  rewrite (process_pdf_saved _ _ _ _ _ _ _ Hp (upload_path_nonempty _ _ _ _ _ Hp) Hsave)
    in Hrun.
  destruct (Py.len (up_content f) >? MAX_CONTENT_LENGTH)%Z.
  { injection Hrun as <- _. discriminate Hst. }
  destruct (produce_output app_dir env p w1) as [[text|e] w2] eqn:Hout.
  2:{ injection Hrun as <- _. discriminate Hst. }
  apply produce_output_text in Hout as [Hfree Hlen].
  assert (Hfinal : forall fs0 : gmap string node,
            delete p (<[artifact_path app_dir nfkd_ascii env f := File text]> fs0)
              !! artifact_path app_dir nfkd_ascii env f = Some (File text)).
  { intros fs0. rewrite lookup_delete_ne by (now apply upload_path_not_artifact).
    apply lookup_insert_eq. }
  exists f, text.
  destruct (fs w1 !! artifact_path app_dir nfkd_ascii env f) as [[c|]|];
    try destruct (answer_encodable env);
    injection Hrun as <- <-; try discriminate Hst;
    (split; [reflexivity|]; split; [apply Hfinal|]; split; [exact Hfree | exact Hlen]).
Qed.

End PipelineMore.

(** ** Choosing a model *)

(** What the handler of [/set_model] answers, and what it stores. *)
Lemma set_model_run (get_json : res pyval) (w : world) :
  set_model get_json w =
  match get_json with
  | Raise e => (Ok (error_500 e), w)
  | Ok (PDict d) =>
      if bool_decide (d = ∅) then (Ok (jsonify [("error", PStr "Invalid request")] 400), w)
      else match d !! "model_name" with
           | Some (PStr s) =>
               if validate_model_name (PStr s) then
                 (Ok (jsonify [("success", PBool true)] 200),
                  snd (save_config (set_config (<["model_name" := PStr s]> (config w)) w)))
               else (Ok (jsonify [("error", PStr "Invalid model name")] 400), w)
           | _ => (Ok (jsonify [("error", PStr "Invalid model name type")] 400), w)
           end
  | Ok _ => (Ok (jsonify [("error", PStr "Invalid request")] 400), w)
  end.
Proof.
  unfold set_model, try_except.
  destruct get_json as [data|e].
  2:{ unfold bind, lift_res, on. now rewrite isinstance_Exception. }
  unfold bind at 1, lift_res.
  destruct data as [|b|z|q|s|l|d]; try reflexivity;
    try (cbn [is_dict negb orb]; now rewrite orb_true_r).
  cbn [is_dict truthy negb orb]. rewrite orb_false_r.
  destruct (bool_decide (d = ∅)); cbn [negb]; [reflexivity|].
  destruct (d !! "model_name") as [v|]; cbn [default from_option id]; [|reflexivity].
  destruct v as [|b|z|q|s|l|d']; try reflexivity.
  cbn [is_str negb].
  destruct (validate_model_name (PStr s)); cbn [negb]; [|reflexivity].
  unfold bind, config_set, modify. rewrite save_config_run. reflexivity.
Qed.

(** The handler of [/set_model]: its answer, and what it changes. *)
Lemma set_model_effects (get_json : res pyval) (w : world) :
  exists r w', set_model get_json w = (Ok r, w') /\
    (status r = 200 \/ status r = 400 \/ status r = 500)%Z /\
    fs w' = fs w /\ request_times w' = request_times w /\
    (status r = 200%Z <->
     exists data s, get_json = Ok data /\ item "model_name" data = PStr s /\
                    validate_model_name (PStr s) = true) /\
    (status r = 500%Z <-> exists e, get_json = Raise e) /\
    (forall data, get_json = Ok data -> status r = 200%Z ->
       config w' = <["model_name" := item "model_name" data]> (config w)) /\
    (status r <> 200%Z -> w' = w).
Proof.
  rewrite set_model_run.
  assert (Hno : forall (g : res pyval) (code : Z) (msg : list (string * pyval)),
    (forall e, g <> Raise e) ->
    ~ (exists data s, g = Ok data /\ item "model_name" data = PStr s /\
                      validate_model_name (PStr s) = true) ->
    code = 400%Z ->
    exists r w', (Ok (jsonify msg code), w) = (Ok r, w') /\
      (status r = 200 \/ status r = 400 \/ status r = 500)%Z /\
      fs w' = fs w /\ request_times w' = request_times w /\
      (status r = 200%Z <->
       exists data s, g = Ok data /\ item "model_name" data = PStr s /\
                      validate_model_name (PStr s) = true) /\
      (status r = 500%Z <-> exists e, g = Raise e) /\
      (forall data, g = Ok data -> status r = 200%Z ->
         config w' = <["model_name" := item "model_name" data]> (config w)) /\
      (status r <> 200%Z -> w' = w)).
  { intros g code msg Hg Hnot ->. eexists _, _. split; [reflexivity|].
    cbn [status jsonify]. split; [auto|]. split; [reflexivity|]. split; [reflexivity|].
    split; [split; [discriminate | intros H; now destruct Hnot]|].
    split; [split; [discriminate | intros [e He]; now destruct (Hg e)]|].
    split; [discriminate | reflexivity]. }
  destruct get_json as [data|e].
  2:{ eexists _, _. split; [reflexivity|]. cbn [status error_500 jsonify].
      split; [auto|]. split; [reflexivity|]. split; [reflexivity|].
      split; [split; [discriminate | intros (? & ? & H & _); discriminate H]|].
      split; [split; eauto|]. split; [discriminate | reflexivity]. }
  destruct data as [|b|z|q|s|l|d];
    try (apply Hno; [discriminate | intros (? & ? & [= <-] & H & _); discriminate H
                    | reflexivity]).
  destruct (bool_decide (d = ∅)) eqn:Ed.
  { apply bool_decide_eq_true in Ed. subst d.
    apply Hno; [discriminate | | reflexivity].
    intros (? & ? & [= <-] & H & _). cbn [item] in H. rewrite lookup_empty in H.
    discriminate H. }
  destruct (d !! "model_name") as [v|] eqn:Ed'.
  2:{ apply Hno; [discriminate | | reflexivity].
      intros (? & ? & [= <-] & H & _). cbn [item] in H. rewrite Ed' in H. discriminate H. }
  destruct v as [|b|z|q|s|l|d'];
    try (apply Hno; [discriminate | | reflexivity];
         intros (? & ? & [= <-] & H & _); cbn [item] in H; rewrite Ed' in H;
         discriminate H).
  destruct (validate_model_name (PStr s)) eqn:Ev.
  - eexists _, _. split; [reflexivity|]. cbn [status jsonify].
    rewrite save_config_run.
    split; [auto|]. split; [now destruct (cfg_file _)|]. split; [now destruct (cfg_file _)|].
    split; [split; [intros _|reflexivity]|].
    { exists (PDict d), s. cbn [item]. rewrite Ed'. auto. }
    split; [split; [discriminate | intros [e He]; discriminate He]|].
    split; [|congruence].
    intros data [= <-] _. cbn [item]. rewrite Ed'. now destruct (cfg_file _).
  - apply Hno; [discriminate | | reflexivity].
    intros (? & s' & [= <-] & H & Hv). cbn [item] in H. rewrite Ed' in H.
    injection H as <-. congruence.
Qed.

(** X27: [/set_model], with its rate limit, never raises and answers 200,
    400, 429 or 500, and it touches no file but the configuration file.  It
    answers 429 exactly when the client has [RATE_LIMIT] or more live
    timestamps on record; otherwise 500 exactly when [request.get_json()]
    raises (a body that is not JSON), and 200 exactly when the body is an
    object whose [model_name] is a string that passes
    [validate_model_name]; the name is then stored as sent.  Every answer
    other than 200 leaves the configuration and its file as they were. *)
Theorem set_model_spec (get_json : res pyval) (client_ip : string) (current_time : Q)
    (w : world) :
  let limited := (RATE_LIMIT <=? length (live client_ip current_time w))%nat in
  exists r w',
    rate_limit (set_model get_json) client_ip current_time w = (Ok r, w') /\
    (status r = 200 \/ status r = 400 \/ status r = 429 \/ status r = 500)%Z /\
    fs w' = fs w /\
    (status r = 429%Z <-> limited = true) /\
    (status r = 500%Z <-> limited = false /\ exists e, get_json = Raise e) /\
    (status r = 200%Z <->
     limited = false /\
     exists data s, get_json = Ok data /\ item "model_name" data = PStr s /\
                    validate_model_name (PStr s) = true) /\
    (forall data, get_json = Ok data -> status r = 200%Z ->
       config w' = <["model_name" := item "model_name" data]> (config w)) /\
    (status r <> 200%Z -> config w' = config w /\ cfg_file w' = cfg_file w).
Proof.
  intros limited. rewrite rate_limit_run. fold limited.
  destruct limited.
  { eexists _, _. split; [reflexivity|].
    cbn [status too_many jsonify config cfg_file fs set_request_times].
    split; [auto|]. split; [reflexivity|].
    split; [tauto|].
    split; [split; [discriminate | intros [H _]; discriminate H]|].
    split; [split; [discriminate | intros [H _]; discriminate H]|].
    split; [discriminate | auto]. }
  set (w0 := set_request_times _ w).
  destruct (set_model_effects get_json w0)
    as (r & w' & Hrun & Hst & Hfs & _ & H200 & H500 & Hcfg & Hsame).
  exists r, w'. split; [exact Hrun|].
  split; [tauto|]. split; [exact Hfs|].
  split; [split; [|discriminate]|].
  { intros H. rewrite H in Hst. destruct Hst as [?|[?|?]]; discriminate. }
  split; [rewrite H500; tauto|]. split; [rewrite H200; tauto|].
  split; [exact Hcfg|].
  intros Hne. now rewrite (Hsame Hne).
Qed.

(** A name that passes [validate_model_name], sent to [/set_model]. *)
Lemma set_model_accepts (name : string) (client_ip : string) (current_time : Q)
    (w : world) :
  validate_model_name (PStr name) = true ->
  exists r2 w2,
    rate_limit (set_model (Ok (PDict {[ "model_name" := PStr name ]})))
      client_ip current_time w = (Ok r2, w2) /\
    (status r2 = 200 \/ status r2 = 429)%Z /\
    (status r2 = 429%Z <->
     (RATE_LIMIT <=? length (live client_ip current_time w))%nat = true) /\
    (status r2 = 200%Z -> config w2 !! "model_name" = Some (PStr name)).
Proof.
  intros Hv. rewrite rate_limit_run.
  destruct (RATE_LIMIT <=? length (live client_ip current_time w))%nat.
  { eexists _, _. split; [reflexivity|]. cbn [status too_many jsonify].
    split; [auto|]. split; [tauto | discriminate]. }
  rewrite set_model_run.
  rewrite bool_decide_false by (apply insert_non_empty).
  rewrite lookup_singleton_eq, Hv. eexists _, _. split; [reflexivity|].
  cbn [status jsonify]. split; [auto|].
  split; [split; discriminate|]. intros _.
  rewrite save_config_run. destruct (cfg_file _); cbn; apply lookup_insert_eq.
Qed.

(** X28: when [/list_models] answers, the state is unchanged and the
    answer lists exactly the names of the tags response that pass
    [validate_model_name] (no name when the tags request fails, answers
    another status or is not JSON).  Every listed name is one that
    [/set_model] accepts: sent there, it is answered 200 and stored, unless
    the rate limit of [/set_model] answers 429. *)
Theorem list_models_offers_accepted_names (env : tags_outcome) (w w' : world)
    (r : response) :
  list_models env w = (Ok r, w') ->
  w' = w /\
  exists names,
    r = jsonify [("models", PList (map PStr names))] 200 /\
    ((forall all, env <> TagsModels all) -> names = []) /\
    (forall all, env = TagsModels all ->
       names = List.filter (fun name => validate_model_name (PStr name)) all /\
       forall name, In name names <->
                    In name all /\ validate_model_name (PStr name) = true) /\
    forall name, In name names ->
      validate_model_name (PStr name) = true /\
      forall client_ip current_time,
        exists r2 w2,
          rate_limit (set_model (Ok (PDict {[ "model_name" := PStr name ]})))
            client_ip current_time w = (Ok r2, w2) /\
          (status r2 = 200 \/ status r2 = 429)%Z /\
          (status r2 = 429%Z <->
           (RATE_LIMIT <=? length (live client_ip current_time w))%nat = true) /\
          (status r2 = 200%Z -> config w2 !! "model_name" = Some (PStr name)).
Proof.
  intros H. unfold list_models, bind, try_except in H.
  destruct env as [| | | |all]; cbn in H; try discriminate H;
    try (injection H as <- <-; split; [reflexivity|]; exists []; split; [reflexivity|];
         split; [reflexivity|]; split; [discriminate | intros ? []]).
  injection H as <- <-. split; [reflexivity|].
  eexists. split; [reflexivity|].
  split; [intros H; now destruct (H all)|].
  split.
  { intros all' [= <-]. split; [reflexivity|]. intros name. apply filter_In. }
  intros name Hin. apply filter_In in Hin as [_ Hv]. split; [exact Hv|].
  intros ip t. now apply set_model_accepts.
Qed.

(** ** Requests that arrive while others run *)

Lemma route_inv (env : setup_env) (data : pyval) (s : system) :
  setup_inv s /\ all_valid s ->
  setup_inv (snd (auto_setup_route env data s)) /\
  all_valid (snd (auto_setup_route env data s)).
Proof.
  intros [Hinv Hval]. unfold auto_setup_route.
  destruct (negb (truthy data) || negb (is_dict data)); [now split|].
  set (m := match data with PDict d => _ | _ => _ end).
  destruct (negb (is_str m)); [now split|].
  destruct (validate_model_name m) eqn:Hv; cbn [negb]; [|now split].
  cbn [snd]. destruct Hinv as (I1 & I2 & I3 & I4 & I5).
  assert (Hold : forall i t, threads s !! i = Some t ->
            (threads s ++ [Thread env m AtEntry])%list !! i = Some t).
  { intros i t Ht. rewrite lookup_app_l; [exact Ht|]. now apply lookup_lt_Some in Ht. }
  assert (Hnew : forall i t, (threads s ++ [Thread env m AtEntry])%list !! i = Some t ->
            threads s !! i = Some t \/ t = Thread env m AtEntry).
  { intros i t Ht. apply lookup_app_Some in Ht as [Ht|[_ Ht]]; [now left|right].
    destruct (i - length (threads s))%nat; [now injection Ht | discriminate]. }
  split; [unfold setup_inv, log_tids; cbn [threads setup_lock executed]; repeat split|].
  - intros i t Ht Hin. apply Hnew in Ht as [Ht| ->]; [now apply (I1 i t) | destruct Hin].
  - intros i Hl. destruct (I2 i Hl) as (t & Ht & Hin). exists t. split; auto.
  - intros i Hi. destruct (I3 i Hi) as (t & Ht & H). exists t. split; auto.
  - exact I4.
  - intros i t Ht Hinv. apply Hnew in Ht as [Ht| ->]; [now apply (I5 i t) | now left].
  - intros j tj Ht. apply Hnew in Ht as [Ht| ->]; [now apply (Hval j tj) | exact Hv].
Qed.

Lemma thread_step_valid (i : nat) (s s' : system) :
  all_valid s -> thread_step i s = Some s' -> all_valid s'.
Proof.
  intros Hval Hstep j tj Hj.
  assert (Hset : forall t p, threads s !! i = Some t ->
            <[i := at_pc t p]> (threads s) !! j = Some tj ->
            validate_model_name (th_model tj) = true).
  { intros t p Ht Hl. rewrite (lookup_set_thread _ _ _ _ _ Ht) in Hl.
    destruct (decide (i = j)); [|now apply (Hval j)].
    injection Hl as <-. exact (Hval i t Ht). }
  revert Hstep. unfold thread_step.
  destruct (threads s !! i) as [t|] eqn:Ht; [|discriminate].
  destruct (th_pc t) as [| |st|r].
  - destruct (negb _); intros [= <-]; now apply (Hset t _ eq_refl Hj).
  - destruct (setup_lock s); [discriminate|]. intros [= <-].
    now apply (Hset t _ eq_refl Hj).
  - destruct (run_stage _ _ _ _) as [[[r|next]|e] w']; intros [= <-];
      now apply (Hset t _ eq_refl Hj).
  - discriminate.
Qed.

Lemma run_events_inv (events : list event) (s : system) :
  setup_inv s /\ all_valid s ->
  setup_inv (run_events events s) /\ all_valid (run_events events s).
Proof.
  revert s. induction events as [|[env data|i] rest IH]; intros s H; [exact H| |].
  - simpl. apply IH. now apply route_inv.
  - simpl. apply IH. destruct (thread_step i s) as [s'|] eqn:E; [|exact H].
    destruct H as [H1 H2]. split.
    + now apply thread_step_inv with i s.
    + now apply thread_step_valid with i s.
Qed.

(** X29: requests may arrive at [/auto_setup] at any moment, also while
    earlier threads are inside the set-up.  Starting with no thread, and
    whatever the order of arrivals and scheduler steps: the route starts a
    thread only for a name that passes [validate_model_name], at most one
    thread is inside the locked block, that thread holds [setup_lock], and
    the stages of different threads never interleave in the log. *)
Theorem auto_setup_requests_over_time (w : world) (events : list event) :
  let s := run_events events (System w None [] []) in
  (forall j tj, threads s !! j = Some tj -> validate_model_name (th_model tj) = true) /\
  (forall i j ti tj,
     threads s !! i = Some ti -> threads s !! j = Some tj ->
     in_setup ti -> in_setup tj -> i = j) /\
  (forall i ti, threads s !! i = Some ti -> in_setup ti -> setup_lock s = Some i) /\
  contiguous (map fst (executed s)).
Proof.
  intros s.
  assert (H0 : setup_inv (System w None [] []) /\ all_valid (System w None [] [])).
  { split; [exact (spawn_inv w []) | intros j tj Hj; discriminate Hj]. }
  destruct (run_events_inv events _ H0) as [(I1 & I2 & I3 & I4 & I5) Hval].
  fold s in I1, I2, I3, I4, I5, Hval. repeat split.
  - exact Hval.
  - intros i j ti tj Hi Hj Hti Htj.
    pose proof (I1 i ti Hi Hti). pose proof (I1 j tj Hj Htj). congruence.
  - exact I1.
  - exact I4.
Qed.

(** ** The further properties at sample inputs *)

Lemma sanitize_input_length_witness :
  (Py.len (sanitize_input (PStr "<b>bold</b>") 4) <= 4 * 4)%Z.
Proof.
  apply (sanitize_input_length (PStr "<b>bold</b>") 4). lia.
Defined.

Lemma sanitize_input_twice_witness :
  sanitize_input (PStr (sanitize_input (PStr "a<b") 10)) 20
  = sanitize_input (PStr "a<b") 10.
Proof.
  apply (sanitize_input_twice (PStr "a<b") 10 20). vm_compute. discriminate.
Defined.

Lemma save_config_load_config_witness :
  fst (load_config (snd (save_config sample_world))) = Ok (config sample_world).
Proof.
  apply (proj1 (save_config_load_config sample_world)).
  - discriminate.
  - intros v Hv. vm_compute in Hv. injection Hv as <-. reflexivity.
Defined.

Lemma validate_filename_accepted_witness :
  exists s, PStr "Report.PDF" = PStr s /\ s <> "" /\
    has_allowed_extension s /\
    Py.contains ".." (os_path_basename s) = false /\
    Py.contains "\" (os_path_basename s) = false /\
    (String.length (os_path_basename s) <= 255)%nat.
Proof.
  apply (validate_filename_accepted (PStr "Report.PDF")). vm_compute. reflexivity.
Defined.

Lemma rate_gate_other_clients_witness :
  request_times (snd (rate_gate "203.0.113.7" 5%Q sample_world)) !! "198.51.100.2"
  = request_times sample_world !! "198.51.100.2".
Proof.
  refine (proj1 (rate_gate_other_clients "203.0.113.7" "198.51.100.2" 5%Q sample_world _)).
  discriminate.
Defined.

Lemma rate_limit_sliding_window_witness :
  exists codes w',
    call_sequence "203.0.113.7" ([0; 10; 20; 30; 40; 50; 55; 56; 57; 58; 59] ++ [61])%Q%list
      sample_world = (Ok codes, w') /\
    (length (List.filter (fun x => Qltb (61 - x) RATE_WINDOW)
               (accepted ([0; 10; 20; 30; 40; 50; 55; 56; 57; 58; 59] ++ [61])%Q%list codes))
     <= RATE_LIMIT)%nat.
Proof.
  destruct (call_sequence_returns "203.0.113.7"
              ([0; 10; 20; 30; 40; 50; 55; 56; 57; 58; 59] ++ [61])%Q%list sample_world)
    as (codes & w' & Hrun & _).
  exists codes, w'. split; [exact Hrun|].
  apply (rate_limit_sliding_window "203.0.113.7"
           [0; 10; 20; 30; 40; 50; 55; 56; 57; 58; 59]%Q 61%Q sample_world codes w').
  - reflexivity.
  - simpl. repeat split;
      repeat (apply Forall_cons; split; [unfold Qle; simpl; lia|]); apply Forall_nil; exact I.
  - exact Hrun.
Defined.


Lemma flags_never_reset_witness :
  flag_set "setup_complete"
    (run_op (OpCheckInstalled (ProbeEnv NotFound NotFound))
       (World ∅ CfgAbsent ∅ (<["setup_complete" := PBool true]> default_config)
              idle_progress None)).
Proof.
  apply (flags_never_reset "setup_complete" (OpCheckInstalled (ProbeEnv NotFound NotFound))).
  - discriminate.
  - discriminate.
  - discriminate.
  - vm_compute. reflexivity.
Defined.

Lemma get_status_ready_witness :
  exists a b ready,
    config sample_world !! "ollama_installed" = Some a /\
    config sample_world !! "model_downloaded" = Some b /\
    field "ready" [("ollama_installed", PBool false); ("ollama_running", PBool true);
                   ("model_downloaded", PBool false); ("model_name", PStr "llama2");
                   ("setup_complete", PBool false); ("ready", PBool false)] = Some ready /\
    (truthy ready = true <->
     truthy a = true /\ HealthStatus 200 = HealthStatus 200 /\ truthy b = true) /\
    field "setup_complete"
          [("ollama_installed", PBool false); ("ollama_running", PBool true);
           ("model_downloaded", PBool false); ("model_name", PStr "llama2");
           ("setup_complete", PBool false); ("ready", PBool false)]
    = Some (default (PBool false) (config sample_world !! "setup_complete")).
Proof.
  refine (proj2 (get_status_ready (HealthStatus 200) sample_world sample_world _ _)).
  vm_compute. reflexivity.
Defined.

Lemma setup_status_incomplete_config_witness :
  exists e w',
    setup_status HealthError
      (snd (init_manager (World ∅ (CfgJson (PDict {[ "model_name" := PStr "phi3" ]}))
                                ∅ ∅ idle_progress None)))
    = (Raise e, w') /\ exn_cls e = KeyError.
Proof.
  apply (setup_status_incomplete_config {[ "model_name" := PStr "phi3" ]}
           "ollama_installed").
  - reflexivity.
  - simpl. auto.
  - vm_compute. reflexivity.
Defined.

Lemma save_prompt_read_prompt_witness :
  exists w1,
    save_prompt "/srv/app" (PStr "List the <key> points.") true sample_world
    = (Ok true, w1) /\
    read_prompt "/srv/app" w1
    = (Ok (Py.take 10000
             (universal_newlines (sanitize_input (PStr "List the <key> points.") 10000))),
       w1).
Proof.
  destruct (save_prompt_read_prompt "/srv/app" (PStr "List the <key> points.")
              sample_world) as [(w1 & Hsave & Hread & _) _].
  - vm_compute. discriminate.
  - exists w1. split; [exact Hsave | exact Hread].
Defined.


Lemma list_models_offers_accepted_names_witness :
  validate_model_name (PStr "mistral:latest") = true /\
  exists r2 w2,
    rate_limit (set_model (Ok (PDict {[ "model_name" := PStr "mistral:latest" ]})))
      "203.0.113.7" 5%Q sample_world = (Ok r2, w2) /\
    (status r2 = 200 \/ status r2 = 429)%Z /\
    (status r2 = 429%Z <->
     (RATE_LIMIT <=? length (live "203.0.113.7" 5%Q sample_world))%nat = true) /\
    (status r2 = 200%Z -> config w2 !! "model_name" = Some (PStr "mistral:latest")).
Proof.
  destruct (list_models_offers_accepted_names
              (TagsModels ["mistral:latest"; "tinyllama:1b"]) sample_world sample_world
              (jsonify [("models", PList [PStr "mistral:latest"])] 200))
    as (_ & names & Hr & _ & _ & Hnames).
  - vm_compute. reflexivity.
  - destruct (Hnames "mistral:latest") as [Hv Hset].
    + injection Hr as Hr.
      destruct names as [|n [|n' rest]]; try discriminate Hr.
      injection Hr as <-. now left.
    + split; [exact Hv | exact (Hset "203.0.113.7" 5%Q)].
Defined.

Lemma process_pdf_artifact_sanitized_witness :
  exists f text,
    Some sample_upload = Some f /\
    fs (snd (process_pdf "/srv/app" drop_non_ascii sample_pdf_env (Some sample_upload)
               sample_world))
      !! artifact_path "/srv/app" drop_non_ascii sample_pdf_env f = Some (File text) /\
    markup_free text /\ (Py.len text <= 4000000)%Z.
Proof.
  apply (process_pdf_artifact_sanitized "/srv/app" drop_non_ascii sample_pdf_env
           (Some sample_upload) sample_world
           (snd (process_pdf "/srv/app" drop_non_ascii sample_pdf_env (Some sample_upload)
                   sample_world))
           (success_response "000000000000004d_Annual_report_output.txt"
                             "Annual_report_output.txt")).
  - vm_compute. reflexivity.
  - reflexivity.
Defined.
